(** * Weather dashboard: the fetch / normalise / aggregate pipeline of [main.py]

    A shallow embedding of the Python script.  Python values coming from the
    provider are JSON values; exceptions are an explicit [result]; the script
    body runs in a state-and-exception monad over the two accumulating
    DataFrames, the list of rendered UI elements and the list of requested
    URLs. *)

From Stdlib Require Import List String Ascii Bool ZArith QArith Lia Arith.
Import ListNotations.

#[local] Set Warnings "-register-all".

Open Scope string_scope.
Open Scope list_scope.
Open Scope Z_scope.

(** ** Exceptions and fallible expressions *)

Inductive exn : Type :=
| ConnectionError            (* requests.get: DNS, refused connection, timeout *)
| JSONDecodeError            (* Response.json() on a body that is not JSON *)
| AttributeError             (* x.get / x.lower on a value without that method *)
| KeyError (key : string)    (* d[k] on a dict without k *)
| TypeError                  (* subscripting, iterating, adding or ordering the wrong type *)
| ValueError                 (* datetime.strptime on text that is not a date *)
| IndexError                 (* forecast[0] on an empty list *)
| InvalidIndexError          (* pandas: aligning a frame whose index repeats a label *)
| DuplicateWidgetID          (* Streamlit: a widget the page already holds *)
| DuplicateError.            (* Plotly: a trace fed a selection of several columns *)

Inductive result (A : Type) : Type :=
| Ok (a : A)
| Raise (e : exn).
Arguments Ok {A} a.
Arguments Raise {A} e.

Definition rbind {A B} (r : result A) (k : A -> result B) : result B :=
  match r with
  | Ok a => k a
  | Raise e => Raise e
  end.

Notation "'let!' x ':=' e 'in' k" := (rbind e (fun x => k))
  (at level 10, x name, e at level 100, k at level 200).

(** ** Python values received from the provider *)

(** A Python float: a finite value (every finite double is a rational),
    an infinity, or NaN.  [json.loads] produces all of them. *)
Inductive pyfloat : Type :=
| FFin (q : Q)
| FInf (negative : bool)
| FNaN.

(** What [Response.json()] returns.  A dict keeps its keys in insertion order;
    lookup takes the first binding of a key. *)
Inductive json : Type :=
| JNull
| JBool (b : bool)
| JInt (z : Z)
| JFloat (f : pyfloat)
| JStr (s : string)
| JArr (l : list json)
| JObj (o : list (string * json)).

Fixpoint assoc {A} (k : string) (o : list (string * A)) : option A :=
  match o with
  | [] => None
  | (k', v) :: o' => if String.eqb k k' then Some v else assoc k o'
  end.

(** [bool(v)] *)
Definition truthy (v : json) : bool :=
  match v with
  | JNull => false
  | JBool b => b
  | JInt z => negb (z =? 0)
  | JFloat (FFin q) => negb (Qnum q =? 0)
  | JFloat _ => true
  | JStr s => negb (String.eqb s "")
  | JArr l => match l with [] => false | _ => true end
  | JObj o => match o with [] => false | _ => true end
  end.

Definition pyfloat_eqb (x y : pyfloat) : bool :=
  match x, y with
  | FFin p, FFin q => Qeq_bool p q
  | FInf a, FInf b => Bool.eqb a b
  | FNaN, FNaN => true
  | _, _ => false
  end.

(** Two decoded documents that serialise to the same text. *)
Fixpoint json_eqb (a b : json) : bool :=
  match a, b with
  | JNull, JNull => true
  | JBool x, JBool y => Bool.eqb x y
  | JInt x, JInt y => Z.eqb x y
  | JFloat x, JFloat y => pyfloat_eqb x y
  | JStr x, JStr y => String.eqb x y
  | JArr l, JArr l' =>
      (fix all2 (l l' : list json) : bool :=
         match l, l' with
         | [], [] => true
         | x :: r, y :: r' => json_eqb x y && all2 r r'
         | _, _ => false
         end) l l'
  | JObj o, JObj o' =>
      (fix all2 (o o' : list (string * json)) : bool :=
         match o, o' with
         | [], [] => true
         | (k, x) :: r, (k', y) :: r' => String.eqb k k' && json_eqb x y && all2 r r'
         | _, _ => false
         end) o o'
  | _, _ => false
  end.

(** [v.get(k)]: only a dict has the method; a missing key gives None. *)
Definition py_get (v : json) (k : string) : result json :=
  match v with
  | JObj o => Ok (match assoc k o with Some x => x | None => JNull end)
  | _ => Raise AttributeError
  end.

(** [v[k]] with a string key. *)
Definition py_getitem (v : json) (k : string) : result json :=
  match v with
  | JObj o => match assoc k o with Some x => Ok x | None => Raise (KeyError k) end
  | _ => Raise TypeError
  end.

(** [for x in v]: a list yields its elements, a dict its keys, a string its
    characters; nothing else is iterable. *)
Fixpoint chars (s : string) : list string :=
  match s with
  | EmptyString => []
  | String c s' => String c EmptyString :: chars s'
  end.

Definition py_iter (v : json) : result (list json) :=
  match v with
  | JArr l => Ok l
  | JObj o => Ok (map (fun kv => JStr (fst kv)) o)
  | JStr s => Ok (map JStr (chars s))
  | _ => Raise TypeError
  end.

(** ["http:" + v] *)
Definition http_prefix (v : json) : result string :=
  match v with
  | JStr s => Ok ("http:" ++ s)%string
  | _ => Raise TypeError
  end.

(** Ordering a value against an int literal.  bool is a subclass of int; a
    float is compared by its exact value; NaN is unordered. *)
Definition cmp_int (v : json) (k : Z) : result (option comparison) :=
  match v with
  | JBool b => Ok (Some (Z.b2z b ?= k))
  | JInt z => Ok (Some (z ?= k))
  | JFloat (FFin q) => Ok (Some (Qcompare q (inject_Z k)))
  | JFloat (FInf negative) => Ok (Some (if negative then Lt else Gt))
  | JFloat FNaN => Ok None
  | _ => Raise TypeError
  end.

Definition py_gt (v : json) (k : Z) : result bool :=
  let! c := cmp_int v k in
  Ok (match c with Some Gt => true | _ => false end).

Definition py_lt (v : json) (k : Z) : result bool :=
  let! c := cmp_int v k in
  Ok (match c with Some Lt => true | _ => false end).

Definition py_ge (v : json) (k : Z) : result bool :=
  let! c := cmp_int v k in
  Ok (match c with Some Gt | Some Eq => true | _ => false end).

(** ** Text

    A character stands for a code point below 256; the emoji of the
    script's messages lie outside that range and are left out of the
    literals below. *)

Definition isspace (c : ascii) : bool :=
  let n := nat_of_ascii c in
  ((9 <=? n) && (n <=? 13) || (28 <=? n) && (n <=? 32) || (n =? 133) || (n =? 160))%nat.

Fixpoint lstrip (s : string) : string :=
  match s with
  | EmptyString => EmptyString
  | String c s' => if isspace c then lstrip s' else s
  end.

Fixpoint rstrip (s : string) : string :=
  match s with
  | EmptyString => EmptyString
  | String c s' =>
      match rstrip s' with
      | EmptyString => if isspace c then EmptyString else String c EmptyString
      | r => String c r
      end
  end.

(** [s.strip()] *)
Definition strip (s : string) : string := rstrip (lstrip s).

(** [s.split(",")] *)
Fixpoint split_comma (s : string) : list string :=
  match s with
  | EmptyString => [EmptyString]
  | String c s' =>
      if Ascii.eqb c "," then EmptyString :: split_comma s'
      else match split_comma s' with
           | [] => [String c EmptyString]
           | w :: ws => String c w :: ws
           end
  end.

Definition lower_char (c : ascii) : ascii :=
  let n := nat_of_ascii c in
  if ((65 <=? n) && (n <=? 90) || (192 <=? n) && (n <=? 222) && negb (n =? 215))%nat
  then ascii_of_nat (n + 32) else c.

(** [s.lower()] *)
Fixpoint lower (s : string) : string :=
  match s with
  | EmptyString => EmptyString
  | String c s' => String (lower_char c) (lower s')
  end.

(** [s.startswith(pre)] *)
Fixpoint startswith (pre s : string) : bool :=
  match pre with
  | EmptyString => true
  | String a pre' =>
      match s with
      | EmptyString => false
      | String b s' => Ascii.eqb a b && startswith pre' s'
      end
  end.

(** [sub in s] *)
Fixpoint contains (sub s : string) : bool :=
  startswith sub s ||
  match s with
  | EmptyString => false
  | String _ s' => contains sub s'
  end.

(** ** Dates: [datetime.strptime(text, "%Y-%m-%d")] *)

Record date : Type := mkdate { year : nat; month : nat; day : nat }.

(** The parsed value is a datetime at midnight; [.date()] drops the time. *)
Definition datetime : Type := date.
Definition date_of (d : datetime) : date := d.

Definition date_eqb (a b : date) : bool :=
  ((year a =? year b) && (month a =? month b) && (day a =? day b))%nat.

Definition date_ltb (a b : date) : bool :=
  ((year a <? year b)
   || (year a =? year b) && ((month a <? month b)
                             || (month a =? month b) && (day a <? day b)))%nat.

Definition digit (c : ascii) : option nat :=
  let n := nat_of_ascii c in
  if ((48 <=? n) && (n <=? 57))%nat then Some (n - 48)%nat else None.

Definition is_leap (y : nat) : bool :=
  ((y mod 4 =? 0) && (negb (y mod 100 =? 0) || (y mod 400 =? 0)))%nat.

Definition days_in_month (y m : nat) : nat :=
  match m with
  | 2 => if is_leap y then 29 else 28
  | 4 | 6 | 9 | 11 => 30
  | _ => 31
  end%nat.

(** [%m]: 1[0-2] | 0[1-9] | [1-9], then the rest of the text. *)
Definition parse_month (s : string) : option (nat * string) :=
  match s with
  | String a (String b rest) =>
      match digit a, digit b with
      | Some x, Some y =>
          let m := (10 * x + y)%nat in
          if ((1 <=? m) && (m <=? 12))%nat then Some (m, rest) else None
      | Some x, None => if (1 <=? x)%nat then Some (x, String b rest) else None
      | None, _ => None
      end
  | String a EmptyString =>
      match digit a with
      | Some x => if (1 <=? x)%nat then Some (x, EmptyString) else None
      | None => None
      end
  | EmptyString => None
  end.

(** [%d]: 3[01] | [12]\d | 0[1-9] | [1-9] | " "[1-9], first alternative that
    matches; whatever text follows is left over. *)
Definition parse_day (s : string) : option (nat * string) :=
  match s with
  | EmptyString => None
  | String a rest =>
      let two :=
        match rest with
        | String b rest' =>
            match digit a, digit b with
            | Some x, Some y =>
                let d := (10 * x + y)%nat in
                if ((1 <=? d) && (d <=? 31))%nat then Some (d, rest') else None
            | _, _ => None
            end
        | EmptyString => None
        end in
      match two with
      | Some r => Some r
      | None =>
          match digit a with
          | Some x => if (1 <=? x)%nat then Some (x, rest) else None
          | None =>
              if Ascii.eqb a " " then
                match rest with
                | String b rest' =>
                    match digit b with
                    | Some y => if (1 <=? y)%nat then Some (y, rest') else None
                    | None => None
                    end
                | EmptyString => None
                end
              else None
          end
      end
  end.

Definition parse_ymd (s : string) : option date :=
  match s with
  | String a (String b (String c (String d (String dash rest)))) =>
      match digit a, digit b, digit c, digit d with
      | Some y3, Some y2, Some y1, Some y0 =>
          if Ascii.eqb dash "-" then
            match parse_month rest with
            | Some (m, String dash' rest') =>
                if Ascii.eqb dash' "-" then
                  match parse_day rest' with
                  | Some (dd, EmptyString) =>
                      Some (mkdate (1000 * y3 + 100 * y2 + 10 * y1 + y0) m dd)
                  | _ => None
                  end
                else None
            | _ => None
            end
          else None
      | _, _, _, _ => None
      end
  | _ => None
  end.

Definition strptime (v : json) : result datetime :=
  match v with
  | JStr s =>
      match parse_ymd s with
      | Some d =>
          if ((1 <=? year d) && (day d <=? days_in_month (year d) (month d)))%nat
          then Ok d else Raise ValueError
      | None => Raise ValueError
      end
  | _ => Raise TypeError
  end.

(** ** The flat records built by [get_weather] *)

Module ForecastDay.
Record t : Type := mk {
  date : datetime;
  temp_day : json;
  temp_night : json;
  weather : json;
  wind_kph : json;
  humidity : json;
  chance_of_rain : json;
  uv : json;
  sunrise : json;
  sunset : json;
  icon : string
}.
End ForecastDay.

Module CityWeather.
Record t : Type := mk {
  city : json;
  region : json;
  country : json;
  temp : json;
  humidity : json;
  weather : json;
  wind_kph : json;
  wind_dir : json;
  sunrise : json;
  sunset : json;
  icon : string;
  forecast : list ForecastDay.t
}.
End CityWeather.

(** [v[k1][k2]...] *)
Fixpoint py_path (v : json) (ks : list string) : result json :=
  match ks with
  | [] => Ok v
  | k :: ks' => let! x := py_getitem v k in py_path x ks'
  end.

(** The dict literal appended per forecast day (lines 92-104), its items
    evaluated top to bottom. *)
Definition forecast_entry (day : json) : result ForecastDay.t :=
  let! date_text := py_getitem day "date" in
  let! date := strptime date_text in
  let! temp_day := py_path day ["day"; "maxtemp_c"] in
  let! temp_night := py_path day ["day"; "mintemp_c"] in
  let! weather := py_path day ["day"; "condition"; "text"] in
  let! wind_kph := py_path day ["day"; "maxwind_kph"] in
  let! humidity := py_path day ["day"; "avghumidity"] in
  let! chance_of_rain := py_path day ["day"; "daily_chance_of_rain"] in
  let! uv := py_path day ["day"; "uv"] in
  let! sunrise := py_path day ["astro"; "sunrise"] in
  let! sunset := py_path day ["astro"; "sunset"] in
  let! icon_ref := py_path day ["day"; "condition"; "icon"] in
  let! icon := http_prefix icon_ref in
  Ok (ForecastDay.mk date temp_day temp_night weather wind_kph humidity
        chance_of_rain uv sunrise sunset icon).

(** The loop of lines 90-104: one entry per element, in the given order;
    the first failing element aborts. *)
Fixpoint forecast_loop (days : list json) : result (list ForecastDay.t) :=
  match days with
  | [] => Ok []
  | day :: rest =>
      let! entry := forecast_entry day in
      let! entries := forecast_loop rest in
      Ok (entry :: entries)
  end.

(** [forecast[0]] *)
Definition first_entry (forecast : list ForecastDay.t) : result ForecastDay.t :=
  match forecast with
  | [] => Raise IndexError
  | d :: _ => Ok d
  end.

(** Lines 85-119 of [get_weather]: what happens to the decoded body. *)
Definition normalize (response : json) : result (option CityWeather.t) :=
  let! err := py_get response "error" in
  if truthy err then Ok None else
  let! current := py_getitem response "current" in
  let! location := py_getitem response "location" in
  let! forecast_days := py_path response ["forecast"; "forecastday"] in
  let! days := py_iter forecast_days in
  let! forecast := forecast_loop days in
  let! city := py_getitem location "name" in
  let! region := py_getitem location "region" in
  let! country := py_getitem location "country" in
  let! temp := py_getitem current "temp_c" in
  let! humidity := py_getitem current "humidity" in
  let! weather := py_path current ["condition"; "text"] in
  let! wind_kph := py_getitem current "wind_kph" in
  let! wind_dir := py_getitem current "wind_dir" in
  let! day0 := first_entry forecast in
  let! day0' := first_entry forecast in
  let! icon_ref := py_path current ["condition"; "icon"] in
  let! icon := http_prefix icon_ref in
  Ok (Some (CityWeather.mk city region country temp humidity weather wind_kph
              wind_dir (ForecastDay.sunrise day0) (ForecastDay.sunset day0')
              icon forecast)).

(** [response["forecast"]["forecastday"]], as the loop iterates it. *)
Definition forecast_days (response : json) : result (list json) :=
  let! listed := py_path response ["forecast"; "forecastday"] in
  py_iter listed.

(** The date the loop parses for one provider day. *)
Definition day_date (day : json) : result datetime :=
  let! date_text := py_getitem day "date" in
  strptime date_text.

Fixpoint ascending (dates : list date) : bool :=
  match dates with
  | [] => true
  | a :: rest => match rest with
                 | [] => true
                 | b :: _ => date_ltb a b && ascending rest
                 end
  end.

(** ** DataFrames

    Column-major: an index of row labels and named columns of cells, every
    column as long as the index.  Column names may repeat. *)

Inductive label : Type :=
| LDate (d : datetime)     (* DatetimeIndex entry *)
| LPos (n : nat).          (* RangeIndex entry *)

Inductive cell : Type :=
| CVal (v : json)
| CDate (d : datetime)
| CNaN.                    (* the gap left by an outer join *)

Record DataFrame : Type := mkDataFrame {
  index : list label;
  columns : list (string * list cell)
}.

(** [pd.DataFrame()] *)
Definition empty_frame : DataFrame := mkDataFrame [] [].

(** [df.empty]: some axis has length 0. *)
Definition df_empty (df : DataFrame) : bool :=
  match index df, columns df with
  | [], _ | _, [] => true
  | _, _ => false
  end.

Definition nrows (df : DataFrame) : nat := List.length (index df).
Definition ncols (df : DataFrame) : nat := List.length (columns df).

Definition label_eqb (a b : label) : bool :=
  match a, b with
  | LDate x, LDate y => date_eqb x y
  | LPos x, LPos y => Nat.eqb x y
  | _, _ => false
  end.

Fixpoint index_eqb (a b : list label) : bool :=
  match a, b with
  | [], [] => true
  | x :: a', y :: b' => label_eqb x y && index_eqb a' b'
  | _, _ => false
  end.

Definition mem (x : label) (l : list label) : bool := existsb (label_eqb x) l.

Fixpoint is_unique (l : list label) : bool :=
  match l with
  | [] => true
  | x :: l' => negb (mem x l') && is_unique l'
  end.

Definition count (x : label) (l : list label) : nat :=
  List.length (filter (label_eqb x) l).

(** Distinct labels in order of first appearance. *)
Fixpoint uniq (l : list label) : list label :=
  match l with
  | [] => []
  | x :: l' => x :: filter (fun y => negb (label_eqb x y)) (uniq l')
  end.

(** pandas' union of two indexes that may repeat labels: every distinct label,
    as often as the side that has it most. *)
Definition union_with_duplicates (a b : list label) : list label :=
  flat_map (fun x => repeat x (Nat.max (count x a) (count x b))) (uniq (a ++ b)).

(** The order of row labels: dates by the calendar, positions by number. *)
Definition label_leb (a b : label) : bool :=
  match a, b with
  | LDate x, LDate y => negb (date_ltb y x)
  | LPos x, LPos y => Nat.leb x y
  | LDate _, LPos _ => true
  | LPos _, LDate _ => false
  end.

Fixpoint insert_label (x : label) (l : list label) : list label :=
  match l with
  | [] => [x]
  | y :: l' => if label_leb x y then x :: l else y :: insert_label x l'
  end.

(** [Index.sort_values()] *)
Definition sort_labels (l : list label) : list label :=
  fold_right insert_label [] l.

Fixpoint sorted_labels (l : list label) : bool :=
  match l with
  | [] => true
  | x :: rest => match rest with
                 | [] => true
                 | y :: _ => label_leb x y && sorted_labels rest
                 end
  end.

(** The row labels of [pd.concat([a, b], axis=1)]: equal indexes and an empty
    side are taken as they are (an empty frame is dropped from the join);
    anything else is united and, the labels being dates, sorted. *)
Definition combined_index (a b : list label) : list label :=
  if index_eqb a b then a
  else match a, b with
       | [], _ => b
       | _, [] => a
       | _, _ => sort_labels (union_with_duplicates a b)
       end.

Fixpoint position (x : label) (l : list label) : option nat :=
  match l with
  | [] => None
  | y :: l' => if label_eqb x y then Some O
               else match position x l' with
                    | Some i => Some (S i)
                    | None => None
                    end
  end.

Definition take_cell (old : list label) (cells : list cell) (x : label) : cell :=
  match position x old with
  | Some i => nth i cells CNaN
  | None => CNaN
  end.

(** Align a frame on new row labels; a label the frame lacks becomes a gap.
    pandas refuses when the frame's own labels repeat. *)
Definition reindex (idx : list label) (df : DataFrame) : result DataFrame :=
  if index_eqb (index df) idx then Ok df
  else if is_unique (index df) then
    Ok (mkDataFrame idx
          (map (fun c => (fst c, map (take_cell (index df) (snd c)) idx))
               (columns df)))
  else Raise InvalidIndexError.

(** [pd.concat([a, b], axis=1)]: outer join on the row labels, the columns of
    [a] followed by those of [b]. *)
Definition concat_columns (a b : DataFrame) : result DataFrame :=
  let idx := combined_index (index a) (index b) in
  let! a' := reindex idx a in
  let! b' := reindex idx b in
  Ok (mkDataFrame idx (columns a' ++ columns b')).

Definition range_index (n : nat) : list label := map LPos (seq 0 n).

Definition has_column (name : string) (df : DataFrame) : bool :=
  match assoc name (columns df) with Some _ => true | None => false end.

(** [pd.concat([a, b], ignore_index=True)] for frames whose column names do
    not repeat: rows of [a] then rows of [b] under the union of the columns,
    renumbered from 0. *)
Definition concat_rows (a b : DataFrame) : DataFrame :=
  mkDataFrame
    (range_index (nrows a + nrows b))
    (map (fun c => (fst c,
                    snd c ++ match assoc (fst c) (columns b) with
                             | Some cells => cells
                             | None => repeat CNaN (nrows b)
                             end))
         (columns a)
     ++ map (fun c => (fst c, repeat CNaN (nrows a) ++ snd c))
            (filter (fun c => negb (has_column (fst c) a)) (columns b))).

(** ** The world around the script *)

Record http_response : Type := mkResponse {
  status_code : Z;
  json_body : result json          (* Response.json() *)
}.

(** What the run depends on and the script does not decide. *)
Record Environment : Type := mkEnv {
  API_KEY : option string;                         (* os.getenv("WEATHER_API_KEY") *)
  requests_get : string -> result http_response;   (* the network, by URL *)
  cities_input : string;                           (* st.text_input *)
  screen_width : Z;                                (* st.sidebar.slider *)
  screen_height : Z;
  date_input : string -> date;                     (* st.date_input, by label *)
  str_other : json -> string;                      (* str(v), v not a string *)
  strftime : date -> string;                       (* '%A, %d %B %Y' *)
  setitem_nonscalar : nat -> json -> result (list cell)
                                                   (* df[col] = v, v a list or dict *)
}.

(** Calls into the rendering framework, in the order made.  The layout
    containers ([with cols[i]]) are not recorded. *)
Inductive ui_event : Type :=
| st_set_page_config (page_title layout : string)
| st_title (body : string)
| st_error (body : string)
| st_markdown (body : string) (unsafe_allow_html : bool)
| st_subheader (body : string)
| st_write (body : string)
| st_image (image : string) (width : Z)
| st_lottie (animation : json) (height width : Z) (key : option string)
| st_date_input (label : string)
| st_plotly_chart (traces : list (string * list label * list (list cell))) (width : Z)
| st_download_button (label : string) (data : DataFrame) (file_name mime : string)
| st_info (body : string).

Record State : Type := mkState {
  comparison_df : DataFrame;
  download_df : DataFrame;
  ui : list ui_event;
  requested : list string          (* URLs handed to requests.get *)
}.

Definition init_state : State := mkState empty_frame empty_frame [] [].

(** A statement: it changes the state and finishes or raises. *)
Definition M (A : Type) : Type := State -> State * result A.

Definition ret {A} (a : A) : M A := fun st => (st, Ok a).

Definition bind {A B} (m : M A) (k : A -> M B) : M B :=
  fun st => match m st with
            | (st', Ok a) => k a st'
            | (st', Raise e) => (st', Raise e)
            end.

Definition lift {A} (r : result A) : M A := fun st => (st, r).

Declare Scope script_scope.
Delimit Scope script_scope with script.
Notation "x <- m ;; k" := (bind m (fun x => k))
  (at level 61, m at next level, right associativity) : script_scope.
Notation "m ;; k" := (bind m (fun _ => k))
  (at level 61, right associativity) : script_scope.
Open Scope script_scope.

(** An element the page takes as it comes: one without identity (text,
    image, message), or one the script asks for once (chart, download
    button).  The widgets asked for once per city go through [widget]
    below. *)
Definition render (e : ui_event) : M unit :=
  fun st => (mkState (comparison_df st) (download_df st) (ui st ++ [e]) (requested st), Ok tt).

(** Widgets have an identity.  The script gives a key to the background
    animation only; every other widget is identified by its arguments: a date
    input by its label (the dates it is given are the same at every call), an
    animation without a key by what it plays and its size. *)
Definition same_widget (e e' : ui_event) : bool :=
  match e, e' with
  | st_date_input l, st_date_input l' => String.eqb l l'
  | st_lottie _ _ _ (Some k), st_lottie _ _ _ (Some k') => String.eqb k k'
  | st_lottie a h w None, st_lottie a' h' w' None =>
      json_eqb a a' && Z.eqb h h' && Z.eqb w w'
  | _, _ => false
  end.

Definition refused (shown : list ui_event) (e : ui_event) : bool :=
  existsb (same_widget e) shown.

(** A widget call: Streamlit refuses a widget the page already holds, and
    the call raises without adding anything. *)
Definition widget (e : ui_event) : M unit :=
  fun st => if refused (ui st) e then (st, Raise DuplicateWidgetID) else render e st.

Definition set_comparison_df (df : DataFrame) : M unit :=
  fun st => (mkState df (download_df st) (ui st) (requested st), Ok tt).

Definition set_download_df (df : DataFrame) : M unit :=
  fun st => (mkState (comparison_df st) df (ui st) (requested st), Ok tt).

Definition read {A} (f : State -> A) : M A := fun st => (st, Ok (f st)).

Definition when (b : bool) (m : M unit) : M unit := if b then m else ret tt.

(** Message literals (emoji and inner double quotes left out, the style
    sheet on one line). *)
Definition DEGREE : string := String "176"%char EmptyString.

Definition HOT_DAY_ALERT : string := " **Hot day alert!** ".
Definition COLD_DAY_ALERT : string := " **Cold day alert!** ".
Definition HIGH_UV_ALERT : string := " **High UV Index!** ".
Definition HIGH_RAIN_ALERT : string := " **High chance of rain!** ".

Definition WEATHER_LOTTIE : list (string * string) :=
  [ ("Sunny", "https://assets3.lottiefiles.com/packages/lf20_sun.json");
    ("Clear", "https://assets3.lottiefiles.com/packages/lf20_sun.json");
    ("Partly cloudy", "https://assets5.lottiefiles.com/packages/lf20_cloudy.json");
    ("Cloudy", "https://assets5.lottiefiles.com/packages/lf20_cloudy.json");
    ("Rain", "https://assets3.lottiefiles.com/packages/lf20_rain.json");
    ("Snow", "https://assets3.lottiefiles.com/packages/lf20_snow.json");
    ("Thunderstorm", "https://assets3.lottiefiles.com/packages/lf20_thunder.json");
    ("Mist", "https://assets3.lottiefiles.com/packages/lf20_fog.json") ].

(** [v.lower()] *)
Definition py_lower (v : json) : result string :=
  match v with
  | JStr s => Ok (lower s)
  | _ => Raise AttributeError
  end.

(** The columns of [pd.DataFrame(weather["forecast"])], in key order. *)
Definition forecast_columns (forecast : list ForecastDay.t) : list (string * list cell) :=
  [ ("date", map (fun d => CDate (ForecastDay.date d)) forecast);
    ("temp_day", map (fun d => CVal (ForecastDay.temp_day d)) forecast);
    ("temp_night", map (fun d => CVal (ForecastDay.temp_night d)) forecast);
    ("weather", map (fun d => CVal (ForecastDay.weather d)) forecast);
    ("wind_kph", map (fun d => CVal (ForecastDay.wind_kph d)) forecast);
    ("humidity", map (fun d => CVal (ForecastDay.humidity d)) forecast);
    ("chance_of_rain", map (fun d => CVal (ForecastDay.chance_of_rain d)) forecast);
    ("uv", map (fun d => CVal (ForecastDay.uv d)) forecast);
    ("sunrise", map (fun d => CVal (ForecastDay.sunrise d)) forecast);
    ("sunset", map (fun d => CVal (ForecastDay.sunset d)) forecast);
    ("icon", map (fun d => CVal (JStr (ForecastDay.icon d))) forecast) ].

(** [next((d for d in forecast if d["date"].date() == selected_date), None)] *)
Definition forecast_for_date (forecast : list ForecastDay.t) (selected_date : date)
  : option ForecastDay.t :=
  find (fun d => date_eqb (date_of (ForecastDay.date d)) selected_date) forecast.

Section Script.

Variable env : Environment.

(** [str(v)], as an f-string field renders it. *)
Definition py_str (v : json) : string :=
  match v with
  | JStr s => s
  | _ => str_other env v
  end.

(** [requests.get(url)] *)
Definition http_get (url : string) : M http_response :=
  fun st => (mkState (comparison_df st) (download_df st) (ui st) (requested st ++ [url]),
             requests_get env url).

Definition forecast_url (city : string) : string :=
  ("http://api.weatherapi.com/v1/forecast.json?key="
   ++ match API_KEY env with Some k => k | None => "None" end
   ++ "&q=" ++ city ++ "&days=7&aqi=no&alerts=no")%string.

Definition get_weather (city : string) : M (option CityWeather.t) :=
  r <- http_get (forecast_url city) ;;
  response <- lift (json_body r) ;;
  lift (normalize response).

(** What [get_weather] hands back: a record, None, or the exception it lets
    through. *)
Definition fetched (city : string) : result (option CityWeather.t) :=
  let! r := requests_get env (forecast_url city) in
  let! response := json_body r in
  normalize response.

(** Python's None is JNull here. *)
Definition load_lottie (url : string) : M json :=
  r <- http_get url ;;
  if negb (status_code r =? 200) then ret JNull
  else lift (json_body r).

Fixpoint lottie_lookup (table : list (string * string)) (condition : json) : M json :=
  match table with
  | [] => ret JNull
  | (key, url) :: rest =>
      c <- lift (py_lower condition) ;;
      if contains (lower key) c then load_lottie url
      else lottie_lookup rest condition
  end.

Definition get_lottie_for_condition (condition : json) : M json :=
  lottie_lookup WEATHER_LOTTIE condition.

Definition set_full_bg_animation (condition : json) (width height : Z) : M unit :=
  c <- lift (py_lower condition) ;;
  let url :=
    if contains "sun" c || contains "clear" c
    then Some "https://assets3.lottiefiles.com/packages/lf20_sun.json"
    else if contains "cloud" c
    then Some "https://assets5.lottiefiles.com/packages/lf20_cloudy.json"
    else if contains "rain" c || contains "thunder" c
    then Some "https://assets3.lottiefiles.com/packages/lf20_rain.json"
    else if contains "snow" c
    then Some "https://assets3.lottiefiles.com/packages/lf20_snow.json"
    else None in
  match url with
  | Some u =>
      lottie_bg <- load_lottie u ;;
      when (truthy lottie_bg)
           (widget (st_lottie lottie_bg height width (Some ("bg_" ++ py_str condition)%string)))
  | None => ret tt
  end.

Definition set_overlay_css : M unit :=
  render (st_markdown "<style> .overlay { background-color: rgba(255, 255, 255, 0.7); padding: 20px; border-radius: 15px; margin-bottom: 15px; } h1, h2, h3, h4, h5, h6, p, span { text-shadow: 1px 1px 3px black; } </style>" true).

(** Lines 197-204. *)
Definition extreme_alerts (d : ForecastDay.t) : M unit :=
  hot <- lift (py_gt (ForecastDay.temp_day d) 35) ;;
  (if hot then render (st_markdown HOT_DAY_ALERT false)
   else cold <- lift (py_lt (ForecastDay.temp_day d) 10) ;;
        when cold (render (st_markdown COLD_DAY_ALERT false))) ;;
  high_uv <- lift (py_ge (ForecastDay.uv d) 7) ;;
  when high_uv (render (st_markdown HIGH_UV_ALERT false)) ;;
  rainy <- lift (py_ge (ForecastDay.chance_of_rain d) 50) ;;
  when rainy (render (st_markdown HIGH_RAIN_ALERT false)).

(** Lines 180-204: the details of the selected day, then its alerts. *)
Definition forecast_details (d : ForecastDay.t) (selected_date : date) (width : Z) : M unit :=
  render (st_markdown ("**Forecast on " ++ strftime env selected_date ++ ":**")%string false) ;;
  lottie_forecast <- get_lottie_for_condition (ForecastDay.weather d) ;;
  (if truthy lottie_forecast then widget (st_lottie lottie_forecast 120 width None)
   else render (st_image (ForecastDay.icon d) 50)) ;;
  render (st_write (" Day Temp: " ++ py_str (ForecastDay.temp_day d) ++ DEGREE ++ "C")%string) ;;
  render (st_write (" Night Temp: " ++ py_str (ForecastDay.temp_night d) ++ DEGREE ++ "C")%string) ;;
  render (st_write (" Condition: " ++ py_str (ForecastDay.weather d))%string) ;;
  render (st_write (" Humidity: " ++ py_str (ForecastDay.humidity d) ++ "%")%string) ;;
  render (st_write (" Wind: " ++ py_str (ForecastDay.wind_kph d) ++ " kph")%string) ;;
  render (st_write (" Chance of Rain: " ++ py_str (ForecastDay.chance_of_rain d) ++ "%")%string) ;;
  render (st_write (" UV Index: " ++ py_str (ForecastDay.uv d))%string) ;;
  render (st_write (" Sunrise: " ++ py_str (ForecastDay.sunrise d)
                    ++ " |  Sunset: " ++ py_str (ForecastDay.sunset d))%string) ;;
  extreme_alerts d.

(** Lines 153-169: background, header and current conditions. *)
Definition current_conditions (weather : CityWeather.t) (width : Z) : M unit :=
  set_full_bg_animation (CityWeather.weather weather) (screen_width env) (screen_height env) ;;
  render (st_markdown "<div class=overlay>" true) ;;
  render (st_subheader (py_str (CityWeather.city weather) ++ ", "
                        ++ py_str (CityWeather.country weather))%string) ;;
  lottie_anim <- get_lottie_for_condition (CityWeather.weather weather) ;;
  (if truthy lottie_anim then widget (st_lottie lottie_anim 150 width None)
   else render (st_image (CityWeather.icon weather) 60)) ;;
  render (st_write ("**" ++ py_str (CityWeather.weather weather) ++ "**")%string) ;;
  render (st_write (" Temperature: " ++ py_str (CityWeather.temp weather) ++ DEGREE ++ "C")%string) ;;
  render (st_write (" Humidity: " ++ py_str (CityWeather.humidity weather) ++ "%")%string) ;;
  render (st_write (" Wind: " ++ py_str (CityWeather.wind_kph weather) ++ " kph "
                    ++ py_str (CityWeather.wind_dir weather))%string) ;;
  render (st_write (" Sunrise: " ++ py_str (CityWeather.sunrise weather)
                    ++ " |  Sunset: " ++ py_str (CityWeather.sunset weather))%string).

(** Lines 207-209: the date-indexed frame of the two temperature columns,
    renamed after the city. *)
Definition temp_df (weather : CityWeather.t) : DataFrame :=
  mkDataFrame
    (map (fun d => LDate (ForecastDay.date d)) (CityWeather.forecast weather))
    [ ((py_str (CityWeather.city weather) ++ "_day")%string,
       map (fun d => CVal (ForecastDay.temp_day d)) (CityWeather.forecast weather));
      ((py_str (CityWeather.city weather) ++ "_night")%string,
       map (fun d => CVal (ForecastDay.temp_night d)) (CityWeather.forecast weather)) ].

(** [city_csv_df["city"] = weather["city"]]: a scalar fills the column. *)
Definition city_column (n : nat) (v : json) : result (list cell) :=
  match v with
  | JArr _ | JObj _ => setitem_nonscalar env n v
  | _ => Ok (repeat (CVal v) n)
  end.

(** Lines 213-214. *)
Definition city_csv_df (weather : CityWeather.t) : result DataFrame :=
  let forecast := CityWeather.forecast weather in
  let! tag := city_column (List.length forecast) (CityWeather.city weather) in
  Ok (mkDataFrame (range_index (List.length forecast))
        (forecast_columns forecast ++ [("city", tag)])).

(** Lines 207-215: fold one city into the two tables. *)
Definition aggregate (weather : CityWeather.t) : M unit :=
  comparison <- read comparison_df ;;
  joined <- lift (concat_columns comparison (temp_df weather)) ;;
  set_comparison_df joined ;;
  csv <- lift (city_csv_df weather) ;;
  download <- read download_df ;;
  set_download_df (concat_rows download csv).

(** The body of the loop over cities (lines 149-219). *)
Definition city_block (city : string) : M unit :=
  weather <- get_weather city ;;
  match weather with
  | Some w =>
      let width := Z.min (screen_width env / 3) 300 in
      current_conditions w width ;;
      let label := ("Select a date for " ++ py_str (CityWeather.city w))%string in
      widget (st_date_input label) ;;
      let selected_date := date_input env label in
      match forecast_for_date (CityWeather.forecast w) selected_date with
      | Some d => forecast_details d selected_date width
      | None => ret tt
      end ;;
      aggregate w ;;
      render (st_markdown "</div>" true)
  | None => render (st_error ("City '" ++ city ++ "' not found!")%string)
  end.

Fixpoint city_loop (cities : list string) : M unit :=
  match cities with
  | [] => ret tt
  | city :: rest => city_block city ;; city_loop rest
  end.

(** Line 129. *)
Definition cities : list string := map strip (split_comma (cities_input env)).

(** [comparison_df[col]]: every column of that name. *)
Definition columns_named (name : string) (df : DataFrame) : list (list cell) :=
  map snd (filter (fun c => String.eqb (fst c) name) (columns df)).

(** [go.Scatter(x=comparison_df.index, y=comparison_df[col], name=col)]: the
    trace takes one column; a name that selects several is refused. *)
Definition scatter (df : DataFrame) (name : string)
  : result (string * list label * list (list cell)) :=
  match columns_named name df with
  | [] => Raise (KeyError name)
  | [y] => Ok (name, index df, [y])
  | _ => Raise DuplicateError
  end.

(** Lines 227-232: one trace per column name, in column order. *)
Fixpoint add_traces (df : DataFrame) (names : list string)
  : result (list (string * list label * list (list cell))) :=
  match names with
  | [] => Ok []
  | name :: rest =>
      let! trace := scatter df name in
      let! traces := add_traces df rest in
      Ok (trace :: traces)
  end.

(** Lines 224-238. *)
Definition comparison_chart : M unit :=
  comparison <- read comparison_df ;;
  when (negb (df_empty comparison))
    (render (st_markdown "##  Temperature Comparison Across Cities" false) ;;
     traces <- lift (add_traces comparison (map fst (columns comparison))) ;;
     render (st_plotly_chart traces (Z.min (screen_width env) 1000))).

(** Lines 243-245; the button's payload is [to_csv(index=False)] of the frame. *)
Definition csv_download : M unit :=
  download <- read download_df ;;
  when (negb (df_empty download))
    (render (st_markdown "##  Download Forecast Data" false) ;;
     render (st_download_button "Download CSV" download "weather_forecast.csv" "text/csv")).

(** The script, top to bottom. *)
Definition main : M unit :=
  when (match API_KEY env with Some (String _ _) => false | _ => true end)
       (render (st_error "API key not found! Please set WEATHER_API_KEY as an environment variable.")) ;;
  render (st_set_page_config "Weather Forecast" "wide") ;;
  render (st_title "  Weather Forecasting Information") ;;
  set_overlay_css ;;
  set_comparison_df empty_frame ;;
  set_download_df empty_frame ;;
  city_loop cities ;;
  comparison_chart ;;
  csv_download ;;
  render (st_markdown "---" false) ;;
  render (st_info "Data provided by [WeatherAPI](https://www.weatherapi.com/)").

(** The names of the two columns a city adds to the comparison table. *)
Definition series_names (w : CityWeather.t) : list string :=
  [ (py_str (CityWeather.city w) ++ "_day")%string;
    (py_str (CityWeather.city w) ++ "_night")%string ].

(** The records of the cities that were found, in input order. *)
Definition successes (names : list string) : list CityWeather.t :=
  flat_map (fun city => match fetched city with
                        | Ok (Some w) => [w]
                        | _ => []
                        end) names.

End Script.

(** The row labels a city brings to the comparison table. *)
Definition date_labels (w : CityWeather.t) : list label :=
  map (fun d => LDate (ForecastDay.date d)) (CityWeather.forecast w).

Definition day_temps (w : CityWeather.t) : list cell :=
  map (fun d => CVal (ForecastDay.temp_day d)) (CityWeather.forecast w).

Definition night_temps (w : CityWeather.t) : list cell :=
  map (fun d => CVal (ForecastDay.temp_night d)) (CityWeather.forecast w).

(** What a city's two columns hold in the row of a label, once aligned. *)
Definition day_cell (w : CityWeather.t) (x : label) : cell :=
  take_cell (date_labels w) (day_temps w) x.

Definition night_cell (w : CityWeather.t) (x : label) : cell :=
  take_cell (date_labels w) (night_temps w) x.

(** Requests to the forecast endpoint, as opposed to animation downloads. *)
Definition is_forecast_url (url : string) : bool :=
  startswith "http://api.weatherapi.com/v1/forecast.json?key=" url.

(** The frame of forecast rows with their city tags. *)
Definition export_frame (rows : list ForecastDay.t) (tag : list cell) : DataFrame :=
  mkDataFrame (range_index (List.length rows)) (forecast_columns rows ++ [("city", tag)]).

Definition export_of (rows : list ForecastDay.t) (tag : list cell) : DataFrame :=
  match rows with
  | [] => empty_frame
  | _ => export_frame rows tag
  end.

(** ** The alert table, as specified

    Four independent thresholds on the numbers of one forecast day. *)

Inductive AlertKind : Type := HotDay | ColdDay | HighUV | HighRainChance.

Definition alert_message (k : AlertKind) : string :=
  match k with
  | HotDay => HOT_DAY_ALERT
  | ColdDay => COLD_DAY_ALERT
  | HighUV => HIGH_UV_ALERT
  | HighRainChance => HIGH_RAIN_ALERT
  end.

Definition spec_alert_table (temp_day uv rain : Q) : list AlertKind :=
  (if Qlt_le_dec 35 temp_day then [HotDay] else [])
  ++ (if Qlt_le_dec temp_day 10 then [ColdDay] else [])
  ++ (if Qlt_le_dec uv 7 then [] else [HighUV])
  ++ (if Qlt_le_dec rain 50 then [] else [HighRainChance]).

(** The finite number a JSON int or float stands for. *)
Definition number (v : json) : option Q :=
  match v with
  | JInt z => Some (inject_Z z)
  | JFloat (FFin q) => Some q
  | _ => None
  end.

(** ** Sample provider data *)

(** A day on the hot, UV and rain boundaries: 35.0 degrees, UV 7.0, 50%. *)
Definition boundary_day : ForecastDay.t :=
  ForecastDay.mk (mkdate 2026 6 1) (JFloat (FFin (35 # 1))) (JInt 24) (JStr "Sunny")
    (JInt 12) (JInt 30) (JInt 50) (JFloat (FFin (7 # 1))) (JStr "05:10 AM")
    (JStr "07:02 PM") "http://cdn.weatherapi.com/weather/64x64/day/113.png".

(** A day on the cold boundary: 10.0 degrees, UV 6.5, 49%. *)
Definition cool_day : ForecastDay.t :=
  ForecastDay.mk (mkdate 2026 1 9) (JFloat (FFin (10 # 1))) (JInt 1) (JStr "Mist")
    (JInt 12) (JInt 30) (JInt 49) (JFloat (FFin (13 # 2))) (JStr "06:55 AM")
    (JStr "05:20 PM") "http://cdn.weatherapi.com/weather/64x64/day/143.png".

Definition sample_day (date_text : string) (maxtemp mintemp uv rain : json) (icon : string) : json :=
  JObj [ ("date", JStr date_text);
         ("day", JObj [ ("maxtemp_c", maxtemp);
                        ("mintemp_c", mintemp);
                        ("maxwind_kph", JFloat (FFin (25 # 2)));
                        ("avghumidity", JInt 40);
                        ("daily_chance_of_rain", rain);
                        ("uv", uv);
                        ("condition", JObj [ ("text", JStr "Mist"); ("icon", JStr icon) ]) ]);
         ("astro", JObj [ ("sunrise", JStr "06:10 AM"); ("sunset", JStr "05:40 PM") ]) ].

Definition sample_response (name icon : string) (days : list json) : json :=
  JObj [ ("location", JObj [ ("name", JStr name); ("region", JStr "Bagmati");
                             ("country", JStr "Nepal") ]);
         ("current", JObj [ ("temp_c", JFloat (FFin (41 # 2)));
                            ("humidity", JInt 55);
                            ("wind_kph", JFloat (FFin (9 # 1)));
                            ("wind_dir", JStr "NW");
                            ("condition", JObj [ ("text", JStr "Mist"); ("icon", JStr icon) ]) ]);
         ("forecast", JObj [ ("forecastday", JArr days) ]) ].

Definition relative_icon : string := "//cdn.weatherapi.com/weather/64x64/day/143.png".
Definition absolute_icon : string := "http://cdn.weatherapi.com/weather/64x64/day/143.png".

Definition mild_day (date_text : string) : json :=
  sample_day date_text (JFloat (FFin (45 # 2))) (JInt 11) (JInt 3) (JInt 20) relative_icon.

Definition week_of_november : list json :=
  map mild_day [ "2026-11-04"; "2026-11-05"; "2026-11-06"; "2026-11-07";
                 "2026-11-08"; "2026-11-09"; "2026-11-10" ].

Definition week_of_december : list json :=
  map mild_day [ "2026-12-01"; "2026-12-02"; "2026-12-03"; "2026-12-04";
                 "2026-12-05"; "2026-12-06"; "2026-12-07" ].

Definition three_days : list json :=
  map mild_day [ "2026-11-04"; "2026-11-05"; "2026-11-06" ].

(** The provider's own reply to an unknown place. *)
Definition no_match_response : json :=
  JObj [ ("error", JObj [ ("code", JInt 1006);
                          ("message", JStr "No matching location found.") ]) ].

(** A provider that knows the places of [known] and answers everything else,
    the animation URLs included, with status 400 and its error body. *)
Definition sample_provider (known : list (string * json)) (url : string)
  : result http_response :=
  match assoc url known with
  | Some body => Ok (mkResponse 200 (Ok body))
  | None => Ok (mkResponse 400 (Ok no_match_response))
  end.

Definition sample_env (input : string) (known : list (string * json)) : Environment :=
  mkEnv (Some "k") (sample_provider known) input 800 800
        (fun _ => mkdate 2026 11 4)
        (fun _ => "?")
        (fun _ => "Wednesday, 04 November 2026")
        (fun _ _ => Raise ValueError).

(** The record of a three-day body. *)
Definition kathmandu_three_days : CityWeather.t :=
  match normalize (sample_response "Kathmandu" relative_icon three_days) with
  | Ok (Some w) => w
  | _ => CityWeather.mk JNull JNull JNull JNull JNull JNull JNull JNull JNull JNull "" []
  end.

(** The records of a November week in Kathmandu and a December week in
    Pokhara. *)
Definition kathmandu_week : CityWeather.t :=
  match normalize (sample_response "Kathmandu" relative_icon week_of_november) with
  | Ok (Some w) => w
  | _ => CityWeather.mk JNull JNull JNull JNull JNull JNull JNull JNull JNull JNull "" []
  end.

Definition pokhara_december : CityWeather.t :=
  match normalize (sample_response "Pokhara" relative_icon week_of_december) with
  | Ok (Some w) => w
  | _ => CityWeather.mk JNull JNull JNull JNull JNull JNull JNull JNull JNull JNull "" []
  end.

(** A body carrying an [error] member next to everything else. *)
Definition with_error (v : json) (response : json) : json :=
  match response with
  | JObj o => JObj (("error", v) :: o)
  | _ => response
  end.

Definition url_of (city : string) : string :=
  ("http://api.weatherapi.com/v1/forecast.json?key=k&q=" ++ city
   ++ "&days=7&aqi=no&alerts=no")%string.

(** Kathmandu with a full week, Nowhere unknown to the provider. *)
Definition kathmandu_env : Environment :=
  sample_env "Kathmandu, Nowhere"
    [ (url_of "Kathmandu", sample_response "Kathmandu" relative_icon week_of_november) ].

(** Kathmandu entered twice. *)
Definition twice_env : Environment :=
  sample_env "Kathmandu,Kathmandu"
    [ (url_of "Kathmandu", sample_response "Kathmandu" relative_icon week_of_november) ].

(** Kathmandu in November and Pokhara in December, while the date input
    stays on 4 November. *)
Definition two_city_env : Environment :=
  sample_env "Kathmandu,Pokhara"
    [ (url_of "Kathmandu", sample_response "Kathmandu" relative_icon week_of_november);
      (url_of "Pokhara", sample_response "Pokhara" relative_icon week_of_december) ].

(** The same two cities, December entered first. *)
Definition december_first_env : Environment :=
  sample_env "Pokhara,Kathmandu"
    [ (url_of "Kathmandu", sample_response "Kathmandu" relative_icon week_of_november);
      (url_of "Pokhara", sample_response "Pokhara" relative_icon week_of_december) ].

(** Pokhara on a body that lists 1 December twice. *)
Definition pokhara_repeated_day : CityWeather.t :=
  match normalize (sample_response "Pokhara" relative_icon
                     [ mild_day "2026-12-01"; mild_day "2026-12-01" ]) with
  | Ok (Some w) => w
  | _ => CityWeather.mk JNull JNull JNull JNull JNull JNull JNull JNull JNull JNull "" []
  end.

Definition repeated_day_env : Environment :=
  sample_env "Kathmandu,Pokhara"
    [ (url_of "Kathmandu", sample_response "Kathmandu" relative_icon week_of_november);
      (url_of "Pokhara", sample_response "Pokhara" relative_icon
                           [ mild_day "2026-12-01"; mild_day "2026-12-01" ]) ].

(** Two cities with the same seven dates. *)
Definition same_week_env : Environment :=
  sample_env "Kathmandu,Lalitpur"
    [ (url_of "Kathmandu", sample_response "Kathmandu" relative_icon week_of_november);
      (url_of "Lalitpur", sample_response "Lalitpur" relative_icon week_of_november) ].

(** Kathmandu on a plan that lists three days. *)
Definition three_day_env : Environment :=
  sample_env "Kathmandu"
    [ (url_of "Kathmandu", sample_response "Kathmandu" relative_icon three_days) ].

(** A week whose second day carries an impossible date. *)
Definition week_with_bad_date : list json :=
  [ mild_day "2026-11-04"; mild_day "2026-02-30"; mild_day "2026-11-06" ].

(** The members of the sample body in another order, with one more. *)
Definition shuffled_members (response : json) : json :=
  match response with
  | JObj o => JObj (("alerts", JObj []) :: rev o)
  | _ => response
  end.

(** A snapshot whose condition text matches no animation key and no
    background keyword. *)
Definition overcast_city : CityWeather.t :=
  CityWeather.mk (JStr "Pokhara") (JStr "Gandaki") (JStr "Nepal") (JInt 18) (JInt 70)
    (JStr "Overcast") (JInt 6) (JStr "E") (JStr "06:20 AM") (JStr "05:30 PM")
    "http://cdn.weatherapi.com/weather/64x64/day/122.png" [cool_day].

(** No network at all. *)
Definition offline_env : Environment :=
  mkEnv None (fun _ => Raise ConnectionError) "Kathmandu,Pokhara" 800 800
        (fun _ => mkdate 2026 11 4) (fun _ => "?") (fun _ => "")
        (fun _ _ => Raise ValueError).

(** Kathmandu with no day temperature for 4 November, the date the date
    input stays on. *)
Definition null_reading_env : Environment :=
  sample_env "Kathmandu"
    [ (url_of "Kathmandu",
       sample_response "Kathmandu" relative_icon
         [ sample_day "2026-11-04" JNull (JInt 11) (JInt 3) (JInt 20) relative_icon;
           mild_day "2026-11-05" ]) ].

(** The same Kathmandu followed by a blank entry. *)
Definition null_then_blank_env : Environment :=
  sample_env "Kathmandu, "
    [ (url_of "Kathmandu",
       sample_response "Kathmandu" relative_icon
         [ sample_day "2026-11-04" JNull (JInt 11) (JInt 3) (JInt 20) relative_icon;
           mild_day "2026-11-05" ]) ].

(** ** Vocabulary of the statements *)

(** A statement that leaves both tables alone, adds to what is shown and
    requests nothing from the forecast endpoint. *)
Definition rendering {A} (m : M A) : Prop :=
  forall st, exists shown urls,
    fst (m st) = mkState (comparison_df st) (download_df st)
                   (ui st ++ shown) (requested st ++ urls)
    /\ Forall (fun u => is_forecast_url u = false) urls.

(** A statement that, however it ends, only adds to what is shown and to the
    requests, and asks nothing of the forecast endpoint. *)
Definition quiet {A} (m : M A) : Prop :=
  forall st, exists shown urls,
    ui (fst (m st)) = ui st ++ shown
    /\ requested (fst (m st)) = requested st ++ urls
    /\ Forall (fun u => is_forecast_url u = false) urls.

(** The message shown for a city the provider does not know. *)
Definition not_found_message (city : string) : ui_event :=
  st_error ("City '" ++ city ++ "' not found!")%string.

(** Is this element the CSV download button? *)
Definition offers_download (e : ui_event) : bool :=
  match e with
  | st_download_button _ _ _ _ => true
  | _ => false
  end.

(** Is this element an error message? *)
Definition is_error_message (e : ui_event) : bool :=
  match e with
  | st_error _ => true
  | _ => false
  end.

(** Commas of the input, and segments made of whitespace only. *)
Fixpoint commas (s : string) : nat :=
  match s with
  | EmptyString => O
  | String c s' => ((if Ascii.eqb c "," then 1 else 0) + commas s')%nat
  end.

Fixpoint blank (s : string) : bool :=
  match s with
  | EmptyString => true
  | String c s' => isspace c && blank s'
  end.

(** The tag column the assignment writes for each fetched city. *)
Definition tagged (env : Environment) (w : CityWeather.t) (tag : list cell) : Prop :=
  city_column env (List.length (CityWeather.forecast w)) (CityWeather.city w) = Ok tag.

(** A value that fills a whole column when assigned to it. *)
Definition scalar (v : json) : bool :=
  match v with
  | JArr _ | JObj _ => false
  | _ => true
  end.

(** Every column is as long as the index. *)
Definition well_formed (df : DataFrame) : Prop :=
  Forall (fun c => List.length (snd c) = List.length (index df)) (columns df).

(** A value the alert thresholds can be compared with: bool, int or float. *)
Definition orderable (v : json) : bool :=
  match v with
  | JBool _ | JInt _ | JFloat _ => true
  | _ => false
  end.

(** The keywords [set_full_bg_animation] looks for. *)
Definition has_background_keyword (c : string) : bool :=
  contains "sun" c || contains "clear" c || contains "cloud" c
  || contains "rain" c || contains "thunder" c || contains "snow" c.

(** The first entry of the animation table whose key occurs in the text. *)
Definition matching_animation (s : string) : option (string * string) :=
  find (fun entry => contains (lower (fst entry)) (lower s)) WEATHER_LOTTIE.

(** Lines 14-15 and 124-137: what the script does before the loop. *)
Definition page_header (env : Environment) : M unit :=
  when (match API_KEY env with Some (String _ _) => false | _ => true end)
       (render (st_error "API key not found! Please set WEATHER_API_KEY as an environment variable.")) ;;
  render (st_set_page_config "Weather Forecast" "wide") ;;
  render (st_title "  Weather Forecasting Information") ;;
  set_overlay_css ;;
  set_comparison_df empty_frame ;;
  set_download_df empty_frame.

(** The state in which the loop over the cities starts. *)
Definition before_loop (env : Environment) : State := fst (page_header env init_state).

(** Lines 224-248: what the script does after the loop. *)
Definition page_footer (env : Environment) : M unit :=
  comparison_chart env ;;
  csv_download ;;
  render (st_markdown "---" false) ;;
  render (st_info "Data provided by [WeatherAPI](https://www.weatherapi.com/)").

(** The elements only the end of the script renders. *)
Definition closing_element (e : ui_event) : bool :=
  match e with
  | st_plotly_chart _ _ | st_download_button _ _ _ _ | st_info _ => true
  | _ => false
  end.

(** The date inputs among the elements shown, by label. *)
Definition date_inputs (shown : list ui_event) : list string :=
  flat_map (fun e => match e with st_date_input label => [label] | _ => [] end) shown.

(** The label of a fetched city's date input (lines 172-173). *)
Definition date_input_label (env : Environment) (w : CityWeather.t) : string :=
  ("Select a date for " ++ py_str env (CityWeather.city w))%string.

Definition not_closing (e : ui_event) : bool := negb (closing_element e).

(** Neither a closing element nor a date input. *)
Definition plain_element (e : ui_event) : bool :=
  match e with
  | st_date_input _ => false
  | _ => negb (closing_element e)
  end.

(** A statement that, however it ends, only adds to what is shown, and adds
    elements of one kind only. *)
Definition shows {A} (kind : ui_event -> bool) (m : M A) : Prop :=
  forall st, exists shown,
    ui (fst (m st)) = ui st ++ shown
    /\ forallb kind shown = true.

Fixpoint last_char (s : string) : option ascii :=
  match s with
  | EmptyString => None
  | String c rest => match rest with
                     | EmptyString => Some c
                     | _ => last_char rest
                     end
  end.

(** * Properties *)

(** ** Fallible expressions *)

Lemma rbind_ok {A B} (r : result A) (k : A -> result B) (b : B) :
  rbind r k = Ok b -> exists a, r = Ok a /\ k a = Ok b.
Proof.
  destruct r as [a | e]; simpl; intros H.
  - exists a. split; [reflexivity | exact H].
  - discriminate H.
Qed.

Ltac invert_rbind H :=
  let a := fresh "x" in
  let E := fresh "E" in
  apply rbind_ok in H; destruct H as [a [E H]].

Lemma forecast_loop_entries (days : list json) (entries : list ForecastDay.t) :
  forecast_loop days = Ok entries ->
  Forall2 (fun day entry => forecast_entry day = Ok entry) days entries.
Proof.
  revert entries. induction days as [| day rest IH]; simpl; intros entries H.
  - injection H as <-. constructor.
  - invert_rbind H. invert_rbind H. injection H as <-.
    constructor; [assumption | apply IH; assumption].
Qed.

Lemma forecast_entry_icon (day : json) (entry : ForecastDay.t) :
  forecast_entry day = Ok entry ->
  exists ref, py_path day ["day"; "condition"; "icon"] = Ok (JStr ref)
              /\ ForecastDay.icon entry = ("http:" ++ ref)%string.
Proof.
  unfold forecast_entry. intros H.
  do 13 invert_rbind H. injection H as <-. simpl.
  match goal with
  | Hp : http_prefix ?v = Ok _ |- _ => destruct v; try discriminate Hp; injection Hp as <-
  end.
  eexists. split; [eassumption | reflexivity].
Qed.

Lemma forecast_entry_date (day : json) (entry : ForecastDay.t) :
  forecast_entry day = Ok entry -> day_date day = Ok (ForecastDay.date entry).
Proof.
  unfold forecast_entry, day_date. intros H.
  do 13 invert_rbind H. injection H as <-. simpl.
  match goal with Hd : py_getitem day "date" = _ |- _ => rewrite Hd end.
  simpl. assumption.
Qed.

Lemma entries_dates (days : list json) (entries : list ForecastDay.t) (dates : list datetime) :
  Forall2 (fun day entry => forecast_entry day = Ok entry) days entries ->
  Forall2 (fun day d => day_date day = Ok d) days dates ->
  map ForecastDay.date entries = dates.
Proof.
  intros Hentries. revert dates.
  induction Hentries as [| day entry days' entries' Hentry _ IH];
    intros dates Hdates; inversion Hdates as [| ? d ? dates' Hd Hrest]; subst;
    [reflexivity |].
  simpl. apply forecast_entry_date in Hentry. rewrite Hentry in Hd.
  injection Hd as <-. f_equal. apply IH. exact Hrest.
Qed.

(** What a successful [normalize] was built from. *)
Lemma normalize_some (response : json) (w : CityWeather.t) :
  normalize response = Ok (Some w) ->
  exists days day0 ref,
    forecast_days response = Ok days
    /\ forecast_loop days = Ok (CityWeather.forecast w)
    /\ first_entry (CityWeather.forecast w) = Ok day0
    /\ CityWeather.sunrise w = ForecastDay.sunrise day0
    /\ CityWeather.sunset w = ForecastDay.sunset day0
    /\ py_path response ["current"; "condition"; "icon"] = Ok (JStr ref)
    /\ CityWeather.icon w = ("http:" ++ ref)%string.
Proof.
  unfold normalize. intros H.
  invert_rbind H. destruct (truthy x); [discriminate H |].
  do 17 invert_rbind H. injection H as <-. simpl.
  match goal with
  | Hp : http_prefix ?v = Ok _ |- _ => destruct v; try discriminate Hp; injection Hp as <-
  end.
  match goal with
  | H1 : first_entry ?f = Ok ?a, H2 : first_entry ?f = Ok ?b |- _ =>
      rewrite H1 in H2; injection H2 as <-
  end.
  eexists _, _, _. unfold forecast_days.
  repeat match goal with
         | Hp : py_path response _ = Ok _ |- _ => rewrite Hp; clear Hp
         | Hp : py_getitem response _ = Ok _ |- _ => simpl; rewrite Hp; clear Hp
         end.
  simpl. repeat split; try eassumption; try reflexivity.
Qed.

(** ** Icon references *)

(** C1 (as the code has it): the icon rule is the unconditional
    concatenation ["http:" + ref], for the current-conditions icon and for
    every forecast-day icon alike.  A protocol-relative reference [//x]
    becomes [http://x]; a reference that is already absolute, [http://x],
    becomes [http:http://x]. *)
Theorem icon_rule_prepends_http (response : json) (w : CityWeather.t) :
  normalize response = Ok (Some w) ->
  (exists ref,
      py_path response ["current"; "condition"; "icon"] = Ok (JStr ref)
      /\ CityWeather.icon w = ("http:" ++ ref)%string
      /\ (forall x, ref = ("//" ++ x)%string ->
                    CityWeather.icon w = ("http://" ++ x)%string)
      /\ (forall x, ref = ("http://" ++ x)%string ->
                    CityWeather.icon w = ("http:http://" ++ x)%string))
  /\ (exists days,
         forecast_days response = Ok days
         /\ Forall2
              (fun day entry =>
                 exists ref,
                   py_path day ["day"; "condition"; "icon"] = Ok (JStr ref)
                   /\ ForecastDay.icon entry = ("http:" ++ ref)%string
                   /\ (forall x, ref = ("//" ++ x)%string ->
                                 ForecastDay.icon entry = ("http://" ++ x)%string)
                   /\ (forall x, ref = ("http://" ++ x)%string ->
                                 ForecastDay.icon entry = ("http:http://" ++ x)%string))
              days (CityWeather.forecast w)).
Proof.
  intros H.
  destruct (normalize_some _ _ H)
    as (days & day0 & ref & Hdays & Hloop & _ & _ & _ & Href & Hicon).
  split.
  - exists ref. repeat split; try assumption.
    + intros x ->. rewrite Hicon. reflexivity.
    + intros x ->. rewrite Hicon. reflexivity.
  - exists days. split; [assumption |].
    apply forecast_loop_entries in Hloop.
    revert Hloop. apply Forall2_impl. intros day entry Hentry.
    destruct (forecast_entry_icon _ _ Hentry) as (r & Hr & Hi).
    exists r. repeat split; try assumption.
    + intros x ->. rewrite Hi. reflexivity.
    + intros x ->. rewrite Hi. reflexivity.
Qed.

Lemma icon_rule_prepends_http_witness :
  normalize (sample_response "Kathmandu" relative_icon three_days)
  = Ok (Some kathmandu_three_days)
  /\ CityWeather.icon kathmandu_three_days
     = "http://cdn.weatherapi.com/weather/64x64/day/143.png".
Proof.
  split; [reflexivity |].
  destruct (icon_rule_prepends_http
              (sample_response "Kathmandu" relative_icon three_days)
              kathmandu_three_days eq_refl) as [(ref & Href & _ & Hrel & _) _].
  apply Hrel. vm_compute in Href. injection Href as <-. reflexivity.
Defined.

(** C1, as stated, fails: an already-absolute icon reference comes out with
    the prefix doubled, in the snapshot and in the forecast entries. *)
Lemma absolute_icon_is_prefixed_twice :
  exists w,
    normalize (sample_response "Kathmandu" absolute_icon
                 [sample_day "2026-11-04" (JInt 20) (JInt 9) (JInt 3) (JInt 20) absolute_icon])
    = Ok (Some w)
    /\ CityWeather.icon w = "http:http://cdn.weatherapi.com/weather/64x64/day/143.png"
    /\ map ForecastDay.icon (CityWeather.forecast w)
       = ["http:http://cdn.weatherapi.com/weather/64x64/day/143.png"]
    /\ CityWeather.icon w <> absolute_icon.
Proof.
  eexists. split; [vm_compute; reflexivity |].
  repeat split; try reflexivity. discriminate.
Qed.

(** ** Shape of the normalised record *)

(** C4 (as the code has it): the forecast holds one entry per element of the
    provider's [forecastday], in the provider's order, each carrying the
    date parsed from that element; so it has 7 date-ascending entries
    exactly when the provider's list has 7 elements with ascending dates.
    The list is never empty, and the snapshot's sunrise and sunset are those
    of its first entry. *)
Theorem normalize_keeps_provider_days (response : json) (w : CityWeather.t) :
  normalize response = Ok (Some w) ->
  exists days day0,
    forecast_days response = Ok days
    /\ Forall2 (fun day entry => forecast_entry day = Ok entry
                                 /\ day_date day = Ok (ForecastDay.date entry))
         days (CityWeather.forecast w)
    /\ List.length (CityWeather.forecast w) = List.length days
    /\ (forall dates,
           Forall2 (fun day d => day_date day = Ok d) days dates ->
           map ForecastDay.date (CityWeather.forecast w) = dates)
    /\ hd_error (CityWeather.forecast w) = Some day0
    /\ CityWeather.sunrise w = ForecastDay.sunrise day0
    /\ CityWeather.sunset w = ForecastDay.sunset day0.
Proof.
  intros H.
  destruct (normalize_some _ _ H)
    as (days & day0 & ref & Hdays & Hloop & Hfirst & Hrise & Hset & _ & _).
  exists days, day0.
  apply forecast_loop_entries in Hloop.
  repeat split; try assumption.
  - revert Hloop. apply Forall2_impl. intros day entry Hentry.
    split; [assumption | apply forecast_entry_date; assumption].
  - symmetry. eapply Forall2_length. eassumption.
  - intros dates. apply entries_dates. exact Hloop.
  - destruct (CityWeather.forecast w); [discriminate Hfirst |].
    injection Hfirst as <-. reflexivity.
Qed.

Lemma normalize_keeps_provider_days_witness :
  normalize (sample_response "Kathmandu" relative_icon three_days)
  = Ok (Some kathmandu_three_days)
  /\ List.length (CityWeather.forecast kathmandu_three_days) = 3%nat
  /\ CityWeather.sunrise kathmandu_three_days = JStr "06:10 AM".
Proof.
  split; [reflexivity |].
  destruct (normalize_keeps_provider_days
              (sample_response "Kathmandu" relative_icon three_days)
              kathmandu_three_days eq_refl)
    as (days & day0 & Hdays & _ & Hlen & _ & Hhd & Hrise & _).
  vm_compute in Hdays. injection Hdays as <-.
  vm_compute in Hhd. injection Hhd as <-.
  split; [exact Hlen | exact Hrise].
Defined.

(** C4, as stated, fails: a provider body listing three days (or seven days
    latest first) is normalised to three entries (or to descending dates). *)
Lemma three_listed_days_give_three_entries :
  (exists w,
      normalize (sample_response "Kathmandu" relative_icon three_days) = Ok (Some w)
      /\ List.length (CityWeather.forecast w) = 3%nat
      /\ List.length (CityWeather.forecast w) <> 7%nat)
  /\ (exists w,
         normalize (sample_response "Kathmandu" relative_icon (rev week_of_november))
         = Ok (Some w)
         /\ List.length (CityWeather.forecast w) = 7%nat
         /\ ascending (map ForecastDay.date (CityWeather.forecast w)) = false).
Proof.
  split; eexists; (split; [vm_compute; reflexivity |]).
  - split; [reflexivity | discriminate].
  - split; reflexivity.
Qed.

(** ** Outcomes of a fetch *)

Lemma get_weather_run (env : Environment) (city : string) (st : State) :
  get_weather env city st
  = (mkState (comparison_df st) (download_df st) (ui st)
       (requested st ++ [forecast_url env city]),
     fetched env city).
Proof.
  unfold get_weather, fetched, bind, http_get, lift. simpl.
  destruct (requests_get env (forecast_url env city)) as [r | e]; simpl; [| reflexivity].
  destruct (json_body r); reflexivity.
Qed.

(** Past the [error] test, the function returns a record or raises. *)
Lemma normalize_none (response : json) :
  normalize response = Ok None <->
  exists o v, response = JObj o /\ assoc "error" o = Some v /\ truthy v = true.
Proof.
  unfold normalize. split.
  - intros H. invert_rbind H.
    destruct response; try discriminate E. simpl in E. injection E as <-.
    destruct (assoc "error" o) as [v |] eqn:Ho; simpl in H.
    + destruct (truthy v) eqn:Hv.
      * exists o, v. repeat split; assumption.
      * do 17 invert_rbind H. discriminate H.
    + do 17 invert_rbind H. discriminate H.
  - intros (o & v & -> & Ho & Hv). simpl. rewrite Ho, Hv. reflexivity.
Qed.

(** C3 (as the code has it): the fetch returns None exactly when the decoded
    body is an object whose [error] member is present and truthy; an [error]
    member that is null, empty, zero or false counts as absent.  A transport
    failure and an undecodable body pass through as the exception raised, and
    a body without such an [error] that lacks [current], [location] or
    [forecast] raises KeyError for the first one missing. *)
Theorem fetch_none_iff_truthy_error (env : Environment) (city : string) (st : State) :
  let outcome := snd (get_weather env city st) in
  match requests_get env (forecast_url env city) with
  | Raise e => outcome = Raise e
  | Ok r =>
      match json_body r with
      | Raise e => outcome = Raise e
      | Ok body =>
          (outcome = Ok None <->
           exists o v, body = JObj o /\ assoc "error" o = Some v /\ truthy v = true)
          /\ (forall o,
                 body = JObj o ->
                 (forall v, assoc "error" o = Some v -> truthy v = false) ->
                 (assoc "current" o = None -> outcome = Raise (KeyError "current"))
                 /\ (assoc "current" o <> None -> assoc "location" o = None ->
                     outcome = Raise (KeyError "location"))
                 /\ (assoc "current" o <> None -> assoc "location" o <> None ->
                     assoc "forecast" o = None ->
                     outcome = Raise (KeyError "forecast")))
      end
  end.
Proof.
  intros outcome. subst outcome. rewrite get_weather_run. unfold fetched. simpl.
  destruct (requests_get env (forecast_url env city)) as [r | e]; simpl; [| reflexivity].
  destruct (json_body r) as [body | e]; simpl; [| reflexivity].
  split; [apply normalize_none |].
  intros o -> Herr.
  assert (Hfalse : truthy (match assoc "error" o with Some x => x | None => JNull end) = false).
  { destruct (assoc "error" o) as [v |]; [apply Herr; reflexivity | reflexivity]. }
  unfold normalize. simpl. rewrite Hfalse.
  repeat split.
  - intros ->. reflexivity.
  - intros Hc ->. destruct (assoc "current" o); [reflexivity | contradiction].
  - intros Hc Hl Hf.
    destruct (assoc "current" o); [| contradiction].
    destruct (assoc "location" o); [| contradiction].
    simpl. rewrite Hf. reflexivity.
Qed.

(** C3, as stated, fails: a body that contains an [error] member whose value
    is null is not answered with None; the fetch returns the record, or
    raises when nothing else is in the body. *)
Lemma null_error_member_is_not_not_found :
  let env := sample_env "Kathmandu"
               [ (url_of "Kathmandu",
                  with_error JNull (sample_response "Kathmandu" relative_icon three_days));
                 (url_of "Pokhara", JObj [("error", JNull)]) ] in
  py_getitem (with_error JNull (sample_response "Kathmandu" relative_icon three_days)) "error"
  = Ok JNull
  /\ snd (get_weather env "Kathmandu" init_state) = Ok (Some kathmandu_three_days)
  /\ snd (get_weather env "Kathmandu" init_state) <> Ok None
  /\ snd (get_weather env "Pokhara" init_state) = Raise (KeyError "current").
Proof.
  repeat split; try reflexivity. vm_compute. discriminate.
Qed.

(** ** Alerts of the selected day *)

Lemma cmp_int_number (v : json) (q : Q) (k : Z) :
  number v = Some q -> cmp_int v k = Ok (Some (Qcompare q (inject_Z k))).
Proof.
  destruct v as [| | z | [q' | |] | | |]; simpl; intros H; try discriminate H;
    injection H as <-; [| reflexivity].
  unfold Qcompare, inject_Z. simpl. rewrite !Z.mul_1_r. reflexivity.
Qed.

Lemma dec_as_compare {X} (a b : Q) (x y : X) :
  (if Qlt_le_dec a b then x else y)
  = match Qcompare a b with Lt => x | _ => y end.
Proof.
  destruct (Qlt_le_dec a b) as [Hlt | Hle]; destruct (Qcompare a b) eqn:Hc;
    try reflexivity; exfalso.
  - apply Qeq_alt in Hc. rewrite Hc in Hlt. exact (Qlt_irrefl _ Hlt).
  - apply Qgt_alt in Hc. exact (Qlt_irrefl _ (Qlt_trans _ _ _ Hlt Hc)).
  - apply Qlt_alt in Hc. exact (Qlt_not_le _ _ Hc Hle).
Qed.

Lemma compare_swap (a b : Q) : Qcompare b a = CompOpp (Qcompare a b).
Proof. unfold Qcompare. apply Z.compare_antisym. Qed.

Lemma in_when {X} (c : bool) (x y : X) (rest : list X) :
  x <> y -> (In x ((if c then [y] else []) ++ rest) <-> In x rest).
Proof.
  intros Hne. destruct c; simpl; [| tauto].
  split; [intros [H | H]; [congruence | exact H] | tauto].
Qed.

(** C2: on a forecast day whose day temperature, UV index and rain
    probability are numbers, the alert block renders exactly the alerts of
    the threshold table, each once: Hot-day iff the day temperature is above
    35, Cold-day iff it is below 10, High-UV iff the UV index is at least 7,
    High-rain-chance iff the rain probability is at least 50; Hot-day and
    Cold-day never come together. *)
Theorem alerts_follow_threshold_table
        (d : ForecastDay.t) (st : State) (t u r : Q) :
  number (ForecastDay.temp_day d) = Some t ->
  number (ForecastDay.uv d) = Some u ->
  number (ForecastDay.chance_of_rain d) = Some r ->
  let alerts := spec_alert_table t u r in
  extreme_alerts d st
  = (mkState (comparison_df st) (download_df st)
       (ui st ++ map (fun k => st_markdown (alert_message k) false) alerts)
       (requested st),
     Ok tt)
  /\ NoDup alerts
  /\ (In HotDay alerts <-> 35 < t)%Q
  /\ (In ColdDay alerts <-> t < 10)%Q
  /\ (In HighUV alerts <-> 7 <= u)%Q
  /\ (In HighRainChance alerts <-> 50 <= r)%Q
  /\ ~ (In HotDay alerts /\ In ColdDay alerts).
Proof.
  intros Ht Hu Hr alerts. subst alerts. destruct st as [cmp dl shown reqs].
  assert (Hdead : (35 < t)%Q -> (t < 10)%Q -> False).
  { unfold Qlt. simpl. lia. }
  split; [| split].
  - unfold extreme_alerts, py_gt, py_lt, py_ge, bind, lift, when, render, ret.
    rewrite (cmp_int_number _ _ 35 Ht), (cmp_int_number _ _ 10 Ht),
      (cmp_int_number _ _ 7 Hu), (cmp_int_number _ _ 50 Hr).
    unfold spec_alert_table. rewrite !dec_as_compare.
    rewrite (compare_swap t (35 # 1)).
    change (inject_Z 35) with (35 # 1). change (inject_Z 10) with (10 # 1).
    change (inject_Z 7) with (7 # 1). change (inject_Z 50) with (50 # 1).
    destruct (Qcompare t (35 # 1)) eqn:C35; destruct (Qcompare t (10 # 1)) eqn:C10;
      simpl;
      try (exfalso; apply Hdead; [apply Qgt_alt; exact C35 | apply Qlt_alt; exact C10]);
      destruct (Qcompare u (7 # 1)); destruct (Qcompare r (50 # 1)); simpl;
      rewrite <- ?app_assoc, ?app_nil_r; reflexivity.
  - unfold spec_alert_table.
    destruct (Qlt_le_dec 35 t) as [H35 | H35]; destruct (Qlt_le_dec t 10) as [H10 | H10];
      try (exfalso; exact (Hdead H35 H10));
      destruct (Qlt_le_dec u 7); destruct (Qlt_le_dec r 50); simpl;
      repeat constructor; simpl; intuition discriminate.
  - unfold spec_alert_table.
    assert (Hhot : In HotDay (spec_alert_table t u r) <-> (35 < t)%Q).
    { unfold spec_alert_table.
      destruct (Qlt_le_dec 35 t) as [H35 | H35]; simpl.
      - tauto.
      - destruct (Qlt_le_dec t 10); destruct (Qlt_le_dec u 7); destruct (Qlt_le_dec r 50);
          simpl; split; try (intros H; exfalso; exact (Qlt_not_le _ _ H H35));
          intuition discriminate. }
    assert (Hcold : In ColdDay (spec_alert_table t u r) <-> (t < 10)%Q).
    { unfold spec_alert_table.
      destruct (Qlt_le_dec t 10) as [H10 | H10];
        destruct (Qlt_le_dec 35 t); destruct (Qlt_le_dec u 7); destruct (Qlt_le_dec r 50);
        simpl; split; try (intros H; exfalso; exact (Qlt_not_le _ _ H H10));
        intuition discriminate. }
    unfold spec_alert_table in Hhot, Hcold.
    repeat split; try apply Hhot; try apply Hcold.
    + destruct (Qlt_le_dec u 7) as [H7 | H7];
        destruct (Qlt_le_dec 35 t); destruct (Qlt_le_dec t 10); destruct (Qlt_le_dec r 50);
        simpl; intros H; try exact H7; intuition discriminate.
    + destruct (Qlt_le_dec u 7) as [H7 | H7];
        destruct (Qlt_le_dec 35 t); destruct (Qlt_le_dec t 10); destruct (Qlt_le_dec r 50);
        simpl; intros H; try (exfalso; exact (Qlt_not_le _ _ H7 H)); tauto.
    + destruct (Qlt_le_dec r 50) as [H50 | H50];
        destruct (Qlt_le_dec 35 t); destruct (Qlt_le_dec t 10); destruct (Qlt_le_dec u 7);
        simpl; intros H; try exact H50; intuition discriminate.
    + destruct (Qlt_le_dec r 50) as [H50 | H50];
        destruct (Qlt_le_dec 35 t); destruct (Qlt_le_dec t 10); destruct (Qlt_le_dec u 7);
        simpl; intros H; try (exfalso; exact (Qlt_not_le _ _ H50 H)); tauto.
    + intros [Hh Hc]. apply Hhot in Hh. apply Hcold in Hc. exact (Hdead Hh Hc).
Qed.

Lemma alerts_follow_threshold_table_witness :
  number (ForecastDay.temp_day boundary_day) = Some (35 # 1)
  /\ number (ForecastDay.uv boundary_day) = Some (7 # 1)
  /\ number (ForecastDay.chance_of_rain boundary_day) = Some (50 # 1)
  /\ extreme_alerts boundary_day init_state
     = (mkState empty_frame empty_frame
          [st_markdown HIGH_UV_ALERT false; st_markdown HIGH_RAIN_ALERT false] [],
        Ok tt).
Proof.
  do 3 (split; [reflexivity |]).
  destruct (alerts_follow_threshold_table boundary_day init_state
              (35 # 1) (7 # 1) (50 # 1) eq_refl eq_refl eq_refl) as [Hrun _].
  exact Hrun.
Defined.

(** Exactly 10.0 degrees is not cold, UV 6.5 and 49% stay silent. *)
Example cold_boundary_is_silent :
  extreme_alerts cool_day init_state = (init_state, Ok tt).
Proof. reflexivity. Qed.

(** ** Statements that only render *)

Lemma bind_ok {A B} (m : M A) (k : A -> M B) (st st' : State) (b : B) :
  bind m k st = (st', Ok b) ->
  exists a st1, m st = (st1, Ok a) /\ k a st1 = (st', Ok b).
Proof.
  unfold bind. destruct (m st) as [st1 [a | e]]; intros H.
  - exists a, st1. split; [reflexivity | exact H].
  - discriminate H.
Qed.

Lemma rendering_ret {A} (a : A) : rendering (ret a).
Proof.
  intros [cmp dl shown reqs]. exists [], []. simpl. rewrite !app_nil_r. split; [reflexivity | constructor].
Qed.

Lemma rendering_lift {A} (r : result A) : rendering (lift r).
Proof.
  intros [cmp dl shown reqs]. exists [], []. simpl. rewrite !app_nil_r. split; [reflexivity | constructor].
Qed.

Lemma rendering_render (e : ui_event) : rendering (render e).
Proof.
  intros [cmp dl shown reqs]. exists [e], []. simpl. rewrite !app_nil_r. split; [reflexivity | constructor].
Qed.

Lemma rendering_widget (e : ui_event) : rendering (widget e).
Proof.
  intros st. unfold widget. destruct (refused (ui st) e).
  - destruct st as [cmp dl shown reqs]. exists [], []. simpl. rewrite !app_nil_r.
    split; [reflexivity | constructor].
  - apply rendering_render.
Qed.

Lemma rendering_http_get (env : Environment) (url : string) :
  is_forecast_url url = false -> rendering (http_get env url).
Proof.
  intros Hurl [cmp dl shown reqs]. exists [], [url]. simpl. rewrite !app_nil_r.
  split; [reflexivity | repeat constructor; exact Hurl].
Qed.

Lemma rendering_bind {A B} (m : M A) (k : A -> M B) :
  rendering m -> (forall a, rendering (k a)) -> rendering (bind m k).
Proof.
  intros Hm Hk st. unfold bind.
  destruct (Hm st) as (shown1 & urls1 & E1 & F1).
  destruct (m st) as [st1 [a | e]]; simpl in E1; subst st1.
  - destruct (Hk a (mkState (comparison_df st) (download_df st)
                      (ui st ++ shown1) (requested st ++ urls1)))
      as (shown2 & urls2 & E2 & F2).
    simpl in E2. exists (shown1 ++ shown2), (urls1 ++ urls2).
    rewrite E2, !app_assoc. split; [reflexivity | apply Forall_app; split; assumption].
  - exists shown1, urls1. split; [reflexivity | assumption].
Qed.

Lemma rendering_when (b : bool) (m : M unit) : rendering m -> rendering (when b m).
Proof. destruct b; simpl; [trivial | intros _; apply rendering_ret]. Qed.

Create HintDb rendering.
#[local] Hint Resolve rendering_ret rendering_lift rendering_render rendering_widget
  rendering_bind rendering_when : rendering.

Ltac rendering_steps :=
  repeat match goal with
         | |- rendering (bind _ _) => apply rendering_bind; [| intros ?]
         | |- rendering (when _ _) => apply rendering_when
         | |- rendering (if ?c then _ else _) => destruct c
         | |- rendering (match ?x with Some _ => _ | None => _ end) => destruct x
         | |- rendering (http_get _ _) => apply rendering_http_get; reflexivity
         | |- rendering _ => solve [auto with rendering]
         end.

Lemma rendering_load_lottie (env : Environment) (url : string) :
  is_forecast_url url = false -> rendering (load_lottie env url).
Proof.
  intros Hurl. unfold load_lottie.
  apply rendering_bind; [apply rendering_http_get; exact Hurl | intros r].
  rendering_steps.
Qed.

Lemma rendering_lottie_lookup (env : Environment) (table : list (string * string)) (condition : json) :
  Forall (fun entry => is_forecast_url (snd entry) = false) table ->
  rendering (lottie_lookup env table condition).
Proof.
  induction 1 as [| [key url] rest Hurl _ IH]; simpl.
  - apply rendering_ret.
  - apply rendering_bind; [apply rendering_lift | intros c].
    destruct (contains (lower key) c); [apply rendering_load_lottie; exact Hurl | exact IH].
Qed.

Lemma rendering_get_lottie_for_condition (env : Environment) (condition : json) :
  rendering (get_lottie_for_condition env condition).
Proof.
  apply rendering_lottie_lookup. unfold WEATHER_LOTTIE. repeat constructor.
Qed.

Lemma rendering_set_full_bg_animation (env : Environment) (condition : json) (width height : Z) :
  rendering (set_full_bg_animation env condition width height).
Proof.
  unfold set_full_bg_animation.
  apply rendering_bind; [apply rendering_lift | intros c].
  repeat match goal with
         | |- rendering (match (if ?b then _ else _) with _ => _ end) => destruct b
         end;
    try apply rendering_ret;
    (apply rendering_bind; [apply rendering_load_lottie; reflexivity | intros ?; rendering_steps]).
Qed.

#[local] Hint Resolve rendering_get_lottie_for_condition rendering_set_full_bg_animation
  : rendering.

Lemma rendering_extreme_alerts (d : ForecastDay.t) : rendering (extreme_alerts d).
Proof. unfold extreme_alerts. rendering_steps. Qed.

#[local] Hint Resolve rendering_extreme_alerts : rendering.

Lemma rendering_forecast_details (env : Environment) (d : ForecastDay.t) (sel : date) (width : Z) :
  rendering (forecast_details env d sel width).
Proof. unfold forecast_details. rendering_steps. Qed.

Lemma rendering_current_conditions (env : Environment) (w : CityWeather.t) (width : Z) :
  rendering (current_conditions env w width).
Proof. unfold current_conditions. rendering_steps. Qed.

Lemma rendering_run {A} (m : M A) (st st1 : State) (r : result A) :
  rendering m -> m st = (st1, r) ->
  exists shown urls,
    st1 = mkState (comparison_df st) (download_df st)
            (ui st ++ shown) (requested st ++ urls)
    /\ Forall (fun u => is_forecast_url u = false) urls.
Proof.
  intros Hm Hrun. destruct (Hm st) as (shown & urls & E & F).
  rewrite Hrun in E. simpl in E. exists shown, urls. split; assumption.
Qed.

(** ** What a statement shows *)

Lemma shows_ret {A} (kind : ui_event -> bool) (a : A) : shows kind (ret a).
Proof. intros st. exists []. rewrite app_nil_r. split; reflexivity. Qed.

Lemma shows_lift {A} (kind : ui_event -> bool) (r : result A) : shows kind (lift r).
Proof. intros st. exists []. rewrite app_nil_r. split; reflexivity. Qed.

Lemma shows_render (kind : ui_event -> bool) (e : ui_event) :
  kind e = true -> shows kind (render e).
Proof. intros He st. exists [e]. simpl. rewrite He. split; reflexivity. Qed.

Lemma shows_widget (kind : ui_event -> bool) (e : ui_event) :
  kind e = true -> shows kind (widget e).
Proof.
  intros He st. unfold widget. destruct (refused (ui st) e).
  - exists []. rewrite app_nil_r. split; reflexivity.
  - apply shows_render. exact He.
Qed.

Lemma shows_bind {A B} (kind : ui_event -> bool) (m : M A) (k : A -> M B) :
  shows kind m -> (forall a, shows kind (k a)) -> shows kind (bind m k).
Proof.
  intros Hm Hk st. unfold bind.
  destruct (Hm st) as (shown1 & U1 & C1).
  destruct (m st) as [st1 [a | e]]; simpl in U1.
  - destruct (Hk a st1) as (shown2 & U2 & C2).
    exists (shown1 ++ shown2). rewrite U2, U1, app_assoc, forallb_app, C1, C2.
    split; reflexivity.
  - exists shown1. split; assumption.
Qed.

Lemma shows_http_get (kind : ui_event -> bool) (env : Environment) (url : string) :
  shows kind (http_get env url).
Proof. intros st. exists []. simpl. rewrite app_nil_r. split; reflexivity. Qed.

Lemma shows_weaken {A} (kind kind' : ui_event -> bool) (m : M A) :
  (forall e, kind e = true -> kind' e = true) -> shows kind m -> shows kind' m.
Proof.
  intros Hsub Hm st. destruct (Hm st) as (shown & U & C). exists shown.
  split; [exact U |]. rewrite forallb_forall in C |- *. intros e He. apply Hsub, C, He.
Qed.

Lemma shows_run {A} (kind : ui_event -> bool) (m : M A) (st st1 : State) (r : result A) :
  shows kind m -> m st = (st1, r) ->
  exists shown, ui st1 = ui st ++ shown /\ forallb kind shown = true.
Proof.
  intros Hm Hrun. destruct (Hm st) as (shown & U & C). rewrite Hrun in U.
  exists shown. split; assumption.
Qed.

Ltac shows_steps :=
  repeat match goal with
         | |- shows _ (bind _ _) => apply shows_bind; [| intros ?]
         | |- shows _ (when ?b _) => destruct b; unfold when
         | |- shows _ (if ?c then _ else _) => destruct c
         | |- shows _ (match ?x with Some _ => _ | None => _ end) => destruct x
         | |- shows _ (ret _) => apply shows_ret
         | |- shows _ (lift _) => apply shows_lift
         | |- shows _ (http_get _ _) => apply shows_http_get
         | |- shows _ (render _) => apply shows_render; reflexivity
         | |- shows _ (widget _) => apply shows_widget; reflexivity
         end.

Lemma plain_load_lottie (env : Environment) (url : string) :
  shows plain_element (load_lottie env url).
Proof. unfold load_lottie. shows_steps. Qed.

Lemma plain_get_lottie (env : Environment) (condition : json) :
  shows plain_element (get_lottie_for_condition env condition).
Proof.
  unfold get_lottie_for_condition.
  induction WEATHER_LOTTIE as [| [key url] rest IH]; simpl; [apply shows_ret |].
  apply shows_bind; [apply shows_lift | intros c].
  destruct (contains (lower key) c); [apply plain_load_lottie | exact IH].
Qed.

Lemma plain_set_full_bg (env : Environment) (condition : json) (width height : Z) :
  shows plain_element (set_full_bg_animation env condition width height).
Proof.
  unfold set_full_bg_animation.
  apply shows_bind; [apply shows_lift | intros c].
  repeat match goal with
         | |- shows _ (match (if ?b then _ else _) with _ => _ end) => destruct b
         end;
    try apply shows_ret;
    (apply shows_bind; [apply plain_load_lottie | intros ?; shows_steps]).
Qed.

Lemma plain_extreme_alerts (d : ForecastDay.t) : shows plain_element (extreme_alerts d).
Proof. unfold extreme_alerts. shows_steps. Qed.

Lemma plain_forecast_details
      (env : Environment) (d : ForecastDay.t) (sel : date) (width : Z) :
  shows plain_element (forecast_details env d sel width).
Proof.
  unfold forecast_details.
  apply shows_bind; [shows_steps | intros ?].
  apply shows_bind; [apply plain_get_lottie | intros ?].
  apply shows_bind; [shows_steps | intros ?].
  do 8 (apply shows_bind; [shows_steps | intros ?]).
  apply plain_extreme_alerts.
Qed.

Lemma plain_current_conditions (env : Environment) (w : CityWeather.t) (width : Z) :
  shows plain_element (current_conditions env w width).
Proof.
  unfold current_conditions.
  apply shows_bind; [apply plain_set_full_bg | intros ?].
  do 2 (apply shows_bind; [shows_steps | intros ?]).
  apply shows_bind; [apply plain_get_lottie | intros ?].
  shows_steps.
Qed.

Lemma plain_selected_day (env : Environment) (w : CityWeather.t) (sel : date) (width : Z) :
  shows plain_element
    (match forecast_for_date (CityWeather.forecast w) sel with
     | Some d => forecast_details env d sel width
     | None => ret tt
     end).
Proof.
  destruct (forecast_for_date _ _); [apply plain_forecast_details | apply shows_ret].
Qed.

Lemma shows_nothing_aggregate (kind : ui_event -> bool) (env : Environment) (w : CityWeather.t) :
  shows kind (aggregate env w).
Proof.
  intros st. exists []. rewrite app_nil_r.
  unfold aggregate, bind, read, lift, set_comparison_df, set_download_df. simpl.
  destruct (concat_columns (comparison_df st) (temp_df env w)); simpl;
    [destruct (city_csv_df env w); simpl |]; split; reflexivity.
Qed.

Lemma plain_is_not_closing (e : ui_event) : plain_element e = true -> not_closing e = true.
Proof. destruct e; simpl; intros H; try reflexivity; discriminate H. Qed.

Lemma no_closing_city_block (env : Environment) (city : string) :
  shows not_closing (city_block env city).
Proof.
  unfold city_block.
  apply shows_bind.
  - unfold get_weather. shows_steps.
  - intros [w |]; [| shows_steps].
    apply shows_bind;
      [apply (shows_weaken _ _ _ plain_is_not_closing), plain_current_conditions
      | intros ?].
    apply shows_bind; [shows_steps | intros ?].
    apply shows_bind;
      [apply (shows_weaken _ _ _ plain_is_not_closing), plain_selected_day | intros ?].
    apply shows_bind; [apply shows_nothing_aggregate | intros ?].
    shows_steps.
Qed.

Lemma no_closing_city_loop (env : Environment) (names : list string) :
  shows not_closing (city_loop env names).
Proof.
  induction names as [| city rest IH]; simpl; [apply shows_ret |].
  apply shows_bind; [apply no_closing_city_block | intros ?; exact IH].
Qed.

Lemma not_closing_none (shown : list ui_event) :
  forallb not_closing shown = true -> existsb closing_element shown = false.
Proof.
  induction shown as [| e shown IH]; simpl; [reflexivity |].
  intros H. apply andb_prop in H. destruct H as [He Hs].
  apply negb_true_iff in He. rewrite He. apply IH, Hs.
Qed.

(** ** One city *)

Lemma aggregate_run (env : Environment) (w : CityWeather.t) (st st' : State) :
  aggregate env w st = (st', Ok tt) ->
  exists csv,
    concat_columns (comparison_df st) (temp_df env w) = Ok (comparison_df st')
    /\ city_csv_df env w = Ok csv
    /\ download_df st' = concat_rows (download_df st) csv
    /\ ui st' = ui st
    /\ requested st' = requested st.
Proof.
  unfold aggregate, bind, read, lift, set_comparison_df, set_download_df. simpl.
  destruct (concat_columns (comparison_df st) (temp_df env w)) as [joined | e];
    [| discriminate].
  destruct (city_csv_df env w) as [csv | e]; [| discriminate].
  simpl. intros H. injection H as <-. exists csv. repeat split.
Qed.

Lemma forecast_url_is_forecast_url (env : Environment) (city : string) :
  is_forecast_url (forecast_url env city) = true.
Proof. reflexivity. Qed.

(** What a completed pass through the loop body did. *)
Lemma city_block_effect (env : Environment) (city : string) (st st' : State) :
  city_block env city st = (st', Ok tt) ->
  exists shown urls,
    ui st' = ui st ++ shown
    /\ requested st' = requested st ++ forecast_url env city :: urls
    /\ Forall (fun u => is_forecast_url u = false) urls
    /\ match fetched env city with
       | Ok (Some w) =>
           exists csv,
             concat_columns (comparison_df st) (temp_df env w) = Ok (comparison_df st')
             /\ city_csv_df env w = Ok csv
             /\ download_df st' = concat_rows (download_df st) csv
       | Ok None =>
           comparison_df st' = comparison_df st
           /\ download_df st' = download_df st
           /\ shown = [st_error ("City '" ++ city ++ "' not found!")%string]
       | Raise _ => False
       end.
Proof.
  unfold city_block. intros H.
  apply bind_ok in H. destruct H as (weather & st1 & Hget & H).
  rewrite get_weather_run in Hget. injection Hget as <- Hfetched.
  rewrite Hfetched. destruct weather as [w |].
  - apply bind_ok in H. destruct H as ([] & st2 & Hcur & H).
    apply bind_ok in H. destruct H as ([] & st3 & Hinput & H).
    apply bind_ok in H. destruct H as ([] & st4 & Hdetails & H).
    apply bind_ok in H. destruct H as ([] & st5 & Hagg & Hclose).
    apply (rendering_run _ _ _ _ (rendering_current_conditions _ _ _)) in Hcur.
    destruct Hcur as (shown2 & urls2 & -> & F2).
    apply (rendering_run _ _ _ _ (rendering_widget _)) in Hinput.
    destruct Hinput as (shown3 & urls3 & -> & F3).
    assert (Hd : rendering
                   (match forecast_for_date (CityWeather.forecast w)
                            (date_input env ("Select a date for "
                                             ++ py_str env (CityWeather.city w))%string) with
                    | Some d => forecast_details env d
                                  (date_input env ("Select a date for "
                                                   ++ py_str env (CityWeather.city w))%string)
                                  (Z.min (screen_width env / 3) 300)
                    | None => ret tt
                    end)).
    { destruct (forecast_for_date _ _);
        [apply rendering_forecast_details | apply rendering_ret]. }
    apply (rendering_run _ _ _ _ Hd) in Hdetails.
    destruct Hdetails as (shown4 & urls4 & -> & F4).
    apply aggregate_run in Hagg.
    destruct Hagg as (csv & Hjoin & Hcsv & Hdl & Hui & Hreq). simpl in *.
    apply (rendering_run _ _ _ _ (rendering_render _)) in Hclose.
    destruct Hclose as (shown6 & urls6 & -> & F6). simpl.
    exists (((shown2 ++ shown3) ++ shown4) ++ shown6), (((urls2 ++ urls3) ++ urls4) ++ urls6).
    rewrite Hui, Hreq. repeat split.
    + rewrite !app_assoc. reflexivity.
    + rewrite <- !app_assoc. reflexivity.
    + repeat (apply Forall_app; split); assumption.
    + exists csv. repeat split; assumption.
  - unfold render in H. injection H as <-. simpl.
    exists [st_error ("City '" ++ city ++ "' not found!")%string], [].
    repeat split. constructor.
Qed.

(** ** Cities the provider does not know *)

Lemma city_block_not_found (env : Environment) (city : string) (st : State) :
  fetched env city = Ok None ->
  city_block env city st
  = (mkState (comparison_df st) (download_df st)
       (ui st ++ [not_found_message city])
       (requested st ++ [forecast_url env city]),
     Ok tt).
Proof.
  intros Hnone. unfold city_block, bind. rewrite get_weather_run, Hnone. reflexivity.
Qed.

Lemma city_loop_all_not_found (env : Environment) (names : list string) (st : State) :
  Forall (fun city => fetched env city = Ok None) names ->
  city_loop env names st
  = (mkState (comparison_df st) (download_df st)
       (ui st ++ map not_found_message names)
       (requested st ++ map (forecast_url env) names),
     Ok tt).
Proof.
  intros Hall. revert st. induction Hall as [| city rest Hcity _ IH]; intros st; simpl.
  - destruct st. simpl. rewrite !app_nil_r. reflexivity.
  - unfold bind at 1. rewrite (city_block_not_found _ _ _ Hcity), IH. simpl.
    rewrite <- !app_assoc. reflexivity.
Qed.

Lemma no_download_among_messages (names : list string) :
  existsb offers_download (map not_found_message names) = false.
Proof. induction names; simpl; [reflexivity | assumption]. Qed.

Lemma messages_are_errors (names : list string) :
  List.length (filter is_error_message (map not_found_message names)) = List.length names.
Proof. induction names; simpl; [reflexivity | f_equal; assumption]. Qed.

(** C7: a city the fetch answers with None leaves both tables as they were
    and shows one message; the loop goes on with the cities after it; and
    when every city of the input is answered with None the script ends
    normally with both tables empty and without a download button. *)
Theorem not_found_city_contributes_nothing
        (env : Environment) (city : string) (rest : list string) (st : State) :
  fetched env city = Ok None ->
  let st1 := mkState (comparison_df st) (download_df st)
               (ui st ++ [not_found_message city])
               (requested st ++ [forecast_url env city]) in
  city_block env city st = (st1, Ok tt)
  /\ city_loop env (city :: rest) st = city_loop env rest st1
  /\ (Forall (fun c => fetched env c = Ok None) (cities env) ->
      exists final,
        main env init_state = (final, Ok tt)
        /\ comparison_df final = empty_frame
        /\ download_df final = empty_frame
        /\ existsb offers_download (ui final) = false
        /\ List.length (filter is_error_message (ui final))
           = (List.length (cities env)
              + match API_KEY env with Some (String _ _) => 0 | _ => 1 end)%nat).
Proof.
  intros Hnone st1. subst st1. split; [| split].
  - apply city_block_not_found. exact Hnone.
  - simpl. unfold bind at 1. rewrite (city_block_not_found _ _ _ Hnone). reflexivity.
  - intros Hall. unfold main.
    set (key_missing := match API_KEY env with Some (String _ _) => false | _ => true end).
    assert (Hkey : match API_KEY env with Some (String _ _) => 0%nat | _ => 1%nat end
                   = if key_missing then 1%nat else 0%nat).
    { subst key_missing. destruct (API_KEY env) as [[| ? ?] |]; reflexivity. }
    rewrite Hkey. clearbody key_missing.
    unfold bind, when, set_overlay_css, set_comparison_df, set_download_df,
      comparison_chart, csv_download, read.
    destruct key_missing; simpl;
      rewrite (city_loop_all_not_found _ _ _ Hall); simpl;
      eexists; (split; [reflexivity |]); simpl;
      (split; [reflexivity |]); (split; [reflexivity |]);
      rewrite ?existsb_app, ?filter_app, ?length_app,
        ?no_download_among_messages, ?messages_are_errors; simpl;
      (split; [reflexivity | lia]).
Qed.

Lemma not_found_city_contributes_nothing_witness :
  fetched (sample_env "Nowhereville" []) "Nowhereville" = Ok None
  /\ city_block (sample_env "Nowhereville" []) "Nowhereville" init_state
     = (mkState empty_frame empty_frame [not_found_message "Nowhereville"]
          [url_of "Nowhereville"],
        Ok tt).
Proof.
  split; [reflexivity |].
  exact (proj1 (not_found_city_contributes_nothing
                  (sample_env "Nowhereville" []) "Nowhereville" [] init_state eq_refl)).
Defined.

(** ** The city list *)

Lemma split_comma_length (s : string) :
  List.length (split_comma s) = S (commas s).
Proof.
  induction s as [| c s IH]; simpl; [reflexivity |].
  destruct (Ascii.eqb c ","); simpl.
  - rewrite IH. reflexivity.
  - destruct (split_comma s); simpl in *; [discriminate IH | exact IH].
Qed.

Lemma lstrip_blank (s : string) : blank s = true -> lstrip s = EmptyString.
Proof.
  induction s as [| c s IH]; simpl; [reflexivity |].
  intros H. apply andb_prop in H. destruct H as [Hc Hs]. rewrite Hc. apply IH, Hs.
Qed.

Lemma strip_blank (s : string) : blank s = true -> strip s = EmptyString.
Proof. intros H. unfold strip. rewrite (lstrip_blank _ H). reflexivity. Qed.

Lemma quiet_rendering {A} (m : M A) : rendering m -> quiet m.
Proof.
  intros Hm st. destruct (Hm st) as (shown & urls & E & F).
  exists shown, urls. rewrite E. repeat split. exact F.
Qed.

Lemma quiet_bind {A B} (m : M A) (k : A -> M B) :
  quiet m -> (forall a, quiet (k a)) -> quiet (bind m k).
Proof.
  intros Hm Hk st. unfold bind.
  destruct (Hm st) as (shown1 & urls1 & U1 & R1 & F1).
  destruct (m st) as [st1 [a | e]]; simpl in U1, R1.
  - destruct (Hk a st1) as (shown2 & urls2 & U2 & R2 & F2).
    exists (shown1 ++ shown2), (urls1 ++ urls2).
    rewrite U2, R2, U1, R1, !app_assoc.
    repeat split. apply Forall_app. split; assumption.
  - exists shown1, urls1. repeat split; assumption.
Qed.

Lemma quiet_aggregate (env : Environment) (w : CityWeather.t) : quiet (aggregate env w).
Proof.
  intros st. exists [], []. rewrite !app_nil_r.
  unfold aggregate, bind, read, lift, set_comparison_df, set_download_df. simpl.
  destruct (concat_columns (comparison_df st) (temp_df env w)); simpl;
    [destruct (city_csv_df env w); simpl |]; repeat split; constructor.
Qed.

(** Whatever its outcome, the loop body begins with one request to the
    forecast endpoint, for the entry as it stands, and makes no other. *)
Lemma city_block_requests (env : Environment) (city : string) (st : State) :
  exists urls,
    requested (fst (city_block env city st))
    = requested st ++ forecast_url env city :: urls
    /\ Forall (fun u => is_forecast_url u = false) urls.
Proof.
  unfold city_block. unfold bind at 1. rewrite get_weather_run.
  destruct (fetched env city) as [[w |] | e].
  - match goal with
    | |- context [fst (?K ?s)] =>
        assert (HK : quiet K);
        [| destruct (HK s) as (shown & urls & _ & R & F); exists urls; rewrite R; simpl;
           rewrite <- app_assoc; split; [reflexivity | exact F]]
    end.
    apply quiet_bind; [apply quiet_rendering, rendering_current_conditions | intros ?].
    apply quiet_bind; [apply quiet_rendering, rendering_widget | intros ?].
    apply quiet_bind; [| intros ?].
    { apply quiet_rendering.
      destruct (forecast_for_date _ _);
        [apply rendering_forecast_details | apply rendering_ret]. }
    apply quiet_bind; [apply quiet_aggregate | intros ?].
    apply quiet_rendering, rendering_render.
  - exists []. simpl. split; [reflexivity | constructor].
  - exists []. simpl. split; [reflexivity | constructor].
Qed.

Lemma no_forecast_urls (urls : list string) :
  Forall (fun u => is_forecast_url u = false) urls -> filter is_forecast_url urls = [].
Proof.
  induction 1 as [| u urls Hu _ IH]; simpl; [reflexivity |]. rewrite Hu. exact IH.
Qed.

(** The loop asks the forecast endpoint once for every entry it reaches, in
    order: for all of them when it runs to its end, and otherwise for the
    entries up to the one whose body raised. *)
Lemma city_loop_requests (env : Environment) (names : list string) (st : State) :
  match snd (city_loop env names st) with
  | Ok _ =>
      filter is_forecast_url (requested (fst (city_loop env names st)))
      = filter is_forecast_url (requested st) ++ map (forecast_url env) names
  | Raise e =>
      exists done city rest mid,
        names = done ++ city :: rest
        /\ city_loop env done st = (mid, Ok tt)
        /\ snd (city_block env city mid) = Raise e
        /\ filter is_forecast_url (requested (fst (city_loop env names st)))
           = filter is_forecast_url (requested st)
             ++ map (forecast_url env) (done ++ [city])
  end.
Proof.
  revert st. induction names as [| city names IH]; intros st.
  - simpl. rewrite app_nil_r. reflexivity.
  - simpl. unfold bind.
    destruct (city_block_requests env city st) as (urls & R & F).
    destruct (city_block env city st) as [st1 [[] | e]] eqn:Hblock; simpl in R.
    + assert (Hfirst : filter is_forecast_url (requested st1)
                       = filter is_forecast_url (requested st) ++ [forecast_url env city]).
      { rewrite R, filter_app. cbn [filter].
        rewrite forecast_url_is_forecast_url, (no_forecast_urls _ F). reflexivity. }
      specialize (IH st1).
      destruct (city_loop env names st1) as [st2 [[] | e]] eqn:Hrest; simpl in IH |- *.
      * rewrite IH, Hfirst, <- app_assoc. reflexivity.
      * destruct IH as (done & city' & rest & mid & -> & Hdone & Hraise & Hreq).
        exists (city :: done), city', rest, mid. split; [reflexivity |].
        split; [simpl; unfold bind; rewrite Hblock; exact Hdone |].
        split; [exact Hraise |].
        rewrite Hreq, Hfirst, <- app_assoc. reflexivity.
    + simpl. exists [], city, names, st. split; [reflexivity |].
      split; [reflexivity |]. split; [rewrite Hblock; reflexivity |].
      rewrite R, filter_app. cbn [filter].
      rewrite forecast_url_is_forecast_url, (no_forecast_urls _ F). reflexivity.
Qed.

(** C9 (as the code has it): the parsed list has one entry per comma of the
    input plus one, so it is never empty; a blank segment is not dropped but
    kept as the empty name; a loop body that is run begins with exactly one
    request to the forecast endpoint, for its entry as it stands (query [q=]
    for the empty name), whatever its outcome; a pass that runs to its end
    has asked for every entry of the list, once each and in order; and a pass
    that raises has asked for the entries up to and including the one whose
    body raised, and for none after it. *)
Theorem city_list_keeps_blank_entries (env : Environment) :
  List.length (cities env) = S (commas (cities_input env))
  /\ cities env <> []
  /\ (forall segment,
         In segment (split_comma (cities_input env)) -> blank segment = true ->
         strip segment = EmptyString /\ In EmptyString (cities env))
  /\ forecast_url env EmptyString
     = ("http://api.weatherapi.com/v1/forecast.json?key="
        ++ match API_KEY env with Some k => k | None => "None" end
        ++ "&q=&days=7&aqi=no&alerts=no")%string
  /\ (forall city st,
         exists urls,
           requested (fst (city_block env city st))
           = requested st ++ forecast_url env city :: urls
           /\ filter is_forecast_url urls = [])
  /\ (forall st,
         match snd (city_loop env (cities env) st) with
         | Ok _ =>
             filter is_forecast_url (requested (fst (city_loop env (cities env) st)))
             = filter is_forecast_url (requested st)
               ++ map (forecast_url env) (cities env)
         | Raise e =>
             exists done city rest mid,
               cities env = done ++ city :: rest
               /\ city_loop env done st = (mid, Ok tt)
               /\ snd (city_block env city mid) = Raise e
               /\ filter is_forecast_url (requested (fst (city_loop env (cities env) st)))
                  = filter is_forecast_url (requested st)
                    ++ map (forecast_url env) (done ++ [city])
         end).
Proof.
  assert (Hlen : List.length (cities env) = S (commas (cities_input env))).
  { unfold cities. rewrite length_map. apply split_comma_length. }
  split; [exact Hlen |]. split; [| split; [| split; [| split]]].
  - intros Hnil. rewrite Hnil in Hlen. discriminate Hlen.
  - intros segment Hin Hblank. split; [apply strip_blank; exact Hblank |].
    unfold cities. rewrite <- (strip_blank _ Hblank). apply in_map. exact Hin.
  - reflexivity.
  - intros city st. destruct (city_block_requests env city st) as (urls & R & F).
    exists urls. split; [exact R | apply no_forecast_urls; exact F].
  - intros st. apply city_loop_requests.
Qed.

(** C9, as stated, fails: with the input ["Kathmandu, "] and a Kathmandu
    whose selected day has no day temperature, the first body raises on the
    alert thresholds and the blank entry after it is never asked for. *)
Lemma blank_entry_after_failure_is_not_fetched :
  cities null_then_blank_env = ["Kathmandu"; EmptyString]
  /\ snd (main null_then_blank_env init_state) = Raise TypeError
  /\ filter is_forecast_url (requested (fst (main null_then_blank_env init_state)))
     = [forecast_url null_then_blank_env "Kathmandu"]
  /\ ~ In (forecast_url null_then_blank_env EmptyString)
         (requested (fst (main null_then_blank_env init_state))).
Proof.
  split; [reflexivity |]. split; [vm_compute; reflexivity |].
  split; [vm_compute; reflexivity |].
  vm_compute. intros [E | [E | [E | []]]]; discriminate E.
Qed.

(** The input [" , "] names two blank cities; both are fetched with an empty
    query, both are reported as not found. *)
Example blank_entries_are_fetched :
  let env := sample_env " , " [] in
  cities env = [EmptyString; EmptyString]
  /\ main env init_state
     = (mkState empty_frame empty_frame
          (ui (fst (main env init_state)))
          [url_of EmptyString; url_of EmptyString],
        Ok tt)
  /\ filter is_error_message (ui (fst (main env init_state)))
     = [not_found_message EmptyString; not_found_message EmptyString].
Proof. repeat split. Qed.

(** ** A selected date outside the forecast *)


(** ** The export table *)

Lemma range_index_length (n : nat) : List.length (range_index n) = n.
Proof. unfold range_index. rewrite length_map, length_seq. reflexivity. Qed.

Lemma nrows_export_frame (rows : list ForecastDay.t) (tag : list cell) :
  nrows (export_frame rows tag) = List.length rows.
Proof. apply range_index_length. Qed.

Lemma nrows_export_of (rows : list ForecastDay.t) (tag : list cell) :
  nrows (export_of rows tag) = List.length rows.
Proof. destruct rows; [reflexivity | apply nrows_export_frame]. Qed.

Lemma concat_rows_empty_left (rows : list ForecastDay.t) (tag : list cell) :
  concat_rows empty_frame (export_frame rows tag) = export_frame rows tag.
Proof.
  unfold concat_rows. rewrite nrows_export_frame. reflexivity.
Qed.

Lemma concat_rows_export_frames (rows1 rows2 : list ForecastDay.t) (tag1 tag2 : list cell) :
  concat_rows (export_frame rows1 tag1) (export_frame rows2 tag2)
  = export_frame (rows1 ++ rows2) (tag1 ++ tag2).
Proof.
  unfold concat_rows. rewrite !nrows_export_frame.
  unfold export_frame. rewrite length_app. simpl. rewrite !map_app. reflexivity.
Qed.

Lemma concat_rows_export_of
      (rows1 rows2 : list ForecastDay.t) (tag1 tag2 : list cell) :
  rows2 <> [] -> (rows1 = [] -> tag1 = []) ->
  concat_rows (export_of rows1 tag1) (export_frame rows2 tag2)
  = export_of (rows1 ++ rows2) (tag1 ++ tag2).
Proof.
  intros Hrows2 Htag1. destruct rows1 as [| r rows1].
  - rewrite (Htag1 eq_refl). simpl. rewrite concat_rows_empty_left.
    destruct rows2; [contradiction | reflexivity].
  - change (export_of (r :: rows1) tag1) with (export_frame (r :: rows1) tag1).
    rewrite concat_rows_export_frames. reflexivity.
Qed.

Lemma city_csv_df_ok (env : Environment) (w : CityWeather.t) (csv : DataFrame) :
  city_csv_df env w = Ok csv ->
  exists tag,
    city_column env (List.length (CityWeather.forecast w)) (CityWeather.city w) = Ok tag
    /\ csv = export_frame (CityWeather.forecast w) tag.
Proof.
  unfold city_csv_df. intros H. invert_rbind H. injection H as <-.
  exists x. split; [assumption | reflexivity].
Qed.

Lemma fetched_forecast_nonempty (env : Environment) (city : string) (w : CityWeather.t) :
  fetched env city = Ok (Some w) -> CityWeather.forecast w <> [].
Proof.
  unfold fetched. intros H. do 2 invert_rbind H.
  destruct (normalize_some _ _ H) as (_ & day0 & _ & _ & _ & Hfirst & _).
  intros Hnil. rewrite Hnil in Hfirst. discriminate Hfirst.
Qed.

Lemma successes_cons (env : Environment) (city : string) (rest : list string) :
  successes env (city :: rest)
  = match fetched env city with
    | Ok (Some w) => [w]
    | _ => []
    end ++ successes env rest.
Proof. reflexivity. Qed.

(** The loop appends every fetched city's rows, in order, to what the export
    table held. *)
Lemma city_loop_download
      (env : Environment) (names : list string) (st st' : State)
      (rows : list ForecastDay.t) (tag : list cell) :
  city_loop env names st = (st', Ok tt) ->
  download_df st = export_of rows tag ->
  (rows = [] -> tag = []) ->
  exists tags,
    Forall2 (tagged env) (successes env names) tags
    /\ download_df st'
       = export_of (rows ++ flat_map CityWeather.forecast (successes env names))
           (tag ++ List.concat tags).
Proof.
  revert st rows tag. induction names as [| city rest IH]; intros st rows tag H Hdl Htag;
    simpl in H.
  - injection H as <-. exists []. simpl. rewrite !app_nil_r.
    split; [constructor | exact Hdl].
  - apply bind_ok in H. destruct H as ([] & st1 & Hblock & Hrest).
    apply city_block_effect in Hblock.
    destruct Hblock as (shown & urls & _ & _ & _ & Htables).
    rewrite successes_cons.
    destruct (fetched env city) as [[w |] | e] eqn:Hfetched; [| | contradiction].
    + destruct Htables as (csv & _ & Hcsv & Hdl1).
      apply city_csv_df_ok in Hcsv. destruct Hcsv as (t & Ht & ->).
      pose proof (fetched_forecast_nonempty _ _ _ Hfetched) as Hne.
      rewrite Hdl, (concat_rows_export_of _ _ _ _ Hne Htag) in Hdl1.
      destruct (IH _ _ _ Hrest Hdl1) as (tags & Htags & Hfinal).
      { intros Hnil. apply app_eq_nil in Hnil. destruct Hnil as [_ Hnil]. contradiction. }
      exists (t :: tags). split; [constructor; assumption |].
      rewrite Hfinal. simpl. rewrite <- !app_assoc. reflexivity.
    + destruct Htables as (_ & Hdl1 & _). rewrite Hdl in Hdl1.
      exact (IH _ _ _ Hrest Hdl1 Htag).
Qed.

Lemma length_flat_forecast (ws : list CityWeather.t) :
  List.length (flat_map CityWeather.forecast ws)
  = list_sum (map (fun w => List.length (CityWeather.forecast w)) ws).
Proof.
  induction ws as [| w ws IH]; simpl; [reflexivity |].
  rewrite length_app, IH. reflexivity.
Qed.

Lemma list_sum_constant (ws : list CityWeather.t) (n : nat) :
  Forall (fun w => List.length (CityWeather.forecast w) = n) ws ->
  list_sum (map (fun w => List.length (CityWeather.forecast w)) ws)
  = (n * List.length ws)%nat.
Proof.
  induction 1 as [| w ws Hw _ IH]; simpl; [lia |]. rewrite Hw, IH. lia.
Qed.

Lemma tagged_scalar (env : Environment) (w : CityWeather.t) (tag : list cell) :
  tagged env w tag -> scalar (CityWeather.city w) = true ->
  tag = repeat (CVal (CityWeather.city w)) (List.length (CityWeather.forecast w)).
Proof.
  unfold tagged, city_column. destruct (CityWeather.city w); simpl; intros H Hs;
    try discriminate Hs; injection H as <-; reflexivity.
Qed.

(** C5 (as the code has it): after a pass that runs to its end from an empty
    export table, the table holds the forecast rows of the fetched cities and
    nothing else: cities answered with None add nothing, the rows stand in
    city arrival order and within a city in forecast order, every row tagged
    with its city's name, and the row count is the sum of the cities'
    forecast lengths; it is 7 times the number of fetched cities when each
    of them came with 7 forecast days. *)
Theorem export_rows_accumulate
        (env : Environment) (names : list string) (st st' : State) :
  download_df st = empty_frame ->
  city_loop env names st = (st', Ok tt) ->
  let ws := successes env names in
  exists tags,
    Forall2 (fun w tag =>
               tagged env w tag
               /\ (scalar (CityWeather.city w) = true ->
                   tag = repeat (CVal (CityWeather.city w))
                           (List.length (CityWeather.forecast w))))
            ws tags
    /\ download_df st' = export_of (flat_map CityWeather.forecast ws) (List.concat tags)
    /\ nrows (download_df st')
       = list_sum (map (fun w => List.length (CityWeather.forecast w)) ws)
    /\ (Forall (fun w => List.length (CityWeather.forecast w) = 7%nat) ws ->
        nrows (download_df st') = (7 * List.length ws)%nat).
Proof.
  intros Hempty Hrun ws.
  destruct (city_loop_download env names st st' [] [] Hrun Hempty (fun _ => eq_refl))
    as (tags & Htags & Hfinal).
  simpl in Hfinal. fold ws in Htags, Hfinal.
  assert (Hrows : nrows (download_df st')
                  = list_sum (map (fun w => List.length (CityWeather.forecast w)) ws)).
  { rewrite Hfinal, nrows_export_of. apply length_flat_forecast. }
  exists tags. repeat split.
  - revert Htags. apply Forall2_impl. intros w tag Ht.
    split; [exact Ht | apply (tagged_scalar env); exact Ht].
  - exact Hfinal.
  - exact Hrows.
  - intros Hseven. rewrite Hrows. apply list_sum_constant. exact Hseven.
Qed.

Lemma export_rows_accumulate_witness :
  let final := fst (city_loop kathmandu_env (cities kathmandu_env) init_state) in
  download_df init_state = empty_frame
  /\ city_loop kathmandu_env (cities kathmandu_env) init_state = (final, Ok tt)
  /\ List.length (successes kathmandu_env (cities kathmandu_env)) = 1%nat
  /\ nrows (download_df final) = 7%nat.
Proof.
  intros final.
  assert (Hrun : city_loop kathmandu_env (cities kathmandu_env) init_state = (final, Ok tt))
    by (vm_compute; reflexivity).
  split; [reflexivity |]. split; [exact Hrun |]. split; [reflexivity |].
  destruct (export_rows_accumulate kathmandu_env (cities kathmandu_env)
              init_state final eq_refl Hrun) as (tags & _ & _ & _ & Hseven).
  apply Hseven. vm_compute. repeat constructor.
Defined.

(** C5, as stated, fails: one city fetched with a three-day forecast leaves
    three rows in the export table, not seven. *)
Lemma three_day_city_exports_three_rows :
  let final := fst (main three_day_env init_state) in
  snd (main three_day_env init_state) = Ok tt
  /\ List.length (successes three_day_env (cities three_day_env)) = 1%nat
  /\ nrows (download_df final) = 3%nat
  /\ nrows (download_df final)
     <> (7 * List.length (successes three_day_env (cities three_day_env)))%nat.
Proof.
  vm_compute. repeat split. discriminate.
Qed.

(** ** Row labels *)

Lemma date_eqb_eq (a b : date) : date_eqb a b = true <-> a = b.
Proof.
  unfold date_eqb. destruct a as [y m d], b as [y' m' d']. simpl.
  rewrite !andb_true_iff, !Nat.eqb_eq. split.
  - intros [[-> ->] ->]. reflexivity.
  - intros H. injection H as -> -> ->. repeat split.
Qed.

Lemma label_eqb_eq (a b : label) : label_eqb a b = true <-> a = b.
Proof.
  destruct a as [d | n], b as [d' | n']; simpl.
  - rewrite date_eqb_eq. split; [intros -> | intros H; injection H as ->]; reflexivity.
  - split; discriminate.
  - split; discriminate.
  - rewrite Nat.eqb_eq. split; [intros -> | intros H; injection H as ->]; reflexivity.
Qed.

Lemma label_eqb_refl (a : label) : label_eqb a a = true.
Proof. apply label_eqb_eq. reflexivity. Qed.

Lemma label_eqb_neq (a b : label) : label_eqb a b = false <-> a <> b.
Proof.
  rewrite <- label_eqb_eq. destruct (label_eqb a b); split; congruence.
Qed.

Lemma label_eqb_sym (a b : label) : label_eqb a b = label_eqb b a.
Proof.
  destruct (label_eqb b a) eqn:H.
  - apply label_eqb_eq in H. subst. apply label_eqb_refl.
  - apply label_eqb_neq. apply label_eqb_neq in H. congruence.
Qed.

Lemma index_eqb_eq (a b : list label) : index_eqb a b = true <-> a = b.
Proof.
  revert b. induction a as [| x a IH]; intros [| y b]; simpl; try (split; congruence).
  rewrite andb_true_iff, label_eqb_eq, IH. split.
  - intros [-> ->]. reflexivity.
  - intros H. injection H as -> ->. split; reflexivity.
Qed.

Lemma index_eqb_refl (a : list label) : index_eqb a a = true.
Proof. apply index_eqb_eq. reflexivity. Qed.

Lemma mem_In (x : label) (l : list label) : mem x l = true <-> In x l.
Proof.
  unfold mem. rewrite existsb_exists. split.
  - intros (y & Hin & Heq). apply label_eqb_eq in Heq. subst. exact Hin.
  - intros Hin. exists x. split; [exact Hin | apply label_eqb_refl].
Qed.

Lemma mem_not_In (x : label) (l : list label) : mem x l = false <-> ~ In x l.
Proof.
  rewrite <- mem_In. destruct (mem x l); split; congruence.
Qed.

Lemma is_unique_NoDup (l : list label) : NoDup l -> is_unique l = true.
Proof.
  induction 1 as [| x l Hx _ IH]; simpl; [reflexivity |].
  rewrite IH, andb_true_r. apply negb_true_iff, mem_not_In. exact Hx.
Qed.

Lemma filter_all {X} (p : X -> bool) (l : list X) :
  (forall x, In x l -> p x = true) -> filter p l = l.
Proof.
  induction l as [| x l IH]; simpl; intros H; [reflexivity |].
  rewrite (H x (or_introl eq_refl)), IH; [reflexivity |].
  intros y Hy. apply H. right. exact Hy.
Qed.

Lemma filter_none {X} (p : X -> bool) (l : list X) :
  (forall x, In x l -> p x = false) -> filter p l = [].
Proof.
  induction l as [| x l IH]; simpl; intros H; [reflexivity |].
  rewrite (H x (or_introl eq_refl)). apply IH.
  intros y Hy. apply H. right. exact Hy.
Qed.

Lemma uniq_NoDup (l : list label) : NoDup l -> uniq l = l.
Proof.
  induction 1 as [| x l Hx _ IH]; simpl; [reflexivity |].
  rewrite IH, filter_all; [reflexivity |].
  intros y Hy. apply negb_true_iff, label_eqb_neq. intros ->. contradiction.
Qed.

Lemma filter_outside_cons (x : label) (a b : list label) :
  filter (fun y => negb (label_eqb x y)) (filter (fun y => negb (mem y a)) b)
  = filter (fun y => negb (mem y (x :: a))) b.
Proof.
  induction b as [| y b IH]; simpl; [reflexivity |].
  rewrite (label_eqb_sym y x).
  destruct (mem y a) eqn:Hy; simpl.
  - rewrite IH, orb_true_r. reflexivity.
  - rewrite orb_false_r. destruct (label_eqb x y); simpl; rewrite IH; reflexivity.
Qed.

Lemma uniq_app_NoDup (a b : list label) :
  NoDup a -> NoDup b ->
  uniq (a ++ b) = a ++ filter (fun y => negb (mem y a)) b.
Proof.
  intros Ha Hb. induction Ha as [| x a Hx _ IH]; simpl.
  - rewrite uniq_NoDup by exact Hb. symmetry. apply filter_all. reflexivity.
  - rewrite IH, filter_app, filter_outside_cons. f_equal. f_equal.
    apply filter_all. intros y Hy. apply negb_true_iff, label_eqb_neq.
    intros ->. contradiction.
Qed.

Lemma count_NoDup (x : label) (l : list label) :
  NoDup l -> count x l = if mem x l then 1%nat else 0%nat.
Proof.
  unfold count. induction 1 as [| y l Hy _ IH]; simpl; [reflexivity |].
  destruct (label_eqb x y) eqn:Hxy; simpl.
  - apply label_eqb_eq in Hxy. subst y.
    rewrite IH. apply mem_not_In in Hy. rewrite Hy. reflexivity.
  - exact IH.
Qed.

Lemma flat_map_repeat_once (f : label -> nat) (l : list label) :
  (forall x, In x l -> f x = 1%nat) -> flat_map (fun x => repeat x (f x)) l = l.
Proof.
  induction l as [| x l IH]; simpl; intros H; [reflexivity |].
  rewrite (H x (or_introl eq_refl)), IH; [reflexivity |].
  intros y Hy. apply H. right. exact Hy.
Qed.

(** Without repeated labels the union is the left labels followed by the new
    right ones. *)
Lemma union_with_duplicates_NoDup (a b : list label) :
  NoDup a -> NoDup b ->
  union_with_duplicates a b = a ++ filter (fun y => negb (mem y a)) b.
Proof.
  intros Ha Hb. unfold union_with_duplicates.
  rewrite (uniq_app_NoDup _ _ Ha Hb). apply flat_map_repeat_once.
  intros x Hx. rewrite (count_NoDup _ _ Ha), (count_NoDup _ _ Hb).
  apply in_app_or in Hx. destruct Hx as [Hx | Hx].
  - apply mem_In in Hx. rewrite Hx. destruct (mem x b); reflexivity.
  - apply filter_In in Hx. destruct Hx as [Hx _].
    apply mem_In in Hx. rewrite Hx. destruct (mem x a); reflexivity.
Qed.

Lemma in_uniq (x : label) (l : list label) : In x (uniq l) <-> In x l.
Proof.
  induction l as [| y l IH]; simpl; [tauto |].
  rewrite filter_In, IH, negb_true_iff, label_eqb_neq. split.
  - intros [H | [H _]]; tauto.
  - intros [H | H]; [left; exact H |].
    destruct (label_eqb y x) eqn:Hyx.
    + apply label_eqb_eq in Hyx. left. exact Hyx.
    + apply label_eqb_neq in Hyx. right. split; assumption.
Qed.

Lemma count_positive (x : label) (l : list label) : In x l -> (1 <= count x l)%nat.
Proof.
  unfold count. induction l as [| y l IH]; simpl; [tauto |].
  intros [-> | H].
  - rewrite label_eqb_refl. simpl. lia.
  - destruct (label_eqb x y); simpl; [lia | apply IH; exact H].
Qed.

Lemma in_union_with_duplicates (x : label) (a b : list label) :
  In x (union_with_duplicates a b) <-> In x a \/ In x b.
Proof.
  unfold union_with_duplicates. rewrite in_flat_map, <- in_app_iff. split.
  - intros (y & Hy & Hx). apply repeat_spec in Hx. subst. apply in_uniq. exact Hy.
  - intros Hx. exists x. split; [apply in_uniq; exact Hx |].
    apply in_app_or in Hx.
    assert (Hpos : (1 <= Nat.max (count x a) (count x b))%nat).
    { destruct Hx as [Hx | Hx]; apply count_positive in Hx; lia. }
    destruct (Nat.max (count x a) (count x b)); [lia | left; reflexivity].
Qed.

(** *** Sorting the labels *)

Lemma date_ltb_asym (a b : date) : date_ltb a b = true -> date_ltb b a = false.
Proof.
  unfold date_ltb. destruct a as [y m d], b as [y' m' d']. simpl.
  repeat match goal with
         | |- context [(?x <? ?z)%nat] => destruct (Nat.ltb_spec x z)
         | |- context [(?x =? ?z)%nat] => destruct (Nat.eqb_spec x z)
         end; simpl; intros Hlt; try reflexivity; try discriminate Hlt; lia.
Qed.

Lemma label_leb_total (a b : label) : label_leb a b = false -> label_leb b a = true.
Proof.
  destruct a as [x | n], b as [y | k]; simpl; intros H; try reflexivity; try discriminate H.
  - apply negb_false_iff in H. rewrite (date_ltb_asym _ _ H). reflexivity.
  - apply Nat.leb_gt in H. apply Nat.leb_le. lia.
Qed.

Lemma in_insert_label (x y : label) (l : list label) :
  In y (insert_label x l) <-> y = x \/ In y l.
Proof.
  induction l as [| z l IH]; simpl.
  - split; intros [H | H]; auto.
  - destruct (label_leb x z); simpl; [split; intros [H | H]; auto |].
    rewrite IH. tauto.
Qed.

Lemma in_sort_labels (x : label) (l : list label) : In x (sort_labels l) <-> In x l.
Proof.
  induction l as [| y l IH]; simpl; [tauto |].
  rewrite in_insert_label, IH. split; intros [H | H]; auto.
Qed.

Lemma length_insert_label (x : label) (l : list label) :
  List.length (insert_label x l) = S (List.length l).
Proof.
  induction l as [| y l IH]; simpl; [reflexivity |].
  destruct (label_leb x y); simpl; [reflexivity | rewrite IH; reflexivity].
Qed.

Lemma length_sort_labels (l : list label) : List.length (sort_labels l) = List.length l.
Proof.
  induction l as [| y l IH]; simpl; [reflexivity |].
  rewrite length_insert_label, IH. reflexivity.
Qed.

Lemma sorted_insert_label (x : label) (l : list label) :
  sorted_labels l = true -> sorted_labels (insert_label x l) = true.
Proof.
  induction l as [| y l IH]; intros Hl; [reflexivity |].
  cbn [insert_label]. destruct (label_leb x y) eqn:Hxy.
  - cbn [sorted_labels]. rewrite Hxy. exact Hl.
  - apply label_leb_total in Hxy.
    destruct l as [| z l].
    + cbn. rewrite Hxy. reflexivity.
    + cbn [sorted_labels] in Hl. apply andb_prop in Hl. destruct Hl as [Hyz Hl].
      specialize (IH Hl). cbn [insert_label] in IH |- *.
      destruct (label_leb x z); cbn [sorted_labels] in IH |- *.
      * rewrite Hxy. exact IH.
      * rewrite Hyz. exact IH.
Qed.

Lemma sorted_sort_labels (l : list label) : sorted_labels (sort_labels l) = true.
Proof.
  induction l as [| x l IH]; [reflexivity |].
  apply sorted_insert_label. exact IH.
Qed.

Lemma NoDup_insert_label (x : label) (l : list label) :
  ~ In x l -> NoDup l -> NoDup (insert_label x l).
Proof.
  induction l as [| y l IH]; simpl; intros Hx Hl.
  - constructor; [tauto | constructor].
  - destruct (label_leb x y).
    + constructor; [exact Hx | exact Hl].
    + inversion Hl as [| ? ? Hy Hl']; subst. constructor.
      * rewrite in_insert_label. intros [-> | H]; tauto.
      * apply IH; tauto.
Qed.

Lemma NoDup_sort_labels (l : list label) : NoDup l -> NoDup (sort_labels l).
Proof.
  induction 1 as [| x l Hx _ IH]; simpl; [constructor |].
  apply NoDup_insert_label; [rewrite in_sort_labels; exact Hx | exact IH].
Qed.

Lemma sort_labels_nonempty (x : label) (l : list label) : sort_labels (x :: l) <> [].
Proof.
  intros H. apply (f_equal (@List.length label)) in H.
  rewrite length_sort_labels in H. discriminate H.
Qed.

(** *** The united labels *)

Lemma in_combined_index (x : label) (a b : list label) :
  In x (combined_index a b) <-> In x a \/ In x b.
Proof.
  unfold combined_index. destruct (index_eqb a b) eqn:Heq.
  - apply index_eqb_eq in Heq. subst. tauto.
  - destruct a as [| y a]; [simpl; tauto |].
    destruct b as [| z b]; [simpl; tauto |].
    rewrite in_sort_labels. apply in_union_with_duplicates.
Qed.

Lemma new_labels_NoDup (a b : list label) :
  NoDup a -> NoDup b -> NoDup (a ++ filter (fun y => negb (mem y a)) b).
Proof.
  intros Ha Hb. apply NoDup_app; [exact Ha | apply NoDup_filter; exact Hb |].
  intros x Hx Hnew. apply filter_In in Hnew. destruct Hnew as [_ Hnew].
  apply negb_true_iff, mem_not_In in Hnew. contradiction.
Qed.

(** Without repeated labels: lists that differ are united, the new labels of
    the right side added once, and sorted. *)
Lemma combined_index_NoDup (a b : list label) :
  NoDup a -> NoDup b ->
  combined_index a b
  = if index_eqb a b then a
    else match a, b with
         | [], _ => b
         | _, [] => a
         | _, _ => sort_labels (a ++ filter (fun y => negb (mem y a)) b)
         end.
Proof.
  intros Ha Hb. unfold combined_index.
  destruct (index_eqb a b); [reflexivity |].
  destruct a as [| x a]; [reflexivity |].
  destruct b as [| y b]; [reflexivity |].
  rewrite (union_with_duplicates_NoDup _ _ Ha Hb). reflexivity.
Qed.

Lemma combined_index_keeps_NoDup (a b : list label) :
  NoDup a -> NoDup b -> NoDup (combined_index a b).
Proof.
  intros Ha Hb. rewrite (combined_index_NoDup _ _ Ha Hb).
  destruct (index_eqb a b); [exact Ha |].
  destruct a as [| x a]; [exact Hb |].
  destruct b as [| y b]; [exact Ha |].
  apply NoDup_sort_labels, new_labels_NoDup; assumption.
Qed.

Lemma combined_index_length (a b : list label) :
  NoDup a -> NoDup b ->
  List.length (combined_index a b)
  = (List.length a + List.length (filter (fun y => negb (mem y a)) b))%nat.
Proof.
  intros Ha Hb. rewrite (combined_index_NoDup _ _ Ha Hb).
  destruct (index_eqb a b) eqn:Heq.
  - apply index_eqb_eq in Heq. subst b.
    rewrite filter_none; [simpl; lia |].
    intros y Hy. apply negb_false_iff, mem_In. exact Hy.
  - destruct a as [| x a].
    { rewrite filter_all; [reflexivity | reflexivity]. }
    destruct b as [| y b]; [simpl; lia |].
    rewrite length_sort_labels, length_app. reflexivity.
Qed.

(** ** Aligning a frame on new row labels *)

Lemma position_foreign (x : label) (l : list label) : ~ In x l -> position x l = None.
Proof.
  induction l as [| y l IH]; simpl; intros H; [reflexivity |].
  destruct (label_eqb x y) eqn:Hxy.
  - apply label_eqb_eq in Hxy. subst. exfalso. apply H. left. reflexivity.
  - rewrite IH; [reflexivity |]. intros Hin. apply H. right. exact Hin.
Qed.

Lemma take_cell_foreign (old : list label) (cells : list cell) (new : list label) :
  (forall x, In x new -> ~ In x old) ->
  map (take_cell old cells) new = repeat CNaN (List.length new).
Proof.
  induction new as [| x new IH]; simpl; intros H; [reflexivity |].
  unfold take_cell at 1. rewrite position_foreign by (apply H; left; reflexivity).
  rewrite IH; [reflexivity |]. intros y Hy. apply H. right. exact Hy.
Qed.

Lemma take_cell_own (old : list label) (cells : list cell) :
  NoDup old -> List.length cells = List.length old ->
  map (take_cell old cells) old = cells.
Proof.
  intros Hold. revert cells.
  induction Hold as [| x old Hx _ IH]; intros [| c cells] Hlen; try discriminate Hlen;
    [reflexivity |].
  simpl. unfold take_cell at 1. simpl. rewrite label_eqb_refl. f_equal.
  rewrite <- (IH cells) at 2 by (simpl in Hlen; lia).
  apply map_ext_in. intros y Hy. unfold take_cell. simpl.
  assert (Hyx : label_eqb y x = false).
  { apply label_eqb_neq. intros ->. contradiction. }
  rewrite Hyx. destruct (position y old); reflexivity.
Qed.

Lemma reindex_names (idx : list label) (df df' : DataFrame) :
  reindex idx df = Ok df' ->
  index df' = idx /\ map fst (columns df') = map fst (columns df).
Proof.
  unfold reindex. destruct (index_eqb (index df) idx) eqn:Heq.
  - intros H. injection H as <-. apply index_eqb_eq in Heq. split; [exact Heq | reflexivity].
  - destruct (is_unique (index df)); [| discriminate].
    intros H. injection H as <-. simpl. split; [reflexivity |].
    rewrite map_map. reflexivity.
Qed.

Lemma reindex_NoDup (idx : list label) (df : DataFrame) :
  NoDup (index df) ->
  exists cols,
    reindex idx df = Ok (mkDataFrame idx cols)
    /\ map fst cols = map fst (columns df).
Proof.
  intros Hdf. unfold reindex. destruct (index_eqb (index df) idx) eqn:Heq.
  - apply index_eqb_eq in Heq. exists (columns df). destruct df. simpl in *. subst.
    split; reflexivity.
  - rewrite (is_unique_NoDup _ Hdf). eexists. split; [reflexivity |].
    rewrite map_map. reflexivity.
Qed.

(** A frame whose labels do not repeat is aligned on any labels: each new
    row takes the frame's cell for its label, or a gap. *)
Lemma reindex_cells (idx : list label) (df : DataFrame) :
  NoDup (index df) -> well_formed df ->
  reindex idx df
  = Ok (mkDataFrame idx
          (map (fun c => (fst c, map (take_cell (index df) (snd c)) idx)) (columns df))).
Proof.
  intros Hdf Hwf. unfold reindex. destruct (index_eqb (index df) idx) eqn:Heq.
  - apply index_eqb_eq in Heq. subst idx. destruct df as [idx cols]. simpl in *.
    do 2 f_equal. unfold well_formed in Hwf. simpl in Hwf.
    induction Hwf as [| [name cells] cols Hc _ IH]; simpl; [reflexivity |].
    simpl in Hc. rewrite (take_cell_own _ _ Hdf Hc), <- IH. reflexivity.
  - rewrite (is_unique_NoDup _ Hdf). reflexivity.
Qed.

(** The cell a column holds for one of its own labels. *)
Lemma take_cell_at {X} (f : X -> label) (g : X -> cell) (l : list X) (d : X) :
  NoDup (map f l) -> In d l -> take_cell (map f l) (map g l) (f d) = g d.
Proof.
  induction l as [| a l IH]; simpl; intros Hl Hd; [contradiction |].
  inversion Hl as [| ? ? Ha Hl']; subst.
  unfold take_cell. simpl. destruct (label_eqb (f d) (f a)) eqn:Heq.
  - apply label_eqb_eq in Heq. destruct Hd as [-> | Hd]; [reflexivity |].
    exfalso. apply Ha. rewrite <- Heq. apply in_map. exact Hd.
  - destruct Hd as [-> | Hd]; [rewrite label_eqb_refl in Heq; discriminate Heq |].
    specialize (IH Hl' Hd). unfold take_cell in IH.
    destruct (position (f d) (map f l)); exact IH.
Qed.

Lemma concat_columns_names (a b t : DataFrame) :
  concat_columns a b = Ok t ->
  index t = combined_index (index a) (index b)
  /\ map fst (columns t) = map fst (columns a) ++ map fst (columns b).
Proof.
  unfold concat_columns. intros H. do 2 invert_rbind H. injection H as <-. simpl.
  split; [reflexivity |].
  match goal with
  | Ha : reindex _ a = Ok _, Hb : reindex _ b = Ok _ |- _ =>
      apply reindex_names in Ha, Hb; destruct Ha as [_ Ha]; destruct Hb as [_ Hb]
  end.
  rewrite map_app. congruence.
Qed.

Lemma concat_columns_empty_left (b : DataFrame) : concat_columns empty_frame b = Ok b.
Proof.
  destruct b as [idx cols]. unfold concat_columns, combined_index, reindex. simpl.
  destruct idx as [| x idx]; simpl; [reflexivity |].
  rewrite label_eqb_refl, index_eqb_refl. reflexivity.
Qed.

(** ** The comparison table *)

Lemma temp_df_well_formed (env : Environment) (w : CityWeather.t) :
  well_formed (temp_df env w).
Proof.
  unfold well_formed. simpl. repeat constructor; simpl; rewrite !length_map; reflexivity.
Qed.

(** C6 (as the code has it): merging a city into the comparison table
    appends two columns named after the city and joins on the dates.  The
    first merge gives the city's own frame.  For two cities whose forecast
    dates do not repeat the second merge succeeds: its rows are the first
    city's dates when both lists are the same, and otherwise the dates of
    both, each once, in ascending order; every column holds the city's value
    in the rows of its own dates and a gap in every other row; with the same
    seven dates on both sides the table has 7 rows and 4 columns; with no
    date in common it has a row for every date of both.  When the second
    city's dates repeat and none of them is a date of the first, the merge is
    an error. *)
Theorem comparison_merge_is_outer_join
        (env : Environment) (w1 w2 : CityWeather.t) :
  let name1 := py_str env (CityWeather.city w1) in
  let name2 := py_str env (CityWeather.city w2) in
  let d1 := date_labels w1 in
  let d2 := date_labels w2 in
  concat_columns empty_frame (temp_df env w1) = Ok (temp_df env w1)
  /\ (forall t t',
         concat_columns t (temp_df env w2) = Ok t' ->
         map fst (columns t')
         = map fst (columns t) ++ [(name2 ++ "_day")%string; (name2 ++ "_night")%string])
  /\ (NoDup d1 -> NoDup d2 ->
      exists t2,
        concat_columns (temp_df env w1) (temp_df env w2) = Ok t2
        /\ columns t2
           = [ ((name1 ++ "_day")%string, map (day_cell w1) (index t2));
               ((name1 ++ "_night")%string, map (night_cell w1) (index t2));
               ((name2 ++ "_day")%string, map (day_cell w2) (index t2));
               ((name2 ++ "_night")%string, map (night_cell w2) (index t2)) ]
        /\ index t2
           = (if index_eqb d1 d2 then d1
              else match d1, d2 with
                   | [], _ => d2
                   | _, [] => d1
                   | _, _ => sort_labels (d1 ++ filter (fun x => negb (mem x d1)) d2)
                   end)
        /\ NoDup (index t2)
        /\ (forall x, In x (index t2) <-> In x d1 \/ In x d2)
        /\ (d1 <> d2 -> d1 <> [] -> d2 <> [] -> sorted_labels (index t2) = true)
        /\ ((forall x, In x d1 <-> In x d2) ->
            List.length (CityWeather.forecast w1) = 7%nat ->
            nrows t2 = 7%nat /\ ncols t2 = 4%nat)
        /\ ((forall x, In x d2 -> ~ In x d1) ->
            nrows t2 = (List.length d1 + List.length d2)%nat)
        /\ (forall d, In d (CityWeather.forecast w1) ->
                      day_cell w1 (LDate (ForecastDay.date d)) = CVal (ForecastDay.temp_day d)
                      /\ night_cell w1 (LDate (ForecastDay.date d))
                         = CVal (ForecastDay.temp_night d))
        /\ (forall d, In d (CityWeather.forecast w2) ->
                      day_cell w2 (LDate (ForecastDay.date d)) = CVal (ForecastDay.temp_day d)
                      /\ night_cell w2 (LDate (ForecastDay.date d))
                         = CVal (ForecastDay.temp_night d))
        /\ (forall x, ~ In x d1 -> day_cell w1 x = CNaN /\ night_cell w1 x = CNaN)
        /\ (forall x, ~ In x d2 -> day_cell w2 x = CNaN /\ night_cell w2 x = CNaN))
  /\ (d1 <> [] -> (forall x, In x d2 -> ~ In x d1) -> is_unique d2 = false ->
      concat_columns (temp_df env w1) (temp_df env w2) = Raise InvalidIndexError).
Proof.
  intros name1 name2 d1 d2.
  assert (Hgap : forall w x, ~ In x (date_labels w) ->
                             day_cell w x = CNaN /\ night_cell w x = CNaN).
  { intros w x Hx. unfold day_cell, night_cell, take_cell.
    rewrite (position_foreign _ _ Hx). split; reflexivity. }
  assert (Hown : forall w, NoDup (date_labels w) ->
                 forall d, In d (CityWeather.forecast w) ->
                           day_cell w (LDate (ForecastDay.date d))
                           = CVal (ForecastDay.temp_day d)
                           /\ night_cell w (LDate (ForecastDay.date d))
                              = CVal (ForecastDay.temp_night d)).
  { intros w Hw d Hd. unfold day_cell, night_cell, day_temps, night_temps, date_labels in *.
    split.
    - exact (take_cell_at (fun d => LDate (ForecastDay.date d))
               (fun d => CVal (ForecastDay.temp_day d)) _ d Hw Hd).
    - exact (take_cell_at (fun d => LDate (ForecastDay.date d))
               (fun d => CVal (ForecastDay.temp_night d)) _ d Hw Hd). }
  split; [apply concat_columns_empty_left |]. split; [| split].
  - intros t t' Ht. apply concat_columns_names in Ht. destruct Ht as [_ Ht].
    rewrite Ht. reflexivity.
  - intros H1 H2.
    exists (mkDataFrame (combined_index d1 d2)
              [ ((name1 ++ "_day")%string, map (day_cell w1) (combined_index d1 d2));
                ((name1 ++ "_night")%string, map (night_cell w1) (combined_index d1 d2));
                ((name2 ++ "_day")%string, map (day_cell w2) (combined_index d1 d2));
                ((name2 ++ "_night")%string, map (night_cell w2) (combined_index d1 d2)) ]).
    split; [| split; [reflexivity |]].
    { unfold concat_columns.
      rewrite (reindex_cells _ (temp_df env w1) H1 (temp_df_well_formed env w1)).
      rewrite (reindex_cells _ (temp_df env w2) H2 (temp_df_well_formed env w2)).
      reflexivity. }
    cbn [index].
    split; [apply combined_index_NoDup; assumption |].
    split; [apply combined_index_keeps_NoDup; assumption |].
    split; [intros x; apply in_combined_index |].
    split; [| split; [| split; [| split; [| split; [| split]]]]].
    + intros Hdiff Hne1 Hne2. unfold combined_index.
      destruct (index_eqb d1 d2) eqn:Heq; [apply index_eqb_eq in Heq; contradiction |].
      destruct d1 as [| x a]; [contradiction |].
      destruct d2 as [| y b]; [contradiction |].
      apply sorted_sort_labels.
    + intros Hsame Hseven. unfold nrows, ncols. cbn [index columns]. split; [| reflexivity].
      rewrite (combined_index_length _ _ H1 H2), filter_none.
      * subst d1. unfold date_labels. rewrite length_map. simpl. lia.
      * intros y Hy. apply negb_false_iff, mem_In, Hsame. exact Hy.
    + intros Hdisjoint. unfold nrows. cbn [index].
      rewrite (combined_index_length _ _ H1 H2), filter_all; [reflexivity |].
      intros y Hy. apply negb_true_iff, mem_not_In, Hdisjoint. exact Hy.
    + apply Hown. exact H1.
    + apply Hown. exact H2.
    + apply Hgap.
    + apply Hgap.
  - intros Hne Hdisjoint Hrepeats.
    destruct d1 as [| x a] eqn:Hd1; [contradiction |].
    assert (Hx : ~ In x d2).
    { intros Hx. apply (Hdisjoint x Hx). left. reflexivity. }
    destruct d2 as [| y b] eqn:Hd2; [discriminate Hrepeats |].
    unfold concat_columns.
    change (index (temp_df env w1)) with (date_labels w1).
    change (index (temp_df env w2)) with (date_labels w2).
    fold d1 d2. rewrite Hd1, Hd2.
    assert (Hdiff : index_eqb (x :: a) (y :: b) = false).
    { destruct (index_eqb (x :: a) (y :: b)) eqn:Heq; [| reflexivity].
      apply index_eqb_eq in Heq. exfalso. apply Hx. rewrite <- Heq. left. reflexivity. }
    unfold combined_index. rewrite Hdiff.
    set (idx := sort_labels (union_with_duplicates (x :: a) (y :: b))).
    assert (Hidx : index_eqb (y :: b) idx = false).
    { destruct (index_eqb (y :: b) idx) eqn:Heq; [| reflexivity].
      apply index_eqb_eq in Heq. exfalso. apply Hx. rewrite Heq. subst idx.
      apply in_sort_labels, in_union_with_duplicates. left. left. reflexivity. }
    unfold reindex at 1.
    change (index (temp_df env w1)) with (date_labels w1). fold d1. rewrite Hd1.
    destruct (index_eqb (x :: a) idx);
      [| destruct (is_unique (x :: a)); [| reflexivity]];
      cbn [rbind]; unfold reindex;
      change (index (temp_df env w2)) with (date_labels w2); fold d2;
      rewrite Hd2, Hidx, Hrepeats; reflexivity.
Qed.

Lemma NoDup_is_unique (l : list label) : is_unique l = true -> NoDup l.
Proof.
  induction l as [| x l IH]; simpl; intros H; constructor.
  - apply andb_prop in H. destruct H as [H _].
    apply negb_true_iff, mem_not_In in H. exact H.
  - apply IH. apply andb_prop in H. apply H.
Qed.

Lemma comparison_merge_is_outer_join_witness :
  NoDup (date_labels kathmandu_week)
  /\ NoDup (date_labels pokhara_december)
  /\ exists t2,
       concat_columns (temp_df two_city_env kathmandu_week)
         (temp_df two_city_env pokhara_december) = Ok t2
       /\ map fst (columns t2)
          = ["Kathmandu_day"; "Kathmandu_night"; "Pokhara_day"; "Pokhara_night"]
       /\ nrows t2 = 14%nat.
Proof.
  assert (H1 : NoDup (date_labels kathmandu_week)) by (apply NoDup_is_unique; reflexivity).
  assert (H2 : NoDup (date_labels pokhara_december)) by (apply NoDup_is_unique; reflexivity).
  split; [exact H1 |]. split; [exact H2 |].
  destruct (comparison_merge_is_outer_join two_city_env kathmandu_week pokhara_december)
    as (_ & _ & Hjoin & _).
  destruct (Hjoin H1 H2) as (t2 & Hrun & Hcols & Hindex & _).
  exists t2. split; [exact Hrun |]. split; [rewrite Hcols; reflexivity |].
  unfold nrows. rewrite Hindex. reflexivity.
Defined.

(** C6, as stated, fails: Kathmandu's November week joined with a Pokhara
    that lists 1 December twice has no date in common, and the join is an
    error, not a table with gaps; the script ends with it. *)
Lemma repeated_date_breaks_the_join :
  (forall x, In x (date_labels pokhara_repeated_day) ->
             ~ In x (date_labels kathmandu_week))
  /\ fetched repeated_day_env "Kathmandu" = Ok (Some kathmandu_week)
  /\ fetched repeated_day_env "Pokhara" = Ok (Some pokhara_repeated_day)
  /\ concat_columns (temp_df repeated_day_env kathmandu_week)
       (temp_df repeated_day_env pokhara_repeated_day)
     = Raise InvalidIndexError
  /\ snd (main repeated_day_env init_state) = Raise InvalidIndexError.
Proof.
  split; [| split; [| split; [| split]]]; try (vm_compute; reflexivity).
  intros x Hx Hk. vm_compute in Hx, Hk.
  destruct Hx as [<- | [<- | []]];
    repeat (destruct Hk as [Hk | Hk]; [discriminate Hk |]); exact Hk.
Qed.

(** Two cities with the same seven dates, end to end: 7 rows and 4 columns to
    compare, 14 rows to export, one download button. *)
Example same_week_scenario :
  let final := fst (main same_week_env init_state) in
  snd (main same_week_env init_state) = Ok tt
  /\ nrows (comparison_df final) = 7%nat
  /\ ncols (comparison_df final) = 4%nat
  /\ nrows (download_df final) = 14%nat
  /\ List.length (filter offers_download (ui final)) = 1%nat.
Proof. vm_compute. repeat split. Qed.

(** Two cities with no date in common, end to end: 14 rows, 4 columns, and
    a gap for Kathmandu on every December date. *)
Example disjoint_weeks_scenario :
  let final := fst (main two_city_env init_state) in
  snd (main two_city_env init_state) = Ok tt
  /\ nrows (comparison_df final) = 14%nat
  /\ ncols (comparison_df final) = 4%nat
  /\ option_map (skipn 7) (assoc "Kathmandu_day" (columns (comparison_df final)))
     = Some (repeat CNaN 7).
Proof. vm_compute. repeat split. Qed.

(** The same two cities with December entered first: the columns keep the
    order of entry, the rows are sorted by date, November first, and the
    gaps of the December city stand in the first seven rows. *)
Example december_first_scenario :
  let final := fst (main december_first_env init_state) in
  snd (main december_first_env init_state) = Ok tt
  /\ map fst (columns (comparison_df final))
     = ["Pokhara_day"; "Pokhara_night"; "Kathmandu_day"; "Kathmandu_night"]
  /\ index (comparison_df final)
     = date_labels kathmandu_week ++ date_labels pokhara_december
  /\ option_map (firstn 7) (assoc "Pokhara_day" (columns (comparison_df final)))
     = Some (repeat CNaN 7).
Proof. vm_compute. repeat split. Qed.

(** ** No deduplication *)

Lemma successes_app (env : Environment) (a b : list string) :
  successes env (a ++ b) = successes env a ++ successes env b.
Proof. unfold successes. apply flat_map_app. Qed.

Lemma city_loop_comparison_names
      (env : Environment) (names : list string) (st st' : State) :
  city_loop env names st = (st', Ok tt) ->
  map fst (columns (comparison_df st'))
  = map fst (columns (comparison_df st))
    ++ flat_map (series_names env) (successes env names).
Proof.
  revert st. induction names as [| city rest IH]; intros st H; simpl in H.
  - injection H as <-. simpl. rewrite app_nil_r. reflexivity.
  - apply bind_ok in H. destruct H as ([] & st1 & Hblock & Hrest).
    apply IH in Hrest. rewrite Hrest. clear Hrest.
    apply city_block_effect in Hblock.
    destruct Hblock as (shown & urls & _ & _ & _ & Htables).
    rewrite successes_cons.
    destruct (fetched env city) as [[w |] | e]; [| | contradiction].
    + destruct Htables as (csv & Hjoin & _).
      apply concat_columns_names in Hjoin. destruct Hjoin as [_ Hjoin].
      rewrite Hjoin. simpl. rewrite <- app_assoc. reflexivity.
    + destruct Htables as (-> & _). reflexivity.
Qed.

(** ** Widgets the page already holds *)

Lemma date_inputs_app (a b : list ui_event) :
  date_inputs (a ++ b) = date_inputs a ++ date_inputs b.
Proof. apply flat_map_app. Qed.

Lemma date_inputs_plain (shown : list ui_event) :
  forallb plain_element shown = true -> date_inputs shown = [].
Proof.
  induction shown as [| e shown IH]; simpl; intros H; [reflexivity |].
  apply andb_prop in H. destruct H as [He Hs]. rewrite (IH Hs).
  destruct e; try reflexivity; discriminate He.
Qed.

Lemma refused_date_input (shown : list ui_event) (label : string) :
  refused shown (st_date_input label) = true <-> In label (date_inputs shown).
Proof.
  unfold refused. induction shown as [| e shown IH]; simpl; [split; [discriminate | tauto] |].
  rewrite orb_true_iff, IH, in_app_iff.
  destruct e; simpl; try (split; [intros [H | H]; [discriminate H | right; exact H]
                                 | intros [[] | H]; right; exact H]).
  rewrite String.eqb_eq. split.
  - intros [-> | H]; [left; left; reflexivity | right; exact H].
  - intros [[-> | []] | H]; [left; reflexivity | right; exact H].
Qed.

Lemma widget_ok (e : ui_event) (st st' : State) :
  widget e st = (st', Ok tt) ->
  refused (ui st) e = false
  /\ st' = mkState (comparison_df st) (download_df st) (ui st ++ [e]) (requested st).
Proof.
  unfold widget, render. destruct (refused (ui st) e); intros H; [discriminate H |].
  injection H as <-. split; reflexivity.
Qed.

Lemma widget_refused (e : ui_event) (st : State) :
  refused (ui st) e = true -> widget e st = (st, Raise DuplicateWidgetID).
Proof. unfold widget. intros ->. reflexivity. Qed.

(** A completed pass through the loop body has added the city's date input,
    which the page did not hold, and no other. *)
Lemma city_block_date_inputs (env : Environment) (city : string) (st st' : State) :
  city_block env city st = (st', Ok tt) ->
  match fetched env city with
  | Ok (Some w) =>
      ~ In (date_input_label env w) (date_inputs (ui st))
      /\ date_inputs (ui st') = date_inputs (ui st) ++ [date_input_label env w]
  | _ => date_inputs (ui st') = date_inputs (ui st)
  end.
Proof.
  unfold city_block. intros H.
  apply bind_ok in H. destruct H as (weather & st1 & Hget & H).
  rewrite get_weather_run in Hget. injection Hget as <- Hfetched.
  rewrite Hfetched. destruct weather as [w |].
  - change ("Select a date for " ++ py_str env (CityWeather.city w))%string
      with (date_input_label env w) in H.
    apply bind_ok in H. destruct H as ([] & st2 & Hcur & H).
    apply bind_ok in H. destruct H as ([] & st3 & Hinput & H).
    apply bind_ok in H. destruct H as ([] & st4 & Hdetails & H).
    apply bind_ok in H. destruct H as ([] & st5 & Hagg & Hclose).
    apply (shows_run _ _ _ _ _ (plain_current_conditions _ _ _)) in Hcur.
    destruct Hcur as (shown2 & U2 & P2). cbn [ui] in U2.
    apply widget_ok in Hinput. destruct Hinput as [Hfree ->].
    apply (shows_run _ _ _ _ _ (plain_selected_day _ _ _ _)) in Hdetails.
    destruct Hdetails as (shown4 & U4 & P4). cbn [ui] in U4.
    apply aggregate_run in Hagg. destruct Hagg as (_ & _ & _ & _ & U5 & _).
    unfold render in Hclose. injection Hclose as <-. cbn [ui].
    assert (Hbefore : date_inputs (ui st2) = date_inputs (ui st)).
    { rewrite U2, date_inputs_app, (date_inputs_plain _ P2), app_nil_r. reflexivity. }
    split.
    + rewrite <- Hbefore. intros Hin. apply refused_date_input in Hin.
      rewrite Hin in Hfree. discriminate Hfree.
    + rewrite U5, U4, !date_inputs_app, (date_inputs_plain _ P4), Hbefore.
      cbn [date_inputs flat_map app]. rewrite !app_nil_r. reflexivity.
  - unfold render in H. injection H as <-. cbn [ui].
    rewrite date_inputs_app. cbn [date_inputs flat_map app]. rewrite app_nil_r. reflexivity.
Qed.

(** A city whose date input the page already holds cannot be processed
    again: its body raises and leaves both tables as they were. *)
Lemma city_block_refused (env : Environment) (city : string) (w : CityWeather.t) (st : State) :
  fetched env city = Ok (Some w) ->
  In (date_input_label env w) (date_inputs (ui st)) ->
  exists e final,
    city_block env city st = (final, Raise e)
    /\ comparison_df final = comparison_df st
    /\ download_df final = download_df st.
Proof.
  intros Hfetched Hin. unfold city_block. unfold bind at 1.
  rewrite get_weather_run, Hfetched. unfold bind at 1.
  match goal with
  | |- context [current_conditions env w ?wd ?s] =>
      destruct (current_conditions env w wd s) as [st2 [[] | e]] eqn:Hcur
  end;
    apply (rendering_run _ _ _ _ (rendering_current_conditions _ _ _)) in Hcur;
    destruct Hcur as (shown & urls & -> & _); simpl.
  - unfold bind at 1. rewrite widget_refused.
    + eexists _, _. split; [reflexivity |]. split; reflexivity.
    + simpl. apply refused_date_input. rewrite date_inputs_app.
      apply in_or_app. left. exact Hin.
  - eexists _, _. split; [reflexivity |]. split; reflexivity.
Qed.

(** After a completed pass the page holds one date input per fetched city,
    all with different labels. *)
Lemma city_loop_date_inputs (env : Environment) (names : list string) (st st' : State) :
  city_loop env names st = (st', Ok tt) ->
  date_inputs (ui st')
  = date_inputs (ui st) ++ map (date_input_label env) (successes env names)
  /\ NoDup (map (date_input_label env) (successes env names))
  /\ (forall label, In label (map (date_input_label env) (successes env names)) ->
                    ~ In label (date_inputs (ui st))).
Proof.
  revert st. induction names as [| city rest IH]; intros st H; simpl in H.
  - injection H as <-. simpl. rewrite app_nil_r.
    split; [reflexivity |]. split; [constructor | intros ? []].
  - apply bind_ok in H. destruct H as ([] & st1 & Hblock & Hrest).
    apply city_block_date_inputs in Hblock.
    destruct (IH _ Hrest) as (Hall & Hnodup & Hfresh). clear IH.
    rewrite successes_cons.
    destruct (fetched env city) as [[w |] | e].
    + destruct Hblock as [Hnew Hone]. rewrite Hone in Hall, Hfresh.
      cbn [app map]. split; [rewrite Hall, <- app_assoc; reflexivity |]. split.
      * constructor; [| exact Hnodup].
        intros Hin. apply (Hfresh _ Hin). apply in_or_app. right. left. reflexivity.
      * intros label [<- | Hin]; [exact Hnew |].
        intros Hold. apply (Hfresh _ Hin). apply in_or_app. left. exact Hold.
    + rewrite Hblock in Hall, Hfresh. simpl. repeat split; assumption.
    + rewrite Hblock in Hall, Hfresh. simpl. repeat split; assumption.
Qed.

(** *** Column names *)

Lemma string_length_append (s t : string) :
  String.length (s ++ t) = (String.length s + String.length t)%nat.
Proof. induction s as [| c s IH]; simpl; [reflexivity | rewrite IH; reflexivity]. Qed.

Lemma append_inj_r (s1 s2 t : string) : (s1 ++ t = s2 ++ t)%string -> s1 = s2.
Proof.
  revert s2. induction s1 as [| c s1 IH]; intros [| c2 s2] H; simpl in H.
  - reflexivity.
  - apply (f_equal String.length) in H. simpl in H. rewrite string_length_append in H. lia.
  - apply (f_equal String.length) in H. simpl in H. rewrite string_length_append in H. lia.
  - injection H as -> H. f_equal. apply IH. exact H.
Qed.

Lemma last_char_append (s t : string) :
  t <> EmptyString -> last_char (s ++ t) = last_char t.
Proof.
  intros Ht. induction s as [| c s IH]; simpl; [reflexivity |].
  destruct (s ++ t)%string eqn:Hst; [| exact IH].
  destruct s; simpl in Hst; [contradiction | discriminate Hst].
Qed.

Lemma day_is_not_night (s1 s2 : string) : (s1 ++ "_day")%string <> (s2 ++ "_night")%string.
Proof.
  intros H. apply (f_equal last_char) in H.
  rewrite !last_char_append in H by discriminate. discriminate H.
Qed.

Lemma series_names_NoDup (env : Environment) (ws : list CityWeather.t) :
  NoDup (map (fun w => py_str env (CityWeather.city w)) ws) ->
  NoDup (flat_map (series_names env) ws).
Proof.
  induction ws as [| w ws IH]; simpl; intros H; [constructor |].
  inversion H as [| ? ? Hw Hws]; subst.
  assert (Hother : forall suffix,
             In (py_str env (CityWeather.city w) ++ suffix)%string
                (flat_map (series_names env) ws) ->
             suffix = "_day" \/ suffix = "_night" -> False).
  { intros suffix Hin Hsuffix. apply in_flat_map in Hin. destruct Hin as (w' & Hw' & Hin).
    apply Hw. apply in_map_iff. exists w'. split; [| exact Hw'].
    simpl in Hin. destruct Hsuffix as [-> | ->]; destruct Hin as [Hin | [Hin | []]].
    - apply append_inj_r in Hin. exact Hin.
    - symmetry in Hin. apply day_is_not_night in Hin. contradiction.
    - apply day_is_not_night in Hin. contradiction.
    - apply append_inj_r in Hin. exact Hin. }
  constructor; [| constructor; [| apply IH; exact Hws]].
  - intros [Hin | Hin].
    + symmetry in Hin. apply day_is_not_night in Hin. exact Hin.
    + apply (Hother "_day" Hin). left. reflexivity.
  - intros Hin. apply (Hother "_night" Hin). right. reflexivity.
Qed.

Lemma labels_NoDup_names (env : Environment) (ws : list CityWeather.t) :
  NoDup (map (date_input_label env) ws) ->
  NoDup (flat_map (series_names env) ws).
Proof.
  intros H. apply series_names_NoDup.
  apply (NoDup_map_inv (fun c => ("Select a date for " ++ c)%string)).
  rewrite map_map. exact H.
Qed.

(** C8 (what the code does with a repeated city): nothing in the loop
    removes a repeated entry, but a pass over a list that names a fetched
    city twice never runs to its end.  The first completed body leaves the
    city's date input on the page; the body of the second occurrence is
    refused that widget (same label, no key) or raises before asking for it,
    and either way leaves both tables as they were.  For the list of just
    that city twice, started from empty tables, the pass ends with an
    exception and the tables hold the city once: its two columns, its
    forecast rows. *)
Theorem repeated_city_is_refused
        (env : Environment) (city : string) (w : CityWeather.t) :
  fetched env city = Ok (Some w) ->
  (forall pre mid post st,
      snd (city_loop env (pre ++ city :: mid ++ city :: post) st) <> Ok tt)
  /\ (forall st st1 st2,
         city_block env city st = (st1, Ok tt) ->
         (exists more, ui st2 = ui st1 ++ more) ->
         exists e final,
           city_block env city st2 = (final, Raise e)
           /\ comparison_df final = comparison_df st2
           /\ download_df final = download_df st2)
  /\ (forall st st1,
         comparison_df st = empty_frame ->
         download_df st = empty_frame ->
         city_block env city st = (st1, Ok tt) ->
         exists e final tag,
           city_loop env [city; city] st = (final, Raise e)
           /\ comparison_df final = temp_df env w
           /\ tagged env w tag
           /\ download_df final = export_frame (CityWeather.forecast w) tag).
Proof.
  intros Hfetched.
  assert (Hagain : forall st st1 st2,
             city_block env city st = (st1, Ok tt) ->
             (exists more, ui st2 = ui st1 ++ more) ->
             exists e final,
               city_block env city st2 = (final, Raise e)
               /\ comparison_df final = comparison_df st2
               /\ download_df final = download_df st2).
  { intros st st1 st2 Hfirst [more Hmore].
    apply city_block_date_inputs in Hfirst. rewrite Hfetched in Hfirst.
    destruct Hfirst as [_ Hone].
    apply (city_block_refused _ _ _ _ Hfetched).
    rewrite Hmore, date_inputs_app, Hone.
    apply in_or_app. left. apply in_or_app. right. left. reflexivity. }
  split; [| split; [exact Hagain |]].
  - intros pre mid post st Hend.
    destruct (city_loop env (pre ++ city :: mid ++ city :: post) st) as [st' r] eqn:Hrun.
    simpl in Hend. subst r.
    destruct (city_loop_date_inputs _ _ _ _ Hrun) as (_ & Hnodup & _).
    rewrite successes_app, successes_cons, Hfetched in Hnodup.
    cbn [app] in Hnodup. rewrite successes_app, successes_cons, Hfetched in Hnodup.
    cbn [app] in Hnodup. rewrite map_app in Hnodup. cbn [map] in Hnodup.
    apply NoDup_remove_2 in Hnodup. apply Hnodup.
    apply in_or_app. right. rewrite map_app. apply in_or_app. right. left. reflexivity.
  - intros st st1 Hcmp Hdl Hfirst.
    destruct (Hagain st st1 st1 Hfirst) as (e & final & Hsecond & Hcmp2 & Hdl2).
    { exists []. rewrite app_nil_r. reflexivity. }
    pose proof Hfirst as Heffect. apply city_block_effect in Heffect.
    destruct Heffect as (shown & urls & _ & _ & _ & Htables).
    rewrite Hfetched in Htables. destruct Htables as (csv & Hjoin & Hcsv & Hrows).
    rewrite Hcmp, concat_columns_empty_left in Hjoin. injection Hjoin as Hjoin.
    apply city_csv_df_ok in Hcsv. destruct Hcsv as (tag & Htag & ->).
    rewrite Hdl, concat_rows_empty_left in Hrows.
    exists e, final, tag. split; [| split; [| split]].
    + simpl. unfold bind at 1. rewrite Hfirst. unfold bind at 1. rewrite Hsecond.
      reflexivity.
    + rewrite Hcmp2. symmetry. exact Hjoin.
    + exact Htag.
    + rewrite Hdl2. exact Hrows.
Qed.

Lemma repeated_city_is_refused_witness :
  fetched twice_env "Kathmandu" = Ok (Some kathmandu_week)
  /\ cities twice_env = ["Kathmandu"; "Kathmandu"]
  /\ snd (city_block twice_env "Kathmandu" init_state) = Ok tt
  /\ snd (city_loop twice_env (cities twice_env) (before_loop twice_env)) <> Ok tt
  /\ exists e final,
       city_loop twice_env ["Kathmandu"; "Kathmandu"] init_state = (final, Raise e)
       /\ map fst (columns (comparison_df final)) = ["Kathmandu_day"; "Kathmandu_night"]
       /\ nrows (download_df final) = 7%nat.
Proof.
  split; [reflexivity |]. split; [reflexivity |]. split; [vm_compute; reflexivity |].
  destruct (repeated_city_is_refused twice_env "Kathmandu" kathmandu_week eq_refl)
    as (Hnever & _ & Honce).
  split; [exact (Hnever [] [] [] (before_loop twice_env)) |].
  assert (Hfirst : city_block twice_env "Kathmandu" init_state
                   = (fst (city_block twice_env "Kathmandu" init_state), Ok tt))
    by (vm_compute; reflexivity).
  destruct (Honce init_state _ eq_refl eq_refl Hfirst)
    as (e & final & tag & Hrun & Hcmp & _ & Hdl).
  exists e, final. split; [exact Hrun |].
  rewrite Hcmp, Hdl, nrows_export_frame. split; reflexivity.
Defined.

(** C8, at the input ["Kathmandu,Kathmandu"], end to end: the script ends
    with the refusal of the second date input, Kathmandu is in the tables
    once, and neither chart nor download button is shown. *)
Lemma same_city_twice_raises :
  let final := fst (main twice_env init_state) in
  cities twice_env = ["Kathmandu"; "Kathmandu"]
  /\ fetched twice_env "Kathmandu" = Ok (Some kathmandu_week)
  /\ snd (main twice_env init_state) = Raise DuplicateWidgetID
  /\ map fst (columns (comparison_df final)) = ["Kathmandu_day"; "Kathmandu_night"]
  /\ nrows (download_df final) = 7%nat
  /\ date_inputs (ui final) = ["Select a date for Kathmandu"]
  /\ existsb closing_element (ui final) = false.
Proof. vm_compute. repeat split. Qed.


(** * Further properties of the script *)

(** ** Parsing the city list (line 129) *)

Lemma split_comma_nonempty (s : string) : split_comma s <> [].
Proof.
  intros H. apply (f_equal (@List.length string)) in H.
  rewrite split_comma_length in H. discriminate H.
Qed.

Lemma join_split_comma (s : string) : String.concat "," (split_comma s) = s.
Proof.
  induction s as [| c s IH]; [reflexivity |].
  simpl. destruct (Ascii.eqb c ",") eqn:Hc.
  - apply Ascii.eqb_eq in Hc. subst c.
    pose proof (split_comma_nonempty s) as Hne.
    destruct (split_comma s) as [| w ws]; [contradiction |].
    change (String.concat "," (EmptyString :: w :: ws))
      with (EmptyString ++ "," ++ String.concat "," (w :: ws))%string.
    rewrite IH. reflexivity.
  - pose proof (split_comma_nonempty s) as Hne.
    destruct (split_comma s) as [| w ws]; [contradiction |].
    destruct ws as [| w' ws].
    + simpl in *. rewrite IH. reflexivity.
    + change (String.concat "," (String c w :: w' :: ws))
        with (String c (w ++ "," ++ String.concat "," (w' :: ws)))%string.
      change (String.concat "," (w :: w' :: ws))
        with (w ++ "," ++ String.concat "," (w' :: ws))%string in IH.
      rewrite IH. reflexivity.
Qed.

Lemma split_comma_segments (s : string) :
  Forall (fun segment => commas segment = O) (split_comma s).
Proof.
  induction s as [| c s IH]; simpl; [repeat constructor |].
  destruct (Ascii.eqb c ",") eqn:Hc.
  - constructor; [reflexivity | exact IH].
  - destruct (split_comma s) as [| w ws]; [repeat constructor; simpl; rewrite Hc; reflexivity |].
    inversion IH as [| ? ? Hw Hws]; subst.
    constructor; [simpl; rewrite Hc, Hw; reflexivity | exact Hws].
Qed.

Lemma commas_lstrip (s : string) : (commas (lstrip s) <= commas s)%nat.
Proof.
  induction s as [| c s IH]; simpl; [lia |].
  destruct (isspace c); simpl; lia.
Qed.

Lemma commas_rstrip (s : string) : (commas (rstrip s) <= commas s)%nat.
Proof.
  induction s as [| c s IH]; simpl; [lia |].
  destruct (rstrip s) as [| c' r]; simpl in *.
  - destruct (isspace c); simpl; lia.
  - lia.
Qed.

Lemma rstrip_idempotent (s : string) : rstrip (rstrip s) = rstrip s.
Proof.
  induction s as [| c s IH]; [reflexivity |].
  simpl. destruct (rstrip s) as [| c' r] eqn:Hr.
  - destruct (isspace c) eqn:Hc; [reflexivity |]. simpl. rewrite Hc. reflexivity.
  - cbn [rstrip]. cbn [rstrip] in IH. rewrite IH. reflexivity.
Qed.

Lemma lstrip_head (s : string) :
  match lstrip s with
  | EmptyString => True
  | String c _ => isspace c = false
  end.
Proof.
  induction s as [| c s IH]; simpl; [exact I |].
  destruct (isspace c) eqn:Hc; [exact IH | exact Hc].
Qed.

Lemma rstrip_keeps_head (c : ascii) (s : string) :
  isspace c = false -> exists r, rstrip (String c s) = String c r.
Proof.
  intros Hc. simpl. destruct (rstrip s) as [| c' r].
  - rewrite Hc. exists EmptyString. reflexivity.
  - exists (String c' r). reflexivity.
Qed.

Lemma lstrip_strip (s : string) : lstrip (strip s) = strip s.
Proof.
  unfold strip. pose proof (lstrip_head s) as Hhead.
  destruct (lstrip s) as [| c t]; [reflexivity |].
  destruct (rstrip_keeps_head c t Hhead) as [r Hr]. rewrite Hr.
  simpl. rewrite Hhead. reflexivity.
Qed.

(** X1: joining the comma-split segments with commas gives the input back;
    no parsed entry contains a comma, and every parsed entry is already
    trimmed on both sides (trimming it again changes nothing). *)
Theorem cities_are_trimmed_segments (env : Environment) :
  String.concat "," (split_comma (cities_input env)) = cities_input env
  /\ Forall (fun city => commas city = O
                         /\ lstrip city = city
                         /\ rstrip city = city
                         /\ strip city = city)
       (cities env).
Proof.
  split; [apply join_split_comma |].
  unfold cities. apply Forall_forall. intros city Hin.
  apply in_map_iff in Hin. destruct Hin as (segment & <- & Hin).
  pose proof (split_comma_segments (cities_input env)) as Hseg.
  rewrite Forall_forall in Hseg. specialize (Hseg _ Hin).
  assert (Hr : rstrip (strip segment) = strip segment).
  { unfold strip. apply rstrip_idempotent. }
  repeat split.
  - pose proof (commas_rstrip (lstrip segment)). pose proof (commas_lstrip segment).
    unfold strip. lia.
  - apply lstrip_strip.
  - exact Hr.
  - unfold strip at 1. rewrite lstrip_strip. exact Hr.
Qed.

(** ** The forecast of the selected date (line 178) *)

(** X2: the per-day lookup returns the first forecast entry, in forecast
    order, whose date is the selected date: the entry found carries that
    date and no entry before it does; the lookup is None exactly when no
    entry carries the date. *)
Theorem forecast_for_date_is_first_match
        (forecast : list ForecastDay.t) (selected_date : date) :
  (forecast_for_date forecast selected_date = None <->
   forall d, In d forecast -> date_of (ForecastDay.date d) <> selected_date)
  /\ (forall d,
         forecast_for_date forecast selected_date = Some d ->
         exists before after,
           forecast = before ++ d :: after
           /\ date_of (ForecastDay.date d) = selected_date
           /\ forall x, In x before -> date_of (ForecastDay.date x) <> selected_date).
Proof.
  unfold forecast_for_date. induction forecast as [| x rest [IHnone IHsome]]; simpl.
  - split; [split; [intros _ d [] | reflexivity] | discriminate].
  - destruct (date_eqb (date_of (ForecastDay.date x)) selected_date) eqn:Hx.
    + apply date_eqb_eq in Hx. split.
      * split; [discriminate |]. intros H. exfalso. apply (H x); [left; reflexivity | exact Hx].
      * intros d Hd. injection Hd as <-. exists [], rest.
        split; [reflexivity |]. split; [exact Hx | intros y []].
    + assert (Hne : date_of (ForecastDay.date x) <> selected_date).
      { intros Heq. apply date_eqb_eq in Heq. congruence. }
      split.
      * rewrite IHnone. split.
        -- intros H d [<- | Hin]; [exact Hne | apply H; exact Hin].
        -- intros H d Hin. apply H. right. exact Hin.
      * intros d Hd. destruct (IHsome d Hd) as (before & after & -> & Hdate & Hbefore).
        exists (x :: before), after. split; [reflexivity |]. split; [exact Hdate |].
        intros y [<- | Hy]; [exact Hne | apply Hbefore; exact Hy].
Qed.

(** ** The alert block on arbitrary values (lines 197-204) *)

Lemma cmp_int_cases (v : json) (k : Z) :
  (orderable v = true /\ exists c, cmp_int v k = Ok c)
  \/ (orderable v = false /\ cmp_int v k = Raise TypeError).
Proof.
  destruct v as [| b | z | [q | neg |] | s | l | o]; simpl;
    try (right; split; reflexivity); left; (split; [reflexivity | eexists; reflexivity]).
Qed.

Lemma extreme_alerts_outcome (d : ForecastDay.t) (st : State) :
  snd (extreme_alerts d st)
  = (if orderable (ForecastDay.temp_day d)
        && orderable (ForecastDay.uv d)
        && orderable (ForecastDay.chance_of_rain d)
     then Ok tt else Raise TypeError).
Proof.
  unfold extreme_alerts, py_gt, py_lt, py_ge, bind, lift, when, render, ret.
  destruct (cmp_int_cases (ForecastDay.temp_day d) 35) as [[Ht [c35 H35]] | [Ht H35]];
    rewrite Ht, H35; simpl; [| reflexivity].
  destruct (cmp_int_cases (ForecastDay.temp_day d) 10) as [[_ [c10 H10]] | [Ht' _]];
    [| congruence].
  rewrite H10.
  destruct (cmp_int_cases (ForecastDay.uv d) 7) as [[Hu [c7 H7]] | [Hu H7]];
    destruct (cmp_int_cases (ForecastDay.chance_of_rain d) 50) as [[Hr [c50 H50]] | [Hr H50]];
    rewrite Hu, Hr, H7, H50;
    destruct c35 as [[| |] |]; destruct c10 as [[| |] |]; simpl;
    try destruct c7 as [[| |] |]; try destruct c50 as [[| |] |]; reflexivity.
Qed.

(** X3: the alert block finishes exactly when the day temperature, the UV
    index and the rain probability of the selected day are each a bool, an
    int or a float; with any other value (null, text, list, object) in one of
    them it raises TypeError, and when it is the day temperature nothing has
    been rendered by then. *)
Theorem alerts_need_orderable_values (d : ForecastDay.t) (st : State) :
  snd (extreme_alerts d st)
  = (if orderable (ForecastDay.temp_day d)
        && orderable (ForecastDay.uv d)
        && orderable (ForecastDay.chance_of_rain d)
     then Ok tt else Raise TypeError)
  /\ (orderable (ForecastDay.temp_day d) = false ->
      extreme_alerts d st = (st, Raise TypeError)).
Proof.
  split; [apply extreme_alerts_outcome |].
  intros Ht. unfold extreme_alerts, py_gt, bind, lift.
  destruct (cmp_int_cases (ForecastDay.temp_day d) 35) as [[Ht' _] | [_ H35]];
    [congruence |].
  rewrite H35. reflexivity.
Qed.

(** X4: whatever the values of the selected day and however the block ends,
    it leaves both tables and the request log alone and renders at most
    three elements, each one of the four alert lines, and never the hot and
    the cold line together. *)
Theorem alerts_are_bounded (d : ForecastDay.t) (st : State) :
  exists shown,
    fst (extreme_alerts d st)
    = mkState (comparison_df st) (download_df st) (ui st ++ shown) (requested st)
    /\ (List.length shown <= 3)%nat
    /\ Forall (fun e => exists k, e = st_markdown (alert_message k) false) shown
    /\ ~ (In (st_markdown HOT_DAY_ALERT false) shown
          /\ In (st_markdown COLD_DAY_ALERT false) shown).
Proof.
  destruct st as [cmp dl shown0 reqs].
  unfold extreme_alerts, bind, lift, when, render, ret.
  destruct (py_gt (ForecastDay.temp_day d) 35) as [[|] | e1];
    [| destruct (py_lt (ForecastDay.temp_day d) 10) as [[|] | e2] |];
    simpl;
    try (destruct (py_ge (ForecastDay.uv d) 7) as [[|] | e3]; simpl;
         try (destruct (py_ge (ForecastDay.chance_of_rain d) 50) as [[|] | e4]; simpl));
    rewrite <- ?app_assoc; simpl;
    (first [ eexists; split; [reflexivity |]
           | exists []; split; [rewrite app_nil_r; reflexivity |] ]);
    (split; [simpl; lia |]);
    (split;
     [ repeat constructor;
       first [ exists HotDay; reflexivity | exists ColdDay; reflexivity
             | exists HighUV; reflexivity | exists HighRainChance; reflexivity ]
     | unfold HOT_DAY_ALERT, COLD_DAY_ALERT, HIGH_UV_ALERT, HIGH_RAIN_ALERT; simpl;
       intuition discriminate ]).
Qed.

(** ** What the normalised record is made of (lines 85-119) *)

Lemma forecast_entry_fields (day : json) (entry : ForecastDay.t) :
  forecast_entry day = Ok entry ->
  py_path day ["day"; "maxtemp_c"] = Ok (ForecastDay.temp_day entry)
  /\ py_path day ["day"; "mintemp_c"] = Ok (ForecastDay.temp_night entry)
  /\ py_path day ["day"; "condition"; "text"] = Ok (ForecastDay.weather entry)
  /\ py_path day ["day"; "maxwind_kph"] = Ok (ForecastDay.wind_kph entry)
  /\ py_path day ["day"; "avghumidity"] = Ok (ForecastDay.humidity entry)
  /\ py_path day ["day"; "daily_chance_of_rain"] = Ok (ForecastDay.chance_of_rain entry)
  /\ py_path day ["day"; "uv"] = Ok (ForecastDay.uv entry)
  /\ py_path day ["astro"; "sunrise"] = Ok (ForecastDay.sunrise entry)
  /\ py_path day ["astro"; "sunset"] = Ok (ForecastDay.sunset entry).
Proof.
  unfold forecast_entry. intros H.
  do 13 invert_rbind H. injection H as <-. simpl. repeat split; assumption.
Qed.

(** X5: every field of a normalised record is the provider's value, taken
    unchanged from one fixed place of the body: the city, region and country
    from [location], the current readings from [current], and for each
    forecast entry the day temperature from [maxtemp_c], the night
    temperature from [mintemp_c], wind from [maxwind_kph], humidity from
    [avghumidity], rain from [daily_chance_of_rain], UV from [uv], the
    condition text from [condition.text] and sunrise and sunset from
    [astro]. *)
Theorem normalize_field_provenance (response : json) (w : CityWeather.t) :
  normalize response = Ok (Some w) ->
  exists location current days,
    py_getitem response "location" = Ok location
    /\ py_getitem response "current" = Ok current
    /\ forecast_days response = Ok days
    /\ py_getitem location "name" = Ok (CityWeather.city w)
    /\ py_getitem location "region" = Ok (CityWeather.region w)
    /\ py_getitem location "country" = Ok (CityWeather.country w)
    /\ py_getitem current "temp_c" = Ok (CityWeather.temp w)
    /\ py_getitem current "humidity" = Ok (CityWeather.humidity w)
    /\ py_path current ["condition"; "text"] = Ok (CityWeather.weather w)
    /\ py_getitem current "wind_kph" = Ok (CityWeather.wind_kph w)
    /\ py_getitem current "wind_dir" = Ok (CityWeather.wind_dir w)
    /\ Forall2
         (fun day entry =>
            py_path day ["day"; "maxtemp_c"] = Ok (ForecastDay.temp_day entry)
            /\ py_path day ["day"; "mintemp_c"] = Ok (ForecastDay.temp_night entry)
            /\ py_path day ["day"; "condition"; "text"] = Ok (ForecastDay.weather entry)
            /\ py_path day ["day"; "maxwind_kph"] = Ok (ForecastDay.wind_kph entry)
            /\ py_path day ["day"; "avghumidity"] = Ok (ForecastDay.humidity entry)
            /\ py_path day ["day"; "daily_chance_of_rain"]
               = Ok (ForecastDay.chance_of_rain entry)
            /\ py_path day ["day"; "uv"] = Ok (ForecastDay.uv entry)
            /\ py_path day ["astro"; "sunrise"] = Ok (ForecastDay.sunrise entry)
            /\ py_path day ["astro"; "sunset"] = Ok (ForecastDay.sunset entry))
         days (CityWeather.forecast w).
Proof.
  unfold normalize. intros H.
  invert_rbind H. destruct (truthy x); [discriminate H |].
  do 17 invert_rbind H. injection H as <-. simpl.
  match goal with
  | Hl : py_getitem response "location" = Ok ?l,
    Hc : py_getitem response "current" = Ok ?c,
    Hp : py_path response ["forecast"; "forecastday"] = Ok ?listed,
    Hi : py_iter ?listed = Ok ?days |- _ =>
      exists l, c, days; unfold forecast_days; rewrite Hp; simpl; rewrite Hi
  end.
  repeat split; try assumption.
  match goal with
  | Hloop : forecast_loop _ = Ok _ |- _ => apply forecast_loop_entries in Hloop; revert Hloop
  end.
  apply Forall2_impl. intros day entry. apply forecast_entry_fields.
Qed.

Lemma normalize_field_provenance_witness :
  normalize (sample_response "Kathmandu" relative_icon three_days)
  = Ok (Some kathmandu_three_days)
  /\ exists location,
       py_getitem (sample_response "Kathmandu" relative_icon three_days) "location"
       = Ok location
       /\ py_getitem location "name" = Ok (CityWeather.city kathmandu_three_days)
       /\ py_getitem location "country" = Ok (CityWeather.country kathmandu_three_days).
Proof.
  split; [reflexivity |].
  destruct (normalize_field_provenance
              (sample_response "Kathmandu" relative_icon three_days)
              kathmandu_three_days eq_refl)
    as (location & current & days & Hloc & _ & _ & Hname & _ & Hcountry & _).
  exists location. repeat split; assumption.
Defined.

Lemma forecast_loop_stops_at_first_failure
      (good : list json) (bad : json) (rest : list json) (e : exn) :
  Forall (fun day => exists entry, forecast_entry day = Ok entry) good ->
  forecast_entry bad = Raise e ->
  forecast_loop (good ++ bad :: rest) = Raise e.
Proof.
  intros Hgood Hbad. induction Hgood as [| day good [entry Hentry] _ IH]; simpl.
  - rewrite Hbad. reflexivity.
  - rewrite Hentry. simpl. rewrite IH. reflexivity.
Qed.

(** X6: one listed day that cannot be converted (a missing key, a date that
    is no date, an icon that is no text) fails the whole city: whatever the
    days before and after it hold, the body is answered with the exception
    of the first such day and no record is built. *)
Theorem one_bad_day_fails_the_city
        (response : json) (good : list json) (bad : json) (rest : list json) (e : exn) :
  (exists err, py_get response "error" = Ok err /\ truthy err = false) ->
  (exists current, py_getitem response "current" = Ok current) ->
  (exists location, py_getitem response "location" = Ok location) ->
  forecast_days response = Ok (good ++ bad :: rest) ->
  Forall (fun day => exists entry, forecast_entry day = Ok entry) good ->
  forecast_entry bad = Raise e ->
  normalize response = Raise e.
Proof.
  intros (err & Herr & Hfalse) (current & Hcur) (location & Hloc) Hdays Hgood Hbad.
  unfold forecast_days in Hdays. invert_rbind Hdays.
  unfold normalize. rewrite Herr. cbn [rbind]. rewrite Hfalse, Hcur. cbn [rbind].
  rewrite Hloc. cbn [rbind]. rewrite E. cbn [rbind]. rewrite Hdays. cbn [rbind].
  rewrite (forecast_loop_stops_at_first_failure _ _ _ _ Hgood Hbad). reflexivity.
Qed.

Lemma one_bad_day_fails_the_city_witness :
  forecast_entry (mild_day "2026-02-30") = Raise ValueError
  /\ normalize (sample_response "Kathmandu" relative_icon week_with_bad_date)
     = Raise ValueError.
Proof.
  split; [reflexivity |].
  apply (one_bad_day_fails_the_city
           (sample_response "Kathmandu" relative_icon week_with_bad_date)
           [mild_day "2026-11-04"] (mild_day "2026-02-30") [mild_day "2026-11-06"]).
  - exists JNull. split; reflexivity.
  - eexists. reflexivity.
  - eexists. reflexivity.
  - reflexivity.
  - repeat constructor. eexists. vm_compute. reflexivity.
  - reflexivity.
Defined.

(** X7: a body that lists no forecast day at all, everything else being in
    place, is answered with IndexError (from [forecast[0]]), not with a
    record whose forecast is empty. *)
Theorem empty_forecast_raises_IndexError (response location current : json) :
  (exists err, py_get response "error" = Ok err /\ truthy err = false) ->
  py_getitem response "current" = Ok current ->
  py_getitem response "location" = Ok location ->
  forecast_days response = Ok [] ->
  (forall k, In k ["name"; "region"; "country"] -> exists v, py_getitem location k = Ok v) ->
  (forall k, In k ["temp_c"; "humidity"; "wind_kph"; "wind_dir"] ->
             exists v, py_getitem current k = Ok v) ->
  (exists v, py_path current ["condition"; "text"] = Ok v) ->
  normalize response = Raise IndexError.
Proof.
  intros (err & Herr & Hfalse) Hcur Hloc Hdays Hlocation Hcurrent (text & Htext).
  unfold forecast_days in Hdays. invert_rbind Hdays.
  destruct (Hlocation "name") as [v1 H1]; [simpl; tauto |].
  destruct (Hlocation "region") as [v2 H2]; [simpl; tauto |].
  destruct (Hlocation "country") as [v3 H3]; [simpl; tauto |].
  destruct (Hcurrent "temp_c") as [v4 H4]; [simpl; tauto |].
  destruct (Hcurrent "humidity") as [v5 H5]; [simpl; tauto |].
  destruct (Hcurrent "wind_kph") as [v6 H6]; [simpl; tauto |].
  destruct (Hcurrent "wind_dir") as [v7 H7]; [simpl; tauto |].
  unfold normalize. rewrite Herr. cbn [rbind]. rewrite Hfalse, Hcur. cbn [rbind].
  rewrite Hloc. cbn [rbind]. rewrite E. cbn [rbind]. rewrite Hdays.
  cbn [rbind forecast_loop].
  rewrite H1. cbn [rbind]. rewrite H2. cbn [rbind]. rewrite H3. cbn [rbind].
  rewrite H4. cbn [rbind]. rewrite H5. cbn [rbind]. rewrite Htext. cbn [rbind].
  rewrite H6. cbn [rbind]. rewrite H7. reflexivity.
Qed.

Lemma empty_forecast_raises_IndexError_witness :
  forecast_days (sample_response "Kathmandu" relative_icon []) = Ok []
  /\ normalize (sample_response "Kathmandu" relative_icon []) = Raise IndexError.
Proof.
  split; [reflexivity |].
  eapply (empty_forecast_raises_IndexError (sample_response "Kathmandu" relative_icon [])).
  - exists JNull. split; reflexivity.
  - reflexivity.
  - reflexivity.
  - reflexivity.
  - intros k Hk. simpl in Hk.
    destruct Hk as [<- | [<- | [<- | []]]]; eexists; reflexivity.
  - intros k Hk. simpl in Hk.
    destruct Hk as [<- | [<- | [<- | [<- | []]]]]; eexists; reflexivity.
  - eexists. reflexivity.
Defined.

(** X8: of the top-level members of a body only the first [error],
    [current], [location] and [forecast] count: two objects that agree on
    these four are normalised alike, whatever else they hold and in whatever
    order. *)
Theorem normalize_reads_four_members (o o' : list (string * json)) :
  (forall k, In k ["error"; "current"; "location"; "forecast"] -> assoc k o = assoc k o') ->
  normalize (JObj o) = normalize (JObj o').
Proof.
  intros H.
  assert (He : assoc "error" o = assoc "error" o') by (apply H; simpl; tauto).
  assert (Hc : assoc "current" o = assoc "current" o') by (apply H; simpl; tauto).
  assert (Hl : assoc "location" o = assoc "location" o') by (apply H; simpl; tauto).
  assert (Hf : assoc "forecast" o = assoc "forecast" o') by (apply H; simpl; tauto).
  unfold normalize, py_get, py_getitem, py_path, py_getitem.
  rewrite He, Hc, Hl, Hf. reflexivity.
Qed.

Lemma normalize_reads_four_members_witness :
  normalize (shuffled_members (sample_response "Kathmandu" relative_icon three_days))
  = Ok (Some kathmandu_three_days).
Proof.
  change (Ok (Some kathmandu_three_days))
    with (normalize (sample_response "Kathmandu" relative_icon three_days)).
  unfold shuffled_members, sample_response.
  apply normalize_reads_four_members.
  intros k Hk. simpl in Hk.
  destruct Hk as [<- | [<- | [<- | [<- | []]]]]; reflexivity.
Defined.

(** ** Animations (lines 20-59) *)

Lemma lottie_lookup_find (env : Environment) (table : list (string * string))
      (s : string) (st : State) :
  lottie_lookup env table (JStr s) st
  = match find (fun entry => contains (lower (fst entry)) (lower s)) table with
    | Some entry => load_lottie env (snd entry) st
    | None => (st, Ok JNull)
    end.
Proof.
  induction table as [| [key url] rest IH]; simpl; [reflexivity |].
  unfold bind at 1, lift. simpl.
  destruct (contains (lower key) (lower s)); [reflexivity | exact IH].
Qed.

(** X9: the animation of a condition is that of the first key of the table,
    in table order, that occurs in the condition text, letter case aside:
    that one URL is downloaded and no other; a text no key occurs in gives
    None without any request, and a condition that is no text raises
    AttributeError without any request.  Two texts equal up to letter case
    get the same answer. *)
Theorem animation_is_first_matching_key
        (env : Environment) (condition : json) (st : State) :
  match condition with
  | JStr s =>
      match matching_animation s with
      | Some entry =>
          In entry WEATHER_LOTTIE
          /\ get_lottie_for_condition env condition st = load_lottie env (snd entry) st
          /\ requested (fst (get_lottie_for_condition env condition st))
             = requested st ++ [snd entry]
      | None => get_lottie_for_condition env condition st = (st, Ok JNull)
      end
      /\ (forall s', lower s' = lower s ->
                     get_lottie_for_condition env (JStr s') st
                     = get_lottie_for_condition env condition st)
  | _ => get_lottie_for_condition env condition st = (st, Raise AttributeError)
  end.
Proof.
  destruct condition as [| b | z | f | s | l | o]; try reflexivity.
  unfold get_lottie_for_condition, matching_animation. split.
  - rewrite lottie_lookup_find.
    destruct (find _ WEATHER_LOTTIE) as [entry |] eqn:Hfind; [| reflexivity].
    apply find_some in Hfind. destruct Hfind as [Hin _].
    repeat split; try assumption.
    unfold load_lottie, bind, http_get.
    destruct (requests_get env (snd entry)) as [r | e]; simpl; [| reflexivity].
    destruct (negb (status_code r =? 200)); reflexivity.
  - intros s' Hs'. rewrite !lottie_lookup_find, Hs'. reflexivity.
Qed.

Lemma load_then_show (env : Environment) (u : string) (event : json -> ui_event) (st : State) :
  exists shown,
    fst ((lottie_bg <- load_lottie env u ;;
          when (truthy lottie_bg) (widget (event lottie_bg))) st)
    = mkState (comparison_df st) (download_df st) (ui st ++ shown) (requested st ++ [u])
    /\ (List.length shown <= 1)%nat
    /\ Forall (fun e => exists animation, e = event animation /\ truthy animation = true)
         shown.
Proof.
  destruct st as [cmp dl shown0 reqs].
  unfold load_lottie, bind, http_get, when, widget, render, ret, lift. simpl.
  destruct (requests_get env u) as [r | e]; simpl.
  - destruct (status_code r =? 200); simpl.
    + destruct (json_body r) as [a | e]; simpl.
      * destruct (truthy a) eqn:Ha; simpl.
        -- destruct (refused shown0 (event a)); simpl.
           ++ exists []. rewrite app_nil_r. repeat split; [simpl; lia | constructor].
           ++ exists [event a]. repeat split; [simpl; lia |].
              repeat constructor. exists a. split; [reflexivity | exact Ha].
        -- exists []. rewrite app_nil_r. repeat split; [simpl; lia | constructor].
      * exists []. rewrite app_nil_r. repeat split; [simpl; lia | constructor].
    + exists []. rewrite app_nil_r. repeat split; [simpl; lia | constructor].
  - exists []. rewrite app_nil_r. repeat split; [simpl; lia | constructor].
Qed.

(** X10: the background animation of a text condition costs at most one
    request, to one of the four background URLs, and renders at most one
    element, an animation of the given size keyed [bg_] plus the condition
    text; a text holding none of the six keywords costs and renders nothing;
    the tables are left alone.  A condition that is no text raises
    AttributeError before anything is requested. *)
Theorem background_animation_effects
        (env : Environment) (condition : json) (width height : Z) (st : State) :
  match condition with
  | JStr s =>
      exists urls shown,
        fst (set_full_bg_animation env condition width height st)
        = mkState (comparison_df st) (download_df st)
            (ui st ++ shown) (requested st ++ urls)
        /\ (List.length urls <= 1)%nat
        /\ (List.length shown <= List.length urls)%nat
        /\ Forall (fun u => In u [ "https://assets3.lottiefiles.com/packages/lf20_sun.json";
                                   "https://assets5.lottiefiles.com/packages/lf20_cloudy.json";
                                   "https://assets3.lottiefiles.com/packages/lf20_rain.json";
                                   "https://assets3.lottiefiles.com/packages/lf20_snow.json" ])
             urls
        /\ Forall (fun e => exists animation,
                       e = st_lottie animation height width (Some ("bg_" ++ s)%string)
                       /\ truthy animation = true)
             shown
        /\ (has_background_keyword (lower s) = false ->
            urls = [] /\ shown = []
            /\ snd (set_full_bg_animation env condition width height st) = Ok tt)
  | _ => set_full_bg_animation env condition width height st = (st, Raise AttributeError)
  end.
Proof.
  destruct condition as [| b | z | f | s | l | o]; try reflexivity.
  unfold set_full_bg_animation, has_background_keyword.
  unfold bind at 1. unfold bind at 2. unfold lift.
  cbn [py_lower py_str]. cbv beta iota zeta.
  destruct (contains "sun" (lower s)); destruct (contains "clear" (lower s));
    destruct (contains "cloud" (lower s)); destruct (contains "rain" (lower s));
    destruct (contains "thunder" (lower s)); destruct (contains "snow" (lower s));
    cbn [orb];
    match goal with
    | |- context [load_lottie env ?u] =>
        destruct (load_then_show env u
                    (fun a => st_lottie a height width (Some ("bg_" ++ s)%string)) st)
          as (shown & Hrun & Hlen & Hshown);
        exists [u], shown; rewrite Hrun;
        repeat split; try assumption; try discriminate;
        [simpl; lia | repeat constructor; simpl; tauto]
    | |- _ =>
        destruct st as [cmp dl shown0 reqs];
        exists [], []; simpl; rewrite !app_nil_r;
        repeat split; first [lia | constructor]
    end.
Qed.

(** ** Current conditions without an animation (lines 153-169) *)

Lemma no_keyword_no_background
      (env : Environment) (s : string) (width height : Z) (st : State) :
  has_background_keyword (lower s) = false ->
  set_full_bg_animation env (JStr s) width height st = (st, Ok tt).
Proof.
  unfold has_background_keyword. intros H.
  repeat (apply orb_false_elim in H; destruct H as [H ?]).
  unfold set_full_bg_animation, bind, lift. cbn [py_lower].
  repeat match goal with
         | Hc : contains _ (lower s) = false |- _ => rewrite Hc; clear Hc
         end.
  reflexivity.
Qed.

(** X11: for a city whose condition text holds no background keyword and no
    key of the animation table, the current-conditions block makes no
    request at all and shows, in this order, the overlay opening, the
    "city, country" header, the provider's icon at width 60 and the five
    lines of readings, the temperature followed by the degree sign and C; it
    ends normally. *)
Theorem unmatched_condition_shows_icon
        (env : Environment) (w : CityWeather.t) (s : string) (width : Z) (st : State) :
  CityWeather.weather w = JStr s ->
  has_background_keyword (lower s) = false ->
  matching_animation s = None ->
  current_conditions env w width st
  = (mkState (comparison_df st) (download_df st)
       (ui st
        ++ [ st_markdown "<div class=overlay>" true;
             st_subheader (py_str env (CityWeather.city w) ++ ", "
                           ++ py_str env (CityWeather.country w))%string;
             st_image (CityWeather.icon w) 60;
             st_write ("**" ++ s ++ "**")%string;
             st_write (" Temperature: " ++ py_str env (CityWeather.temp w)
                       ++ DEGREE ++ "C")%string;
             st_write (" Humidity: " ++ py_str env (CityWeather.humidity w) ++ "%")%string;
             st_write (" Wind: " ++ py_str env (CityWeather.wind_kph w) ++ " kph "
                       ++ py_str env (CityWeather.wind_dir w))%string;
             st_write (" Sunrise: " ++ py_str env (CityWeather.sunrise w)
                       ++ " |  Sunset: " ++ py_str env (CityWeather.sunset w))%string ])
       (requested st),
     Ok tt).
Proof.
  intros Hweather Hbg Hanim.
  unfold current_conditions. rewrite Hweather.
  unfold bind at 1. rewrite (no_keyword_no_background _ _ _ _ _ Hbg).
  unfold get_lottie_for_condition, bind, render.
  cbn [fst snd ui comparison_df download_df requested].
  rewrite lottie_lookup_find. unfold matching_animation in Hanim. rewrite Hanim.
  destruct st as [cmp dl shown reqs]. simpl. rewrite <- !app_assoc. reflexivity.
Qed.

Lemma unmatched_condition_shows_icon_witness :
  CityWeather.weather overcast_city = JStr "Overcast"
  /\ has_background_keyword (lower "Overcast") = false
  /\ matching_animation "Overcast" = None
  /\ requested (fst (current_conditions two_city_env overcast_city 266 init_state)) = []
  /\ List.length (ui (fst (current_conditions two_city_env overcast_city 266 init_state)))
     = 8%nat
  /\ nth_error (ui (fst (current_conditions two_city_env overcast_city 266 init_state))) 4
     = Some (st_write (" Temperature: " ++ str_other two_city_env (JInt 18)
                       ++ String "176"%char "C")%string).
Proof.
  do 3 (split; [reflexivity |]).
  rewrite (unmatched_condition_shows_icon two_city_env overcast_city "Overcast" 266
             init_state eq_refl eq_refl eq_refl).
  repeat split.
Defined.

(** ** The page around the loop (lines 124-137 and 224-248) *)

Lemma main_around_loop (env : Environment) :
  main env init_state
  = (city_loop env (cities env) ;; page_footer env) (before_loop env).
Proof.
  unfold main, page_footer, before_loop, page_header, bind, when, set_overlay_css,
    set_comparison_df, set_download_df, render, ret.
  destruct (API_KEY env) as [[| c k] |]; reflexivity.
Qed.

Lemma before_loop_tables (env : Environment) :
  comparison_df (before_loop env) = empty_frame
  /\ download_df (before_loop env) = empty_frame
  /\ requested (before_loop env) = []
  /\ existsb closing_element (ui (before_loop env)) = false.
Proof.
  unfold before_loop, page_header, bind, when, set_overlay_css,
    set_comparison_df, set_download_df, render, ret.
  destruct (API_KEY env) as [[| c k] |]; repeat split.
Qed.

(** X12: when the body of some city raises, the script ends with that
    exception in the state the loop left: the cities processed before stay
    rendered, but no chart, no download button and no closing note are
    rendered, and nothing after the loop runs. *)
Theorem raising_city_ends_the_page (env : Environment) (e : exn) :
  snd (city_loop env (cities env) (before_loop env)) = Raise e ->
  main env init_state = (fst (city_loop env (cities env) (before_loop env)), Raise e)
  /\ existsb closing_element (ui (fst (main env init_state))) = false.
Proof.
  intros Hraise.
  assert (Hmain : main env init_state
                  = (fst (city_loop env (cities env) (before_loop env)), Raise e)).
  { rewrite main_around_loop. unfold bind.
    destruct (city_loop env (cities env) (before_loop env)) as [st1 [[] | e1]];
      simpl in Hraise; [discriminate Hraise |].
    injection Hraise as ->. reflexivity. }
  split; [exact Hmain |].
  rewrite Hmain. cbn [fst].
  destruct (no_closing_city_loop env (cities env) (before_loop env)) as (shown & U & C).
  destruct (before_loop_tables env) as (_ & _ & _ & Hheader).
  rewrite U, existsb_app, Hheader, (not_closing_none _ C). reflexivity.
Qed.

Lemma raising_city_ends_the_page_witness :
  snd (city_loop offline_env (cities offline_env) (before_loop offline_env))
  = Raise ConnectionError
  /\ snd (main offline_env init_state) = Raise ConnectionError
  /\ requested (fst (main offline_env init_state))
     = ["http://api.weatherapi.com/v1/forecast.json?key=None&q=Kathmandu&days=7&aqi=no&alerts=no"]
  /\ existsb closing_element (ui (fst (main offline_env init_state))) = false.
Proof.
  assert (Hraise : snd (city_loop offline_env (cities offline_env) (before_loop offline_env))
                   = Raise ConnectionError) by reflexivity.
  destruct (raising_city_ends_the_page offline_env ConnectionError Hraise) as [Hmain Hnone].
  split; [exact Hraise |]. rewrite Hmain.
  split; [reflexivity |]. split; [reflexivity |].
  rewrite Hmain in Hnone. exact Hnone.
Defined.

Lemma successes_have_forecasts (env : Environment) (names : list string) :
  Forall (fun w => CityWeather.forecast w <> []) (successes env names).
Proof.
  induction names as [| city rest IH]; [constructor |].
  rewrite successes_cons.
  destruct (fetched env city) as [[w |] | e] eqn:Hfetched; simpl; try exact IH.
  constructor; [exact (fetched_forecast_nonempty _ _ _ Hfetched) | exact IH].
Qed.

Lemma union_with_duplicates_nonempty (x : label) (a b : list label) :
  union_with_duplicates (x :: a) b <> [].
Proof.
  unfold union_with_duplicates. simpl. unfold count at 1. simpl.
  rewrite label_eqb_refl. simpl.
  destruct (count x b); simpl; discriminate.
Qed.

Lemma sorted_union_nonempty (x : label) (a b : list label) :
  sort_labels (union_with_duplicates (x :: a) b) <> [].
Proof.
  intros Hs. apply (union_with_duplicates_nonempty x a b).
  apply length_zero_iff_nil. rewrite <- length_sort_labels, Hs. reflexivity.
Qed.

Lemma combined_index_nonempty_r (a b : list label) :
  b <> [] -> combined_index a b <> [].
Proof.
  intros Hb. unfold combined_index. destruct (index_eqb a b) eqn:Heq.
  - apply index_eqb_eq in Heq. subst. exact Hb.
  - destruct a as [| x a]; [exact Hb |].
    destruct b as [| y b]; [contradiction | apply sorted_union_nonempty].
Qed.

Lemma combined_index_nonempty_l (a b : list label) :
  a <> [] -> combined_index a b <> [].
Proof.
  intros Ha. unfold combined_index. destruct (index_eqb a b).
  - exact Ha.
  - destruct a as [| x a]; [contradiction |].
    destruct b as [| y b]; [exact Ha | apply sorted_union_nonempty].
Qed.

Lemma city_loop_comparison_index
      (env : Environment) (names : list string) (st st' : State) :
  city_loop env names st = (st', Ok tt) ->
  index (comparison_df st) <> [] \/ successes env names <> [] ->
  index (comparison_df st') <> [].
Proof.
  revert st. induction names as [| city rest IH]; intros st H Hsome; simpl in H.
  - injection H as <-. destruct Hsome as [Hi | Hs]; [exact Hi | contradiction].
  - apply bind_ok in H. destruct H as ([] & st1 & Hblock & Hrest).
    apply (IH _ Hrest). clear IH Hrest.
    apply city_block_effect in Hblock.
    destruct Hblock as (shown & urls & _ & _ & _ & Htables).
    rewrite successes_cons in Hsome.
    destruct (fetched env city) as [[w |] | e] eqn:Hfetched; [| | contradiction].
    + left. destruct Htables as (csv & Hjoin & _).
      apply concat_columns_names in Hjoin. destruct Hjoin as [Hindex _].
      rewrite Hindex. apply combined_index_nonempty_r.
      pose proof (fetched_forecast_nonempty _ _ _ Hfetched) as Hne.
      simpl. destruct (CityWeather.forecast w); [contradiction | discriminate].
    + destruct Htables as (-> & _). exact Hsome.
Qed.

Lemma df_empty_export_of (rows : list ForecastDay.t) (tag : list cell) :
  df_empty (export_of rows tag) = match rows with [] => true | _ => false end.
Proof. destruct rows; reflexivity. Qed.

Lemma flat_forecast_nil (ws : list CityWeather.t) :
  Forall (fun w => CityWeather.forecast w <> []) ws ->
  flat_map CityWeather.forecast ws = [] -> ws = [].
Proof.
  intros Hne Hnil. destruct Hne as [| w ws Hw _]; [reflexivity |].
  simpl in Hnil. apply app_eq_nil in Hnil. destruct Hnil as [Hnil _]. contradiction.
Qed.

(** *** The chart *)

Lemma one_column_of_a_name (cols : list (string * list cell)) (c : string * list cell) :
  NoDup (map fst cols) -> In c cols ->
  filter (fun c' => String.eqb (fst c') (fst c)) cols = [c].
Proof.
  induction cols as [| a cols IH]; simpl; intros Hcols Hc; [contradiction |].
  inversion Hcols as [| ? ? Ha Hrest]; subst.
  destruct (String.eqb (fst a) (fst c)) eqn:Heq.
  - apply String.eqb_eq in Heq.
    destruct Hc as [-> | Hc];
      [| exfalso; apply Ha; rewrite Heq; apply in_map; exact Hc].
    f_equal. apply filter_none. intros c' Hc'. apply String.eqb_neq. intros Hsame.
    apply Ha. rewrite <- Hsame. apply in_map. exact Hc'.
  - destruct Hc as [-> | Hc]; [rewrite String.eqb_refl in Heq; discriminate Heq |].
    apply IH; assumption.
Qed.

Lemma add_traces_distinct (df : DataFrame) :
  NoDup (map fst (columns df)) ->
  add_traces df (map fst (columns df))
  = Ok (map (fun c => (fst c, index df, columns_named (fst c) df)) (columns df)).
Proof.
  intros Hcols.
  assert (H : forall cols, (forall c, In c cols -> In c (columns df)) ->
                           add_traces df (map fst cols)
                           = Ok (map (fun c => (fst c, index df, columns_named (fst c) df))
                                     cols)).
  { induction cols as [| c cols IH]; intros Hsub; [reflexivity |].
    cbn [map add_traces]. rewrite IH by (intros c' Hc'; apply Hsub; right; exact Hc').
    unfold scatter, columns_named.
    rewrite (one_column_of_a_name _ c Hcols (Hsub c (or_introl eq_refl))).
    reflexivity. }
  apply H. trivial.
Qed.

(** X13: after a pass that ran to its end, the page closes as the tables
    say.  If no city was fetched, only the rule and the provider note
    follow.  If at least one was, the chart comes first, with one trace per
    comparison column (two per fetched city, in city order, named after the
    city) over the table's dates, then exactly one download button carrying
    the export table, then the rule and the note.  The tables are those the
    loop left.  The chart is never refused: the date inputs of a completed
    pass have different labels, so the column names differ and every trace
    takes a single column. *)
Theorem completed_pass_closes_the_page (env : Environment) (st' : State) :
  city_loop env (cities env) (before_loop env) = (st', Ok tt) ->
  let ws := successes env (cities env) in
  let traces := map (fun c => (fst c, index (comparison_df st'),
                               columns_named (fst c) (comparison_df st')))
                    (columns (comparison_df st')) in
  main env init_state
  = (mkState (comparison_df st') (download_df st')
       (ui st'
        ++ match ws with
           | [] => []
           | _ => [ st_markdown "##  Temperature Comparison Across Cities" false;
                    st_plotly_chart traces (Z.min (screen_width env) 1000);
                    st_markdown "##  Download Forecast Data" false;
                    st_download_button "Download CSV" (download_df st')
                      "weather_forecast.csv" "text/csv" ]
           end
        ++ [ st_markdown "---" false;
             st_info "Data provided by [WeatherAPI](https://www.weatherapi.com/)" ])
       (requested st'),
     Ok tt)
  /\ map (fun t => fst (fst t)) traces = flat_map (series_names env) ws
  /\ List.length traces = (2 * List.length ws)%nat
  /\ NoDup (map (fun t => fst (fst t)) traces).
Proof.
  intros Hrun ws traces.
  destruct (before_loop_tables env) as (Hcmp0 & Hdl0 & _ & _).
  pose proof (city_loop_comparison_names _ _ _ _ Hrun) as Hnames.
  rewrite Hcmp0 in Hnames. simpl in Hnames. fold ws in Hnames.
  destruct (city_loop_download env _ _ _ [] [] Hrun Hdl0 (fun _ => eq_refl))
    as (tags & _ & Hdl).
  simpl in Hdl. fold ws in Hdl.
  pose proof (successes_have_forecasts env (cities env)) as Hforecasts.
  fold ws in Hforecasts.
  assert (Hidx : ws <> [] -> index (comparison_df st') <> []).
  { intros Hws. apply (city_loop_comparison_index _ _ _ _ Hrun). right. exact Hws. }
  assert (Hdistinct : NoDup (map fst (columns (comparison_df st')))).
  { rewrite Hnames. apply labels_NoDup_names.
    apply (city_loop_date_inputs _ _ _ _ Hrun). }
  pose proof (add_traces_distinct _ Hdistinct) as Htraces. fold traces in Htraces.
  clearbody ws.
  assert (Hdlempty : df_empty (download_df st') = match ws with [] => true | _ => false end).
  { rewrite Hdl, df_empty_export_of. destruct Hforecasts as [| w ws' Hw _]; [reflexivity |].
    simpl. destruct (CityWeather.forecast w); [contradiction | reflexivity]. }
  assert (Hcmpempty : df_empty (comparison_df st') = match ws with [] => true | _ => false end).
  { unfold df_empty. destruct ws as [| w ws'].
    - simpl in Hnames. apply map_eq_nil in Hnames. rewrite Hnames.
      destruct (index (comparison_df st')); reflexivity.
    - assert (Hne : index (comparison_df st') <> []) by (apply Hidx; discriminate).
      destruct (index (comparison_df st')); [contradiction |].
      destruct (columns (comparison_df st')); [discriminate Hnames | reflexivity]. }
  split; [| split; [| split]].
  - rewrite main_around_loop. unfold bind at 1. rewrite Hrun.
    unfold page_footer, comparison_chart, csv_download, bind, read, when, render, lift.
    cbn [fst snd comparison_df download_df ui requested].
    rewrite Hcmpempty, Htraces. clearbody traces.
    destruct st' as [cmp dl shown reqs].
    destruct ws; cbn [negb fst snd comparison_df download_df ui requested ret];
      cbn [comparison_df download_df] in Hdlempty; rewrite Hdlempty; simpl;
      rewrite <- ?app_assoc; reflexivity.
  - subst traces. rewrite map_map. simpl. exact Hnames.
  - subst traces. rewrite length_map.
    apply (f_equal (@List.length string)) in Hnames. rewrite length_map in Hnames.
    rewrite Hnames. clear. induction ws as [| w ws IH]; simpl; [reflexivity |].
    simpl in IH. rewrite IH. lia.
  - subst traces. rewrite map_map. simpl. exact Hdistinct.
Qed.

Lemma completed_pass_closes_the_page_witness :
  let st' := fst (city_loop kathmandu_env (cities kathmandu_env) (before_loop kathmandu_env)) in
  city_loop kathmandu_env (cities kathmandu_env) (before_loop kathmandu_env) = (st', Ok tt)
  /\ snd (main kathmandu_env init_state) = Ok tt
  /\ List.length (columns (comparison_df st')) = 2%nat
  /\ existsb offers_download (ui (fst (main kathmandu_env init_state))) = true.
Proof.
  intros st'.
  assert (Hrun : city_loop kathmandu_env (cities kathmandu_env) (before_loop kathmandu_env)
                 = (st', Ok tt)) by (vm_compute; reflexivity).
  destruct (completed_pass_closes_the_page kathmandu_env st' Hrun) as (Hmain & _ & Hlen & _).
  split; [exact Hrun |]. rewrite Hmain.
  split; [reflexivity |]. split.
  - rewrite length_map in Hlen. exact Hlen.
  - vm_compute. reflexivity.
Defined.

(** ** Shape of the two tables after the loop (lines 207-215) *)

Lemma export_frame_well_formed (rows : list ForecastDay.t) (tag : list cell) :
  List.length tag = List.length rows -> well_formed (export_frame rows tag).
Proof.
  intros Htag. unfold well_formed, export_frame. cbn [index columns].
  rewrite range_index_length. apply Forall_app. split.
  - unfold forecast_columns. repeat constructor; simpl; apply length_map.
  - repeat constructor. exact Htag.
Qed.

Lemma scalar_tags_length (env : Environment) (ws : list CityWeather.t) (tags : list (list cell)) :
  Forall2 (tagged env) ws tags ->
  Forall (fun w => scalar (CityWeather.city w) = true) ws ->
  List.length (List.concat tags) = List.length (flat_map CityWeather.forecast ws).
Proof.
  induction 1 as [| w tag ws tags Htag _ IH]; intros Hscalar; [reflexivity |].
  inversion Hscalar as [| ? ? Hw Hws]; subst. simpl.
  rewrite !length_app, (IH Hws), (tagged_scalar env w tag Htag Hw), repeat_length.
  reflexivity.
Qed.

(** X14: after a pass that ran to its end from an empty export table, with
    city names that are scalars (text, as the provider sends them), the
    export table is either still the empty frame (no city fetched) or has
    exactly the twelve columns date, temp_day, temp_night, weather, wind_kph,
    humidity, chance_of_rain, uv, sunrise, sunset, icon, city in this order,
    every column as long as the table, and rows numbered from 0 without
    gaps. *)
Theorem export_table_shape (env : Environment) (names : list string) (st st' : State) :
  download_df st = empty_frame ->
  city_loop env names st = (st', Ok tt) ->
  Forall (fun w => scalar (CityWeather.city w) = true) (successes env names) ->
  match successes env names with
  | [] => download_df st' = empty_frame
  | _ =>
      map fst (columns (download_df st'))
      = [ "date"; "temp_day"; "temp_night"; "weather"; "wind_kph"; "humidity";
          "chance_of_rain"; "uv"; "sunrise"; "sunset"; "icon"; "city" ]
      /\ well_formed (download_df st')
      /\ index (download_df st') = range_index (nrows (download_df st'))
      /\ (0 < nrows (download_df st'))%nat
  end.
Proof.
  intros Hempty Hrun Hscalar.
  destruct (city_loop_download env names st st' [] [] Hrun Hempty (fun _ => eq_refl))
    as (tags & Htags & Hfinal).
  simpl in Hfinal.
  pose proof (scalar_tags_length env _ _ Htags Hscalar) as Hlen.
  pose proof (successes_have_forecasts env names) as Hforecasts.
  destruct (successes env names) as [| w ws]; [exact Hfinal |].
  inversion Hforecasts as [| ? ? Hw _]; subst.
  assert (Hrows : flat_map CityWeather.forecast (w :: ws) <> []).
  { simpl. destruct (CityWeather.forecast w); [contradiction | discriminate]. }
  destruct (flat_map CityWeather.forecast (w :: ws)) as [| r rows] eqn:Hflat;
    [contradiction |].
  change (export_of (r :: rows) (List.concat tags))
    with (export_frame (r :: rows) (List.concat tags)) in Hfinal.
  rewrite Hfinal. repeat split.
  - apply export_frame_well_formed. exact Hlen.
  - rewrite nrows_export_frame. reflexivity.
  - rewrite nrows_export_frame. simpl. lia.
Qed.

Lemma export_table_shape_witness :
  let final := fst (city_loop same_week_env (cities same_week_env) init_state) in
  city_loop same_week_env (cities same_week_env) init_state = (final, Ok tt)
  /\ List.length (successes same_week_env (cities same_week_env)) = 2%nat
  /\ List.length (columns (download_df final)) = 12%nat
  /\ well_formed (download_df final).
Proof.
  intros final.
  assert (Hrun : city_loop same_week_env (cities same_week_env) init_state = (final, Ok tt))
    by (vm_compute; reflexivity).
  pose proof (export_table_shape same_week_env (cities same_week_env) init_state final
                eq_refl Hrun) as Hshape.
  assert (Hscalar : Forall (fun w => scalar (CityWeather.city w) = true)
                      (successes same_week_env (cities same_week_env)))
    by (vm_compute; repeat constructor).
  specialize (Hshape Hscalar).
  split; [exact Hrun |]. split; [reflexivity |].
  destruct (successes same_week_env (cities same_week_env)) as [| w ws] eqn:Hws;
    [discriminate Hws |].
  destruct Hshape as (Hnames & Hwf & _ & _).
  split; [| exact Hwf].
  apply (f_equal (@List.length string)) in Hnames. rewrite length_map in Hnames.
  exact Hnames.
Defined.

Lemma reindex_well_formed (idx : list label) (df df' : DataFrame) :
  reindex idx df = Ok df' -> well_formed df -> well_formed df'.
Proof.
  unfold reindex. destruct (index_eqb (index df) idx).
  - intros H. injection H as <-. trivial.
  - destruct (is_unique (index df)); [| discriminate].
    intros H _. injection H as <-. unfold well_formed. cbn [index columns].
    apply Forall_forall. intros c Hc. apply in_map_iff in Hc.
    destruct Hc as (c0 & <- & _). simpl. apply length_map.
Qed.

Lemma concat_columns_well_formed (a b t : DataFrame) :
  concat_columns a b = Ok t -> well_formed a -> well_formed b -> well_formed t.
Proof.
  unfold concat_columns. intros H Ha Hb. do 2 invert_rbind H. injection H as <-.
  unfold well_formed. cbn [index columns].
  match goal with
  | H1 : reindex ?idx a = Ok ?a', H2 : reindex ?idx b = Ok ?b' |- _ =>
      pose proof (reindex_well_formed _ _ _ H1 Ha) as Ha';
      pose proof (reindex_well_formed _ _ _ H2 Hb) as Hb';
      apply reindex_names in H1, H2; destruct H1 as [I1 _]; destruct H2 as [I2 _]
  end.
  unfold well_formed in *. rewrite I1 in Ha'. rewrite I2 in Hb'.
  apply Forall_app. split; assumption.
Qed.

Lemma city_loop_comparison_invariant
      (env : Environment) (names : list string) (st st' : State) :
  city_loop env names st = (st', Ok tt) ->
  well_formed (comparison_df st) ->
  well_formed (comparison_df st')
  /\ forall l, In l (index (comparison_df st')) <->
               In l (index (comparison_df st))
               \/ exists w, In w (successes env names) /\ In l (date_labels w).
Proof.
  revert st. induction names as [| city rest IH]; intros st H Hwf; simpl in H.
  - injection H as <-. split; [exact Hwf |]. intros l. split; [tauto |].
    intros [Hl | (w & [] & _)]. exact Hl.
  - apply bind_ok in H. destruct H as ([] & st1 & Hblock & Hrest).
    apply city_block_effect in Hblock.
    destruct Hblock as (shown & urls & _ & _ & _ & Htables).
    rewrite successes_cons.
    destruct (fetched env city) as [[w |] | e]; [| | contradiction].
    + destruct Htables as (csv & Hjoin & _).
      pose proof (concat_columns_well_formed _ _ _ Hjoin Hwf (temp_df_well_formed env w))
        as Hwf1.
      apply concat_columns_names in Hjoin. destruct Hjoin as [Hindex _].
      destruct (IH _ Hrest Hwf1) as [Hwf' Hin]. split; [exact Hwf' |].
      intros l. rewrite Hin, Hindex, in_combined_index.
      change (index (temp_df env w)) with (date_labels w). simpl. split.
      * intros [[Hl | Hl] | (w' & Hw' & Hl)].
        -- left. exact Hl.
        -- right. exists w. split; [left; reflexivity | exact Hl].
        -- right. exists w'. split; [right; exact Hw' | exact Hl].
      * intros [Hl | (w' & [<- | Hw'] & Hl)].
        -- left. left. exact Hl.
        -- left. right. exact Hl.
        -- right. exists w'. split; assumption.
    + destruct Htables as (Hcmp & _).
      destruct (IH _ Hrest) as [Hwf' Hin]; [rewrite Hcmp; exact Hwf |].
      split; [exact Hwf' |]. intros l. rewrite Hin, Hcmp. simpl. tauto.
Qed.

(** X15: after a pass that ran to its end from an empty comparison table,
    the table has exactly two columns per fetched city, every column is as
    long as the table has rows, and its row labels are exactly the forecast
    dates of the fetched cities: a date is a row if and only if some fetched
    city has it. *)
Theorem comparison_table_invariants
        (env : Environment) (names : list string) (st st' : State) :
  comparison_df st = empty_frame ->
  city_loop env names st = (st', Ok tt) ->
  let ws := successes env names in
  ncols (comparison_df st') = (2 * List.length ws)%nat
  /\ well_formed (comparison_df st')
  /\ forall l, In l (index (comparison_df st')) <->
               exists w, In w ws /\ In l (date_labels w).
Proof.
  intros Hempty Hrun ws.
  assert (Hwf0 : well_formed (comparison_df st)) by (rewrite Hempty; constructor).
  destruct (city_loop_comparison_invariant env names st st' Hrun Hwf0) as [Hwf Hin].
  split; [| split; [exact Hwf |]].
  - pose proof (city_loop_comparison_names _ _ _ _ Hrun) as Hnames.
    rewrite Hempty in Hnames. simpl in Hnames.
    apply (f_equal (@List.length string)) in Hnames. rewrite length_map in Hnames.
    unfold ncols. rewrite Hnames. subst ws. clear.
    induction (successes env names) as [| w ws IH]; simpl; [reflexivity |].
    simpl in IH. rewrite IH. lia.
  - intros l. rewrite Hin, Hempty. simpl. split; [intros [[] | H]; exact H | tauto].
Qed.

Lemma comparison_table_invariants_witness :
  let final := fst (city_loop two_city_env (cities two_city_env) init_state) in
  city_loop two_city_env (cities two_city_env) init_state = (final, Ok tt)
  /\ ncols (comparison_df final) = 4%nat
  /\ In (LDate (mkdate 2026 12 7)) (index (comparison_df final)).
Proof.
  intros final.
  assert (Hrun : city_loop two_city_env (cities two_city_env) init_state = (final, Ok tt))
    by (vm_compute; reflexivity).
  destruct (comparison_table_invariants two_city_env (cities two_city_env) init_state final
              eq_refl Hrun) as (Hcols & _ & Hrows).
  split; [exact Hrun |]. split; [exact Hcols |].
  apply (proj2 (Hrows (LDate (mkdate 2026 12 7)))).
  exists pokhara_december. split.
  - vm_compute. right. left. reflexivity.
  - vm_compute. do 6 right. left. reflexivity.
Defined.

(** ** Merging one city (lines 207-215) *)

(** X16: with a scalar city name the merge of a city is all or nothing: when
    the join on the dates is accepted both tables are replaced (the joined
    comparison table, the export table with the city's tagged rows appended)
    and nothing is rendered or requested; when the join is refused the merge
    raises and the state is untouched. *)
Theorem aggregate_is_all_or_nothing
        (env : Environment) (w : CityWeather.t) (st : State) :
  scalar (CityWeather.city w) = true ->
  match concat_columns (comparison_df st) (temp_df env w) with
  | Ok joined =>
      aggregate env w st
      = (mkState joined
           (concat_rows (download_df st)
              (export_frame (CityWeather.forecast w)
                 (repeat (CVal (CityWeather.city w))
                    (List.length (CityWeather.forecast w)))))
           (ui st) (requested st),
         Ok tt)
  | Raise e => aggregate env w st = (st, Raise e)
  end.
Proof.
  intros Hscalar.
  unfold aggregate, bind, read, lift, set_comparison_df, set_download_df,
    city_csv_df, city_column, export_frame.
  destruct (concat_columns (comparison_df st) (temp_df env w)) as [joined | e];
    [| reflexivity].
  destruct (CityWeather.city w); try discriminate Hscalar; reflexivity.
Qed.

Lemma aggregate_is_all_or_nothing_witness :
  scalar (CityWeather.city kathmandu_week) = true
  /\ snd (aggregate kathmandu_env kathmandu_week init_state) = Ok tt
  /\ nrows (download_df (fst (aggregate kathmandu_env kathmandu_week init_state))) = 7%nat.
Proof.
  split; [reflexivity |].
  pose proof (aggregate_is_all_or_nothing kathmandu_env kathmandu_week init_state eq_refl)
    as Hrun.
  rewrite concat_columns_empty_left in Hrun. rewrite Hrun.
  split; reflexivity.
Defined.

(** ** A selected day that cannot be compared (lines 178-215) *)

Lemma bind_never_ok {A} (m : M A) (k : A -> M unit) :
  (forall a st, snd (k a st) <> Ok tt) -> forall st, snd (bind m k st) <> Ok tt.
Proof.
  intros Hk st. unfold bind. destruct (m st) as [st1 [a | e]].
  - apply Hk.
  - discriminate.
Qed.

Lemma forecast_details_never_ok
      (env : Environment) (d : ForecastDay.t) (sel : date) (width : Z) (st : State) :
  orderable (ForecastDay.temp_day d) && orderable (ForecastDay.uv d)
  && orderable (ForecastDay.chance_of_rain d) = false ->
  snd (forecast_details env d sel width st) <> Ok tt.
Proof.
  intros Hbad. unfold forecast_details. revert st.
  do 11 (apply bind_never_ok; intros ?).
  intros st. rewrite extreme_alerts_outcome, Hbad. discriminate.
Qed.

(** X17: when the forecast entry of the selected date holds a day
    temperature, UV index or rain probability that cannot be compared with a
    number (null, text, list, object), the loop body of that city raises
    before the merge: both tables are as they were and the pass is over, even
    though the same city would have been merged with another date
    selected. *)
Theorem unorderable_selected_day_blocks_merge
        (env : Environment) (city : string) (w : CityWeather.t) (d : ForecastDay.t)
        (st : State) :
  fetched env city = Ok (Some w) ->
  forecast_for_date (CityWeather.forecast w)
    (date_input env ("Select a date for " ++ py_str env (CityWeather.city w))%string)
  = Some d ->
  orderable (ForecastDay.temp_day d) && orderable (ForecastDay.uv d)
  && orderable (ForecastDay.chance_of_rain d) = false ->
  (exists e, snd (city_block env city st) = Raise e)
  /\ comparison_df (fst (city_block env city st)) = comparison_df st
  /\ download_df (fst (city_block env city st)) = download_df st.
Proof.
  intros Hfetched Hfind Hbad.
  destruct (city_block env city st) as [final r] eqn:Hrun. cbn [fst snd].
  unfold city_block in Hrun. unfold bind at 1 in Hrun.
  rewrite get_weather_run, Hfetched in Hrun. cbv zeta in Hrun. rewrite Hfind in Hrun.
  unfold bind at 1 in Hrun.
  match type of Hrun with
  | context [current_conditions env w ?width ?s] =>
      destruct (current_conditions env w width s) as [st2 r2] eqn:Hcur;
      apply (rendering_run _ _ _ _ (rendering_current_conditions _ _ _)) in Hcur;
      destruct Hcur as (shown2 & urls2 & -> & _)
  end.
  destruct r2 as [[] | e2];
    [| injection Hrun as <- <-; simpl; repeat split; eexists; reflexivity].
  unfold bind at 1 in Hrun.
  match type of Hrun with
  | context [widget ?e ?s] =>
      destruct (widget e s) as [st3 r3] eqn:Hinput;
      apply (rendering_run _ _ _ _ (rendering_widget _)) in Hinput;
      destruct Hinput as (shown3 & urls3 & -> & _)
  end.
  destruct r3 as [[] | e3];
    [| injection Hrun as <- <-; simpl; repeat split; eexists; reflexivity].
  cbn [fst snd comparison_df download_df ui requested] in Hrun.
  unfold bind at 1 in Hrun.
  match type of Hrun with
  | context [forecast_details env d ?sel ?width ?s] =>
      pose proof (forecast_details_never_ok env d sel width s Hbad) as Hnever;
      destruct (forecast_details env d sel width s) as [st4 r4] eqn:Hdetails;
      apply (rendering_run _ _ _ _ (rendering_forecast_details _ _ _ _)) in Hdetails;
      destruct Hdetails as (shown4 & urls4 & -> & _)
  end.
  destruct r4 as [[] | e4]; [exfalso; apply Hnever; reflexivity |].
  injection Hrun as <- <-. simpl. repeat split. eexists. reflexivity.
Qed.

Lemma unorderable_selected_day_blocks_merge_witness :
  snd (city_block null_reading_env "Kathmandu" init_state) = Raise TypeError
  /\ comparison_df (fst (city_block null_reading_env "Kathmandu" init_state)) = empty_frame
  /\ download_df (fst (city_block null_reading_env "Kathmandu" init_state)) = empty_frame.
Proof.
  assert (Hfetched : exists w, fetched null_reading_env "Kathmandu" = Ok (Some w)).
  { eexists. vm_compute. reflexivity. }
  destruct Hfetched as [w Hfetched].
  assert (Hw : Ok (Some w) = fetched null_reading_env "Kathmandu") by (symmetry; exact Hfetched).
  vm_compute in Hw. injection Hw as ->.
  match type of Hfetched with
  | _ = Ok (Some ?w0) =>
      destruct (unorderable_selected_day_blocks_merge null_reading_env "Kathmandu" w0
                  (hd cool_day (CityWeather.forecast w0)) init_state Hfetched
                  eq_refl eq_refl) as (_ & Hcmp & Hdl)
  end.
  split; [vm_compute; reflexivity |]. split; [exact Hcmp | exact Hdl].
Defined.

(** ** A forecast that is not a list (lines 89-104) *)

(** X18: the loop over the forecast days iterates whatever the body holds
    under [forecastday]: a number, a bool or null raises TypeError (not
    iterable), and an object or a text with at least one member or character
    raises TypeError at its first element (a key or a character cannot be
    subscripted with ["date"]); no record is built. *)
Theorem non_list_forecast_raises_TypeError (response listed : json) :
  (exists err, py_get response "error" = Ok err /\ truthy err = false) ->
  (exists current, py_getitem response "current" = Ok current) ->
  (exists location, py_getitem response "location" = Ok location) ->
  py_path response ["forecast"; "forecastday"] = Ok listed ->
  match listed with
  | JArr _ | JObj [] | JStr EmptyString => False
  | _ => True
  end ->
  normalize response = Raise TypeError.
Proof.
  intros (err & Herr & Hfalse) (current & Hcur) (location & Hloc) Hlisted Hshape.
  unfold normalize. rewrite Herr. cbn [rbind]. rewrite Hfalse, Hcur. cbn [rbind].
  rewrite Hloc. cbn [rbind]. rewrite Hlisted. cbn [rbind].
  destruct listed as [| b | z | f | s | l | o]; try reflexivity.
  - destruct s as [| c s]; [contradiction | reflexivity].
  - contradiction.
  - destruct o as [| [k v] o]; [contradiction | reflexivity].
Qed.

Lemma non_list_forecast_raises_TypeError_witness :
  let body := JObj [ ("location", JObj []); ("current", JObj []);
                     ("forecast", JObj [ ("forecastday",
                                          JObj [ ("0", mild_day "2026-11-04") ]) ]) ] in
  py_path body ["forecast"; "forecastday"] = Ok (JObj [ ("0", mild_day "2026-11-04") ])
  /\ normalize body = Raise TypeError.
Proof.
  intros body. split; [reflexivity |].
  apply (non_list_forecast_raises_TypeError body (JObj [ ("0", mild_day "2026-11-04") ])).
  - exists JNull. split; reflexivity.
  - eexists. reflexivity.
  - eexists. reflexivity.
  - reflexivity.
  - exact I.
Defined.
